(** * Header bridging, trace propagation, status translation and RPC metrics

    A shallow embedding of [pkg/messaging/v1/util.go] (package [v1]) and of
    the gRPC metrics recorder of package [diagnostics], together with the
    parts of the Go standard library and of grpc-go they call
    ([strings], [encoding/base64], [net/http], [strconv], [metadata.MD],
    [status.Status]).

    Go strings are byte sequences: they are embedded as [string], whose
    characters are the 256 values of [ascii].  Go's [int] and [uint] are
    embedded as [Z]; the only arithmetic on them here stays far below the
    word size, which is noted where it matters. *)

From Stdlib Require Import ZArith Lia Ascii String List Bool.
From Stdlib Require Import DecimalString.
From stdpp Require Import gmap strings list fin_maps.

Local Open Scope Z_scope.

(** ** Package [strings] *)

Module strings.

(** [unicode.ToLower] on one byte.  Header and metadata keys are ASCII, and
    on ASCII [strings.ToLower] works byte by byte. *)
Definition lower_byte (c : ascii) : ascii :=
  let n := N_of_ascii c in
  if ((65 <=? n) && (n <=? 90))%N then ascii_of_N (n + 32) else c.

Fixpoint ToLower (s : string) : string :=
  match s with
  | EmptyString => EmptyString
  | String c s' => String (lower_byte c) (ToLower s')
  end.

(** [len(s) >= len(prefix) && s[:len(prefix)] == prefix] *)
Definition HasPrefix (s prefix : string) : bool :=
  (String.length prefix <=? String.length s)%nat
  && String.eqb (String.substring 0 (String.length prefix) s) prefix.

(** [len(s) >= len(suffix) && s[len(s)-len(suffix):] == suffix] *)
Definition HasSuffix (s suffix : string) : bool :=
  (String.length suffix <=? String.length s)%nat
  && String.eqb
       (String.substring (String.length s - String.length suffix)
          (String.length suffix) s)
       suffix.

(** [strings.EqualFold]: equality under Unicode simple case folding.  Here it
    is equality up to the case of the letters [A]-[Z]; the two agree whenever
    one side is ASCII without the letters [k] and [s] (the only ASCII letters
    that fold with a character outside ASCII), which is so for the two header
    names it is called with. *)
Definition EqualFold (s t : string) : bool :=
  String.eqb (ToLower s) (ToLower t).

(** [c < utf8.RuneSelf] for every byte [c] of the string: the test by which
    [strings.ToLower] takes its byte by byte path. *)
Fixpoint isASCII (s : string) : bool :=
  match s with
  | EmptyString => true
  | String c s' => (N_of_ascii c <? 128)%N && isASCII s'
  end.

End strings.

(** ** Package [encoding/base64]: [StdEncoding]

    The standard alphabet of RFC 4648 with [=] padding, not strict: trailing
    padding bits are not checked, and carriage returns and line feeds in the
    input are skipped. *)

Module base64.

(** A byte as an unsigned integer, and the conversion [byte(v)] that keeps
    the low eight bits. *)
Definition uint (c : ascii) : Z := Z.of_N (N_of_ascii c).
Definition byte (v : Z) : ascii := ascii_of_N (Z.to_N (Z.land v 255)).

Definition encodeStd : string :=
  "ABCDEFGHIJKLMNOPQRSTUVWXYZabcdefghijklmnopqrstuvwxyz0123456789+/".

Definition padChar : ascii := "="%char.
Definition LF : ascii := ascii_of_N 10.
Definition CR : ascii := ascii_of_N 13.

(** [enc.encode[i]] *)
Definition encode (i : Z) : ascii :=
  match String.get (Z.to_nat i) encodeStd with
  | Some c => c
  | None => zero
  end.

(** [enc.decodeMap[c]]: the table is filled with [0xff] and then
    [decodeMap[encoder[i]] = i] for every position of the alphabet. *)
Fixpoint index_from (i : Z) (alphabet : string) (c : ascii) : Z :=
  match alphabet with
  | EmptyString => 255
  | String a rest => if Ascii.eqb a c then i else index_from (i + 1) rest c
  end.

Definition decodeMap (c : ascii) : Z := index_from 0 encodeStd c.

(** The error value of the package.  The byte offset it carries in Go is
    left out: no caller here looks at it. *)
Inductive error : Type := CorruptInputError.

(** *** Encoding *)

Definition quad (val : Z) : string :=
  String (encode (Z.land (Z.shiftr val 18) 63))
    (String (encode (Z.land (Z.shiftr val 12) 63))
       (String (encode (Z.land (Z.shiftr val 6) 63))
          (String (encode (Z.land val 63)) EmptyString))).

Fixpoint EncodeToString (src : string) : string :=
  match src with
  | EmptyString => EmptyString
  | String a EmptyString =>
      (* remain == 1 *)
      let val := Z.shiftl (uint a) 16 in
      String (encode (Z.land (Z.shiftr val 18) 63))
        (String (encode (Z.land (Z.shiftr val 12) 63))
           (String padChar (String padChar EmptyString)))
  | String a (String b EmptyString) =>
      (* remain == 2 *)
      let val := Z.lor (Z.shiftl (uint a) 16) (Z.shiftl (uint b) 8) in
      String (encode (Z.land (Z.shiftr val 18) 63))
        (String (encode (Z.land (Z.shiftr val 12) 63))
           (String (encode (Z.land (Z.shiftr val 6) 63))
              (String padChar EmptyString)))
  | String a (String b (String c rest)) =>
      let val :=
        Z.lor (Z.lor (Z.shiftl (uint a) 16) (Z.shiftl (uint b) 8)) (uint c) in
      (quad val ++ EncodeToString rest)%string
  end.

(** *** Decoding *)

(** [for si < len(src) && (src[si] == '\n' || src[si] == '\r') { si++ }] *)
Fixpoint skipNewlines (src : string) : string :=
  match src with
  | String c rest =>
      if Ascii.eqb c LF || Ascii.eqb c CR then skipNewlines rest else src
  | EmptyString => EmptyString
  end.

(** What the scanning loop of [decodeQuantum] leaves behind: either it
    returned early ([si, 0, err]), or it fell through to the conversion with
    the sextets read, their number [dlen] and a possibly pending error. *)
Inductive scanned : Type :=
| Returned (rest : string) (err : option error)
| Collected (rest : string) (dbuf : list Z) (dlen : nat) (err : option error).

(** The loop [for j := 0; j < len(dbuf); j++] of [decodeQuantum]; [dbuf]
    holds the [j] sextets read so far.  [src] is the input from [si] on. *)
Fixpoint scan (src : string) (j : nat) (dbuf : list Z) : scanned :=
  match j with
  | 4%nat => Collected src dbuf 4 None
  | _ =>
      match src with
      | EmptyString =>
          (* len(src) == si; the encoding is padded, so only j == 0 is fine *)
          match j with
          | 0%nat => Returned EmptyString None
          | _ => Returned EmptyString (Some CorruptInputError)
          end
      | String c rest =>
          let out := decodeMap c in
          if negb (out =? 255) then scan rest (S j) (dbuf ++ [out])
          else if Ascii.eqb c LF || Ascii.eqb c CR then scan rest j dbuf
          else if negb (Ascii.eqb c padChar) then
            Returned rest (Some CorruptInputError)
          else
            (* we have reached the end and there is padding *)
            match j with
            | 0%nat | 1%nat => Returned rest (Some CorruptInputError)
            | 2%nat =>
                (* "==" is expected, the first "=" is already consumed *)
                match skipNewlines rest with
                | EmptyString => Returned EmptyString (Some CorruptInputError)
                | String c2 rest2 =>
                    if negb (Ascii.eqb c2 padChar) then
                      Returned (String c2 rest2) (Some CorruptInputError)
                    else
                      let rest3 := skipNewlines rest2 in
                      Collected rest3 dbuf j
                        (match rest3 with
                         | EmptyString => None
                         | _ => Some CorruptInputError (* trailing garbage *)
                         end)
                end
            | _ =>
                let rest3 := skipNewlines rest in
                Collected rest3 dbuf j
                  (match rest3 with
                   | EmptyString => None
                   | _ => Some CorruptInputError
                   end)
            end
      end
  end.

(** [decodeQuantum]: the rest of the input, the bytes written ([dst[:n]])
    and the error. *)
Definition decodeQuantum (src : string) : string * string * option error :=
  match scan src 0 [] with
  | Returned rest err => (rest, EmptyString, err)
  | Collected rest dbuf dlen err =>
      let val :=
        Z.lor
          (Z.lor
             (Z.lor (Z.shiftl (nth 0 dbuf 0) 18) (Z.shiftl (nth 1 dbuf 0) 12))
             (Z.shiftl (nth 2 dbuf 0) 6))
          (nth 3 dbuf 0) in
      let b2 := byte (Z.shiftr val 0) in
      let b1 := byte (Z.shiftr val 8) in
      let b0 := byte (Z.shiftr val 16) in
      let dst :=
        match dlen with
        | 4%nat => String b0 (String b1 (String b2 EmptyString))
        | 3%nat => String b0 (String b1 EmptyString)
        | 2%nat => String b0 EmptyString
        | _ => EmptyString
        end in
      (rest, dst, err)
  end.

(** The loop of [Decode]: [for si < len(src) { si, ninc, err = decodeQuantum;
    n += ninc; if err != nil { return n, err } }].  The loop is bounded by
    [fuel] rounds and [None] says that they ran out; each round consumes at
    least one byte, so [String.length src] rounds always suffice
    ([Decode_total] below). *)
Fixpoint Decode (fuel : nat) (src : string)
    : option (string * option error) :=
  match src with
  | EmptyString => Some (EmptyString, None)
  | _ =>
      match fuel with
      | O => None
      | S fuel' =>
          let '(rest, out, err) := decodeQuantum src in
          match err with
          | Some e => Some (out, Some e)
          | None =>
              match Decode fuel' rest with
              | Some (out', err') => Some ((out ++ out')%string, err')
              | None => None
              end
          end
      end
  end.

(** [dbuf[:n], err]: the bytes decoded before the error come with it. *)
Definition DecodeString (s : string) : string * option error :=
  match Decode (String.length s) s with
  | Some r => r
  | None => (EmptyString, None) (* not reached *)
  end.

(** *** Two names used in the proofs *)

(** The value [decodeQuantum] puts together from sextets. *)
Definition assemble (s0 s1 s2 s3 : Z) : Z :=
  Z.lor (Z.lor (Z.lor (Z.shiftl s0 18) (Z.shiftl s1 12)) (Z.shiftl s2 6)) s3.

(** The 24-bit value [Encode] makes of three bytes. *)
Definition pack (a b c : Z) : Z :=
  Z.lor (Z.lor (Z.shiftl a 16) (Z.shiftl b 8)) c.

(** What is left after a scan, whichever way the loop is left. *)
Definition left_over (r : scanned) : string :=
  match r with
  | Returned rest _ => rest
  | Collected rest _ _ _ => rest
  end.

End base64.

(** ** Package [strconv] *)

Module strconv.

(** [strconv.Itoa]: the decimal form of an [int], with a leading [-] for a
    negative one. *)
Definition Itoa (i : Z) : string := NilZero.string_of_int (Z.to_int i).

End strconv.

(** ** Package [net/http]: status codes and their reason phrases *)

Module http.

Abbreviation StatusOK := 200 (only parsing).
Abbreviation StatusBadRequest := 400 (only parsing).
Abbreviation StatusUnauthorized := 401 (only parsing).
Abbreviation StatusForbidden := 403 (only parsing).
Abbreviation StatusNotFound := 404 (only parsing).
Abbreviation StatusRequestTimeout := 408 (only parsing).
Abbreviation StatusConflict := 409 (only parsing).
Abbreviation StatusTooManyRequests := 429 (only parsing).
Abbreviation StatusInternalServerError := 500 (only parsing).
Abbreviation StatusNotImplemented := 501 (only parsing).
Abbreviation StatusServiceUnavailable := 503 (only parsing).
Abbreviation StatusGatewayTimeout := 504 (only parsing).

(** [http.StatusText]: the empty string for a code that is not known. *)
Definition StatusText (code : Z) : string :=
  match code with
  | 100 => "Continue"
  | 101 => "Switching Protocols"
  | 102 => "Processing"
  | 103 => "Early Hints"
  | 200 => "OK"
  | 201 => "Created"
  | 202 => "Accepted"
  | 203 => "Non-Authoritative Information"
  | 204 => "No Content"
  | 205 => "Reset Content"
  | 206 => "Partial Content"
  | 207 => "Multi-Status"
  | 208 => "Already Reported"
  | 226 => "IM Used"
  | 300 => "Multiple Choices"
  | 301 => "Moved Permanently"
  | 302 => "Found"
  | 303 => "See Other"
  | 304 => "Not Modified"
  | 305 => "Use Proxy"
  | 307 => "Temporary Redirect"
  | 308 => "Permanent Redirect"
  | 400 => "Bad Request"
  | 401 => "Unauthorized"
  | 402 => "Payment Required"
  | 403 => "Forbidden"
  | 404 => "Not Found"
  | 405 => "Method Not Allowed"
  | 406 => "Not Acceptable"
  | 407 => "Proxy Authentication Required"
  | 408 => "Request Timeout"
  | 409 => "Conflict"
  | 410 => "Gone"
  | 411 => "Length Required"
  | 412 => "Precondition Failed"
  | 413 => "Request Entity Too Large"
  | 414 => "Request URI Too Long"
  | 415 => "Unsupported Media Type"
  | 416 => "Requested Range Not Satisfiable"
  | 417 => "Expectation Failed"
  | 418 => "I'm a teapot"
  | 421 => "Misdirected Request"
  | 422 => "Unprocessable Entity"
  | 423 => "Locked"
  | 424 => "Failed Dependency"
  | 425 => "Too Early"
  | 426 => "Upgrade Required"
  | 428 => "Precondition Required"
  | 429 => "Too Many Requests"
  | 431 => "Request Header Fields Too Large"
  | 451 => "Unavailable For Legal Reasons"
  | 500 => "Internal Server Error"
  | 501 => "Not Implemented"
  | 502 => "Bad Gateway"
  | 503 => "Service Unavailable"
  | 504 => "Gateway Timeout"
  | 505 => "HTTP Version Not Supported"
  | 506 => "Variant Also Negotiates"
  | 507 => "Insufficient Storage"
  | 508 => "Loop Detected"
  | 510 => "Not Extended"
  | 511 => "Network Authentication Required"
  | _ => ""
  end.

End http.

(** ** Package [google.golang.org/grpc/codes] *)

Module codes.

(** [type Code uint32] *)
Abbreviation Code := Z (only parsing).

Abbreviation OK := 0 (only parsing).
Abbreviation Canceled := 1 (only parsing).
Abbreviation Unknown := 2 (only parsing).
Abbreviation InvalidArgument := 3 (only parsing).
Abbreviation DeadlineExceeded := 4 (only parsing).
Abbreviation NotFound := 5 (only parsing).
Abbreviation AlreadyExists := 6 (only parsing).
Abbreviation PermissionDenied := 7 (only parsing).
Abbreviation ResourceExhausted := 8 (only parsing).
Abbreviation FailedPrecondition := 9 (only parsing).
Abbreviation Aborted := 10 (only parsing).
Abbreviation OutOfRange := 11 (only parsing).
Abbreviation Unimplemented := 12 (only parsing).
Abbreviation Internal := 13 (only parsing).
Abbreviation Unavailable := 14 (only parsing).
Abbreviation DataLoss := 15 (only parsing).
Abbreviation Unauthenticated := 16 (only parsing).

(** [func (c Code) String() string] *)
Definition String (c : Code) : string :=
  match c with
  | OK => "OK"
  | Canceled => "Canceled"
  | Unknown => "Unknown"
  | InvalidArgument => "InvalidArgument"
  | DeadlineExceeded => "DeadlineExceeded"
  | NotFound => "NotFound"
  | AlreadyExists => "AlreadyExists"
  | PermissionDenied => "PermissionDenied"
  | ResourceExhausted => "ResourceExhausted"
  | FailedPrecondition => "FailedPrecondition"
  | Aborted => "Aborted"
  | OutOfRange => "OutOfRange"
  | Unimplemented => "Unimplemented"
  | Internal => "Internal"
  | Unavailable => "Unavailable"
  | DataLoss => "DataLoss"
  | Unauthenticated => "Unauthenticated"
  | _ => "Code(" +:+ strconv.Itoa c +:+ ")"
  end.

End codes.

(** ** Package [google.golang.org/grpc/metadata] *)

Module metadata.

(** [type MD map[string][]string] *)
Abbreviation MD := (gmap string (list string)) (only parsing).

(** [md.Set(k, vals...)]: nothing for no value, else [md[ToLower(k)] = vals]. *)
Definition Set_ (md : MD) (k : string) (vals : list string) : MD :=
  match vals with
  | [] => md
  | _ => <[strings.ToLower k := vals]> md
  end.

(** [md.Append(k, vals...)]: nothing for no value, else
    [md[k] = append(md[k], vals...)] at the lower-cased key. *)
Definition Append (md : MD) (k : string) (vals : list string) : MD :=
  match vals with
  | [] => md
  | _ =>
      let k := strings.ToLower k in
      <[k := default [] (md !! k) ++ vals]> md
  end.

(** The outgoing metadata of a [context.Context]: the pairs added to it, the
    oldest first. *)
Abbreviation OutgoingContext := (list (string * string)).

(** [metadata.AppendToOutgoingContext(ctx, k, v)]: the key is lower-cased. *)
Definition AppendToOutgoingContext (ctx : OutgoingContext) (k v : string)
    : OutgoingContext :=
  ctx ++ [(strings.ToLower k, v)].

End metadata.

(** ** [errdetails.ErrorInfo] and package [google.golang.org/grpc/status] *)

Record ErrorInfo : Type := {
  Reason : string;
  Domain : string;
  Metadata : gmap string string
}.

Module grpcStatus.

(** A status is its code, its message and the details attached to it. *)
Record Status : Type := {
  Code : codes.Code;
  Message : string;
  Details : list ErrorInfo
}.

Definition New (c : codes.Code) (msg : string) : Status :=
  {| Code := c; Message := msg; Details := [] |}.

(** [s.WithDetails(detail)]: an error for a status with code OK and when
    packing the detail into an [Any] fails; [packs] tells whether
    [anypb.New] succeeds on a detail. *)
Definition WithDetails (packs : ErrorInfo -> bool) (s : Status)
    (detail : ErrorInfo) : option Status :=
  if Code s =? codes.OK then None
  else if packs detail then
    Some {| Code := Code s; Message := Message s;
            Details := Details s ++ [detail] |}
  else None.

(** [s.Err()]: [nil] for a status with code OK; an [error] is embedded as
    [option Status], [None] being [nil]. *)
Definition Err (s : Status) : option Status :=
  if Code s =? codes.OK then None else Some s.

(** An [error] as [status.Code] sees it: one that carries a gRPC status, or
    any other one. *)
Inductive error : Type :=
| StatusError (code : codes.Code)
| OtherError.

(** [status.Code(err)]: OK for [nil], the code of an error with a status,
    Unknown for any other error. *)
Definition CodeOf (err : option error) : codes.Code :=
  match err with
  | None => codes.OK
  | Some (StatusError code) => code
  | Some OtherError => codes.Unknown
  end.

End grpcStatus.

(** ** Package [consts] of the diagnostics *)

Module diagConsts.

Definition TraceparentHeader : string := "traceparent".
Definition TracestateHeader : string := "tracestate".
Definition BaggageHeader : string := "baggage".
Definition GRPCTraceContextKey : string := "grpc-trace-bin".
Definition GRPCProxyAppIDKey : string := "dapr-app-id".
Definition GRPCProxyCalleeIDKey : string := "dapr-callee-app-id".

End diagConsts.

(** ** The tracing collaborators

    The tracing functions of packages [diagnostics] and [diagnostics/utils]
    and the OpenTelemetry span types are not among the files embedded here.
    The bridge only calls them, so it is embedded over any implementation of
    the operations it calls. *)

Class Diagnostics : Type := {
  (** [context.Context], as far as the ambient span goes *)
  Ctx : Type;
  (** [trace.SpanContext] and [trace.TraceState] *)
  SpanContext : Type;
  TraceState : Type;
  (** [diagUtils.SpanFromContext(ctx).SpanContext()] *)
  SpanFromContext : Ctx -> SpanContext;
  (** [diagUtils.SpanContextFromBinary(b)]: [(sc, ok)] as an option *)
  SpanContextFromBinary : string -> option SpanContext;
  (** [diagUtils.BinaryFromSpanContext(sc)] *)
  BinaryFromSpanContext : SpanContext -> string;
  (** [diag.SpanContextFromW3CString(h)]: [(sc, ok)] as an option *)
  SpanContextFromW3CString : string -> option SpanContext;
  (** [diag.TraceStateFromW3CString(h)] *)
  TraceStateFromW3CString : string -> TraceState;
  (** [sc.WithTraceState(ts)] *)
  WithTraceState : SpanContext -> TraceState -> SpanContext;
  (** the [traceparent] value of a span context *)
  SpanContextToW3CString : SpanContext -> string;
  (** the [tracestate] value of a span context, empty when it has none *)
  TraceStateToW3CString : SpanContext -> string
}.

(** Modelled from the spec: [diag.SpanContextToHTTPHeaders(sc, setHeader)],
    whose source is missing, "yields [traceparent] and optionally
    [tracestate]": the [traceparent] header is always set, the [tracestate]
    header when the span context has a trace state.  [setHeader] is a
    callback with an effect, embedded as a function on the state [S] it acts
    on. *)
Definition SpanContextToHTTPHeaders `{Diagnostics} {S : Type}
    (sc : SpanContext) (setHeader : string -> string -> S -> S) (s : S) : S :=
  let s := setHeader diagConsts.TraceparentHeader (SpanContextToW3CString sc) s in
  if String.eqb (TraceStateToW3CString sc) "" then s
  else setHeader diagConsts.TracestateHeader (TraceStateToW3CString sc) s.

(** The calls [SpanContextToHTTPHeaders] makes, as pairs of a header and its
    value. *)
Definition W3CHeaders `{Diagnostics} (sc : SpanContext)
    : list (string * string) :=
  (diagConsts.TraceparentHeader, SpanContextToW3CString sc)
  :: (if String.eqb (TraceStateToW3CString sc) "" then []
      else [(diagConsts.TracestateHeader, TraceStateToW3CString sc)]).

(** ** Package [v1]: [pkg/messaging/v1/util.go] *)

Module v1.

Definition GRPCContentType : string := "application/grpc".
Definition JSONContentType : string := "application/json".
Definition ContentTypeHeader : string := "content-type".
Definition ContentLengthHeader : string := "content-length".
Definition DaprHeaderPrefix : string := "dapr-".
Definition gRPCBinaryMetadataSuffix : string := "-bin".
Definition DestinationIDHeader : string := "destination-app-id".
Definition maxMetadataValueLen : nat := 63.
Definition errorInfoDomain : string := "dapr.io".
Definition errorInfoHTTPCodeMetadata : string := "http.code".
Definition errorInfoHTTPErrorMetadata : string := "http.error_message".

(** [internalv1pb.ListStringValue]; a nil pointer has no values. *)
Record ListStringValue : Type := { Values : list string }.
Definition GetValues (l : ListStringValue) : list string := Values l.

(** [type DaprInternalMetadata map[string]*internalv1pb.ListStringValue].
    Go visits the keys of a map in no fixed order, and the bridge merges the
    keys that agree up to case in the order of the visit.  The map is
    therefore embedded as the list of its entries in the order in which
    [range] visits them; [lookup] is the index expression [internalMD[k]]. *)
Abbreviation DaprInternalMetadata := (list (string * ListStringValue)).

Fixpoint lookup (k : string) (internalMD : DaprInternalMetadata)
    : option ListStringValue :=
  match internalMD with
  | [] => None
  | (k', v) :: rest => if String.eqb k' k then Some v else lookup k rest
  end.

(** [vals[0]]: [None] is the run-time panic "index out of range". *)
Definition index0 (vals : list string) : option string :=
  match vals with
  | [] => None
  | v :: _ => Some v
  end.

Definition IsJSONContentType (contentType : string) : bool :=
  strings.HasPrefix (strings.ToLower contentType) JSONContentType.

Definition isPermanentHTTPHeader (hdr : string) : bool :=
  existsb (String.eqb hdr)
    [ "Accept"; "Accept-Charset"; "Accept-Language"; "Accept-Ranges";
      "Connection"; "Keep-Alive"; "Proxy-Connection"; "Transfer-Encoding";
      "Upgrade"; "Cache-Control"; "Content-Type"; "Content-Length";
      "Cookie"; "Date"; "Expect"; "From"; "Host"; "If-Match";
      "If-Modified-Since"; "If-None-Match"; "If-Schedule-Tag-Match";
      "If-Unmodified-Since"; "Max-Forwards"; "Origin"; "Pragma"; "Referer";
      "Via"; "Warning" ].

(** [None] is the panic of [val.GetValues()[0]] on a key without values. *)
Definition IsGRPCProtocol (internalMD : DaprInternalMetadata) : option bool :=
  originContentType ←
    match lookup ContentTypeHeader internalMD with
    | Some val => index0 (GetValues val)
    | None => Some ""
    end;
  Some (strings.HasPrefix originContentType GRPCContentType).

Definition ReservedGRPCMetadataToDaprPrefixHeader (key : string) : string :=
  if String.eqb key ":method" || String.eqb key ":scheme"
     || String.eqb key ":path" || String.eqb key ":authority"
  then DaprHeaderPrefix +:+ String.substring 1 (String.length key - 1) key
  else if strings.HasPrefix key "grpc-" then DaprHeaderPrefix +:+ key
  else key.

(** *** Status translation *)

Definition HTTPStatusFromCode (code : codes.Code) : Z :=
  match code with
  | codes.OK => http.StatusOK
  | codes.Canceled => http.StatusRequestTimeout
  | codes.Unknown => http.StatusInternalServerError
  | codes.InvalidArgument => http.StatusBadRequest
  | codes.DeadlineExceeded => http.StatusGatewayTimeout
  | codes.NotFound => http.StatusNotFound
  | codes.AlreadyExists => http.StatusConflict
  | codes.PermissionDenied => http.StatusForbidden
  | codes.Unauthenticated => http.StatusUnauthorized
  | codes.ResourceExhausted => http.StatusTooManyRequests
  | codes.FailedPrecondition => http.StatusBadRequest
  | codes.Aborted => http.StatusConflict
  | codes.OutOfRange => http.StatusBadRequest
  | codes.Unimplemented => http.StatusNotImplemented
  | codes.Internal => http.StatusInternalServerError
  | codes.Unavailable => http.StatusServiceUnavailable
  | codes.DataLoss => http.StatusInternalServerError
  | _ => http.StatusInternalServerError
  end.

Definition CodeFromHTTPStatus (httpStatusCode : Z) : codes.Code :=
  if (200 <=? httpStatusCode) && (httpStatusCode <? 300) then codes.OK
  else
    match httpStatusCode with
    | http.StatusRequestTimeout => codes.Canceled
    | http.StatusInternalServerError => codes.Unknown
    | http.StatusBadRequest => codes.Internal
    | http.StatusGatewayTimeout => codes.DeadlineExceeded
    | http.StatusNotFound => codes.NotFound
    | http.StatusConflict => codes.AlreadyExists
    | http.StatusForbidden => codes.PermissionDenied
    | http.StatusUnauthorized => codes.Unauthenticated
    | http.StatusTooManyRequests => codes.ResourceExhausted
    | http.StatusNotImplemented => codes.Unimplemented
    | http.StatusServiceUnavailable => codes.Unavailable
    | _ => codes.Unknown
    end.

(** [packs] is [anypb.New] succeeding on the detail (see
    [grpcStatus.WithDetails]). *)
Definition ErrorFromHTTPResponseCode (packs : ErrorInfo -> bool)
    (code : Z) (detail : string) : option grpcStatus.Status :=
  let grpcCode := CodeFromHTTPStatus code in
  if grpcCode =? codes.OK then None
  else
    let httpStatusText := http.StatusText code in
    let respStatus := grpcStatus.New grpcCode httpStatusText in
    let detail :=
      if (maxMetadataValueLen <=? String.length detail)%nat
      then String.substring 0 maxMetadataValueLen detail
      else detail in
    let resps :=
      match
        grpcStatus.WithDetails packs respStatus
          {| Reason := httpStatusText;
             Domain := errorInfoDomain;
             Metadata :=
               <[errorInfoHTTPErrorMetadata := detail]>
                 (<[errorInfoHTTPCodeMetadata := strconv.Itoa code]> ∅) |}
      with
      | Some resps => resps
      | None => respStatus
      end in
    grpcStatus.Err resps.

(** *** Trace propagation and the two bridges *)

Section Bridge.
Context `{Diagnostics}.

Definition processGRPCToHTTPTraceHeaders {S : Type} (ctx : Ctx)
    (traceContext : string) (setHeader : string -> string -> S -> S)
    (s : S) : S :=
  (* the error of the decoder is dropped: [decoded, _ := ...] *)
  let decoded := fst (base64.DecodeString traceContext) in
  let sc :=
    match SpanContextFromBinary decoded with
    | Some sc => sc
    | None => SpanFromContext ctx
    end in
  SpanContextToHTTPHeaders sc setHeader s.

Definition processHTTPToHTTPTraceHeaders {S : Type} (ctx : Ctx)
    (traceparentValue traceStateValue : string)
    (setHeader : string -> string -> S -> S) (s : S) : S :=
  if String.eqb traceparentValue "" then
    SpanContextToHTTPHeaders (SpanFromContext ctx) setHeader s
  else
    let s := setHeader diagConsts.TraceparentHeader traceparentValue s in
    if negb (String.eqb traceStateValue "") then
      setHeader diagConsts.TracestateHeader traceStateValue s
    else s.

(** The closure [func(header, value string) { md.Set(header, value) }]. *)
Definition mdSet (header value : string) (md : metadata.MD) : metadata.MD :=
  metadata.Set_ md header [value].

Definition processHTTPToGRPCTraceHeader (ctx : Ctx) (md : metadata.MD)
    (traceparentValue traceStateValue : string) : metadata.MD :=
  let sc :=
    match SpanContextFromW3CString traceparentValue with
    | Some sc => WithTraceState sc (TraceStateFromW3CString traceStateValue)
    | None => SpanFromContext ctx
    end in
  let md := SpanContextToHTTPHeaders sc mdSet md in
  metadata.Set_ md diagConsts.GRPCTraceContextKey [BinaryFromSpanContext sc].

Definition processGRPCToGRPCTraceHeader (ctx : Ctx) (md : metadata.MD)
    (grpctracebinValue : string) : metadata.MD :=
  if String.eqb grpctracebinValue "" then
    let sc := SpanFromContext ctx in
    let md := SpanContextToHTTPHeaders sc mdSet md in
    metadata.Set_ md diagConsts.GRPCTraceContextKey [BinaryFromSpanContext sc]
  else
    match base64.DecodeString grpctracebinValue with
    | (decoded, None) =>
        let md :=
          match SpanContextFromBinary decoded with
          | Some sc => SpanContextToHTTPHeaders sc mdSet md
          | None => md
          end in
        metadata.Set_ md diagConsts.GRPCTraceContextKey [decoded]
    | (_, Some _) => md
    end.

(** The variables the loop of [InternalMetadataToGrpcMetadata] updates. *)
Record grpcVars : Type := {
  md : metadata.MD;
  traceparentValue : string;
  tracestateValue : string;
  grpctracebinValue : string
}.

(** The values of a binary key: each one is decoded and appended when the
    decoder reports no error. *)
Fixpoint appendDecoded (md : metadata.MD) (keyName : string)
    (vals : list string) : metadata.MD :=
  match vals with
  | [] => md
  | val :: rest =>
      let md :=
        match base64.DecodeString val with
        | (decoded, None) => metadata.Append md keyName [decoded]
        | (_, Some _) => md
        end in
      appendDecoded md keyName rest
  end.

(** One round of [for k, listVal := range internalMD]; [None] is the
    panic of [listVal.GetValues()[0]]. *)
Definition grpcRound (httpHeaderConversion : bool) (vars : grpcVars)
    (k : string) (listVal : ListStringValue) : option grpcVars :=
  let keyName := strings.ToLower k in
  if String.eqb keyName diagConsts.TraceparentHeader then
    v ← index0 (GetValues listVal);
    Some {| md := md vars; traceparentValue := v;
            tracestateValue := tracestateValue vars;
            grpctracebinValue := grpctracebinValue vars |}
  else if String.eqb keyName diagConsts.TracestateHeader then
    v ← index0 (GetValues listVal);
    Some {| md := md vars; traceparentValue := traceparentValue vars;
            tracestateValue := v;
            grpctracebinValue := grpctracebinValue vars |}
  else if String.eqb keyName diagConsts.GRPCTraceContextKey then
    v ← index0 (GetValues listVal);
    Some {| md := md vars; traceparentValue := traceparentValue vars;
            tracestateValue := tracestateValue vars;
            grpctracebinValue := v |}
  else if String.eqb keyName DestinationIDHeader then Some vars
  else
    let keyName :=
      if httpHeaderConversion && isPermanentHTTPHeader k
      then DaprHeaderPrefix +:+ keyName else keyName in
    let md' :=
      if strings.HasSuffix k gRPCBinaryMetadataSuffix
      then appendDecoded (md vars) keyName (GetValues listVal)
      else metadata.Append (md vars) keyName (GetValues listVal) in
    Some {| md := md'; traceparentValue := traceparentValue vars;
            tracestateValue := tracestateValue vars;
            grpctracebinValue := grpctracebinValue vars |}.

Fixpoint grpcLoop (httpHeaderConversion : bool) (vars : grpcVars)
    (entries : DaprInternalMetadata) : option grpcVars :=
  match entries with
  | [] => Some vars
  | (k, listVal) :: rest =>
      vars' ← grpcRound httpHeaderConversion vars k listVal;
      grpcLoop httpHeaderConversion vars' rest
  end.

(** [var traceparentValue, tracestateValue, grpctracebinValue string] and
    [md := metadata.MD{}] *)
Definition grpcVars0 : grpcVars :=
  {| md := ∅; traceparentValue := ""; tracestateValue := "";
     grpctracebinValue := "" |}.

(** [None] is a panic. *)
Definition InternalMetadataToGrpcMetadata (ctx : Ctx)
    (internalMD : DaprInternalMetadata) (httpHeaderConversion : bool)
    : option metadata.MD :=
  vars ← grpcLoop httpHeaderConversion grpcVars0 internalMD;
  isGRPC ← IsGRPCProtocol internalMD;
  Some
    (if isGRPC : bool then
       processGRPCToGRPCTraceHeader ctx (md vars) (grpctracebinValue vars)
     else
       processHTTPToGRPCTraceHeader ctx (md vars) (traceparentValue vars)
         (tracestateValue vars)).

(** The variables the loop of [InternalMetadataToHTTPHeader] updates;
    [sink] is whatever [setHeader] acts on. *)
Record httpVars (S : Type) : Type := {
  sink : S;
  h_traceparentValue : string;
  h_tracestateValue : string;
  h_grpctracebinValue : string
}.
Arguments sink {S}.
Arguments h_traceparentValue {S}.
Arguments h_tracestateValue {S}.
Arguments h_grpctracebinValue {S}.

(** [for _, v := range listVal.GetValues() { setHeader(name, v) }] *)
Definition setAll {S : Type} (setHeader : string -> string -> S -> S)
    (name : string) (vals : list string) (s : S) : S :=
  fold_left (fun s v => setHeader name v s) vals s.

Definition httpRound {S : Type} (setHeader : string -> string -> S -> S)
    (vars : httpVars S) (k : string) (listVal : ListStringValue)
    : httpVars S :=
  match GetValues listVal with
  | [] => vars                      (* len(listVal.GetValues()) == 0 *)
  | v0 :: _ =>
      let keyName := strings.ToLower k in
      if String.eqb keyName diagConsts.TraceparentHeader then
        {| sink := sink vars; h_traceparentValue := v0;
           h_tracestateValue := h_tracestateValue vars;
           h_grpctracebinValue := h_grpctracebinValue vars |}
      else if String.eqb keyName diagConsts.TracestateHeader then
        {| sink := sink vars;
           h_traceparentValue := h_traceparentValue vars;
           h_tracestateValue := v0;
           h_grpctracebinValue := h_grpctracebinValue vars |}
      else if String.eqb keyName diagConsts.GRPCTraceContextKey then
        {| sink := sink vars;
           h_traceparentValue := h_traceparentValue vars;
           h_tracestateValue := h_tracestateValue vars;
           h_grpctracebinValue := v0 |}
      else if String.eqb keyName DestinationIDHeader then vars
      else if String.eqb keyName diagConsts.BaggageHeader then
        {| sink := setHeader diagConsts.BaggageHeader v0 (sink vars);
           h_traceparentValue := h_traceparentValue vars;
           h_tracestateValue := h_tracestateValue vars;
           h_grpctracebinValue := h_grpctracebinValue vars |}
      else if strings.HasSuffix keyName gRPCBinaryMetadataSuffix
              || String.eqb keyName ContentTypeHeader then vars
      else
        {| sink :=
             setAll setHeader
               (ReservedGRPCMetadataToDaprPrefixHeader keyName)
               (GetValues listVal) (sink vars);
           h_traceparentValue := h_traceparentValue vars;
           h_tracestateValue := h_tracestateValue vars;
           h_grpctracebinValue := h_grpctracebinValue vars |}
  end.

Definition httpLoop {S : Type} (setHeader : string -> string -> S -> S)
    (vars : httpVars S) (entries : DaprInternalMetadata) : httpVars S :=
  fold_left (fun vars '(k, listVal) => httpRound setHeader vars k listVal)
    entries vars.

(** [None] is the panic of [IsGRPCProtocol]. *)
Definition InternalMetadataToHTTPHeader {S : Type} (ctx : Ctx)
    (internalMD : DaprInternalMetadata)
    (setHeader : string -> string -> S -> S) (s : S) : option S :=
  let vars :=
    httpLoop setHeader
      {| sink := s; h_traceparentValue := ""; h_tracestateValue := "";
         h_grpctracebinValue := "" |} internalMD in
  isGRPC ← IsGRPCProtocol internalMD;
  Some
    (if isGRPC : bool then
       processGRPCToHTTPTraceHeaders ctx (h_grpctracebinValue vars)
         setHeader (sink vars)
     else
       processHTTPToHTTPTraceHeaders ctx (h_traceparentValue vars)
         (h_tracestateValue vars) setHeader (sink vars)).

End Bridge.

Arguments sink {S}.
Arguments h_traceparentValue {S}.
Arguments h_tracestateValue {S}.
Arguments h_grpctracebinValue {S}.

(** *** Names for what the loop of the gRPC bridge does to one outgoing key

    They are used to state the properties of the bridge; the bridge itself is
    the definitions above. *)

(** A key the [switch] takes out of the copy. *)
Definition diverted (k : string) : bool :=
  let keyName := strings.ToLower k in
  String.eqb keyName diagConsts.TraceparentHeader
  || String.eqb keyName diagConsts.TracestateHeader
  || String.eqb keyName diagConsts.GRPCTraceContextKey
  || String.eqb keyName DestinationIDHeader.

(** A key whose first value the [switch] reads. *)
Definition traceKey (k : string) : bool :=
  let keyName := strings.ToLower k in
  String.eqb keyName diagConsts.TraceparentHeader
  || String.eqb keyName diagConsts.TracestateHeader
  || String.eqb keyName diagConsts.GRPCTraceContextKey.

(** An entry on which the loop of the gRPC bridge panics. *)
Definition panics (entry : string * ListStringValue) : Prop :=
  traceKey (fst entry) = true /\ GetValues (snd entry) = [].

(** The outgoing key of a key that is copied. *)
Definition outKey (httpHeaderConversion : bool) (k : string) : string :=
  if httpHeaderConversion && isPermanentHTTPHeader k
  then DaprHeaderPrefix +:+ strings.ToLower k else strings.ToLower k.

(** The values that decode without error, decoded. *)
Fixpoint decodedValues (vals : list string) : list string :=
  match vals with
  | [] => []
  | val :: rest =>
      match base64.DecodeString val with
      | (decoded, None) => decoded :: decodedValues rest
      | (_, Some _) => decodedValues rest
      end
  end.

(** The outgoing values of a key that is copied. *)
Definition outVals (k : string) (listVal : ListStringValue) : list string :=
  if strings.HasSuffix k gRPCBinaryMetadataSuffix
  then decodedValues (GetValues listVal) else GetValues listVal.

(** What one entry adds to the outgoing key [key]. *)
Definition contribution (httpHeaderConversion : bool) (key : string)
    (entry : string * ListStringValue) : list string :=
  if diverted (fst entry) then []
  else if String.eqb (outKey httpHeaderConversion (fst entry)) key
       then outVals (fst entry) (snd entry) else [].

(** What [append] makes of a map entry. *)
Definition extend (old : option (list string)) (vals : list string)
    : option (list string) :=
  match vals with
  | [] => old
  | _ => Some (default [] old ++ vals)
  end.

(** A [setHeader] that keeps the calls made to it, in order. *)
Definition recordHeader (header value : string)
    (calls : list (string * string)) : list (string * string) :=
  calls ++ [(header, value)].

(** Outgoing metadata as gRPC wants it: every key in lower case, and no key
    without a value. *)
Definition wellKeyed (md : metadata.MD) : Prop :=
  forall (key : string) (vals : list string),
    md !! key = Some vals -> strings.ToLower key = key /\ vals <> [].

(** *** The outgoing call context *)

(** One round of [for k, v := range md] in [WithCustomGRPCMetadata]. *)
Definition customRound (ctx : metadata.OutgoingContext)
    (entry : string * string) : metadata.OutgoingContext :=
  let '(k, v) := entry in
  if strings.EqualFold k ContentTypeHeader
     || strings.EqualFold k ContentLengthHeader
  then ctx
  else metadata.AppendToOutgoingContext ctx k v.

(** [md] is a Go map: as for the internal metadata, the list of its entries
    in the order of the visit. *)
Definition WithCustomGRPCMetadata (ctx : metadata.OutgoingContext)
    (md : list (string * string)) : metadata.OutgoingContext :=
  fold_left customRound md ctx.

(** *** Names for what the loop of the HTTP bridge does with one entry *)

(** The calls of [setHeader] one entry leads to. *)
Definition httpCopied (entry : string * ListStringValue)
    : list (string * string) :=
  let keyName := strings.ToLower (fst entry) in
  match GetValues (snd entry) with
  | [] => []
  | v0 :: _ =>
      if String.eqb keyName diagConsts.TraceparentHeader
         || String.eqb keyName diagConsts.TracestateHeader
         || String.eqb keyName diagConsts.GRPCTraceContextKey
         || String.eqb keyName DestinationIDHeader
      then []
      else if String.eqb keyName diagConsts.BaggageHeader
      then [(diagConsts.BaggageHeader, v0)]
      else if strings.HasSuffix keyName gRPCBinaryMetadataSuffix
              || String.eqb keyName ContentTypeHeader
      then []
      else map (fun v => (ReservedGRPCMetadataToDaprPrefixHeader keyName, v))
             (GetValues (snd entry))
  end.

(** A name gRPC keeps for itself: a pseudo-header of HTTP/2 or a key that
    starts with [grpc-]. *)
Definition reserved (key : string) : bool :=
  String.eqb key ":method" || String.eqb key ":scheme"
  || String.eqb key ":path" || String.eqb key ":authority"
  || strings.HasPrefix key "grpc-".

End v1.

(** ** Package [diagnostics]: the gRPC metrics recorder *)

Module diagnostics.

Definition KeyServerMethod : string := "grpc_server_method".
Definition KeyServerStatus : string := "grpc_server_status".
Definition KeyClientMethod : string := "grpc_client_method".
Definition KeyClientStatus : string := "grpc_client_status".

(** Modelled from the spec: the tag key of the [appID] dimension, declared
    in a file of the package that is not among the sources. *)
Definition appIDKey : string := "app_id".

Definition appHealthCheckMethod : string :=
  "/dapr.proto.runtime.v1.AppCallbackHealthCheck/HealthCheck".

(** One recorded value: the measure, the tags and the number.  A latency is
    a [float64] made from a whole number of milliseconds, which is kept as
    that whole number. *)
Record Measurement : Type := {
  measure : string;
  tags : list (string * string);
  value : Z
}.

(** The meter ([stats.Recorder]) is the backend the recorder writes to: it
    is embedded as the sequence of values recorded so far, and every
    operation takes the meter and gives back the meter after it. *)
Abbreviation Meter := (list Measurement).

Record grpcMetrics : Type := {
  serverReceivedBytes : string;
  serverSentBytes : string;
  serverLatency : string;
  serverCompletedRpcs : string;
  clientSentBytes : string;
  clientReceivedBytes : string;
  clientRoundtripLatency : string;
  clientCompletedRpcs : string;
  healthProbeCompletedCount : string;
  healthProbeRoundtripLatency : string;
  appID : string;
  enabled : bool
}.

Definition newGRPCMetrics : grpcMetrics :=
  {| serverReceivedBytes := "grpc.io/server/received_bytes_per_rpc";
     serverSentBytes := "grpc.io/server/sent_bytes_per_rpc";
     serverLatency := "grpc.io/server/server_latency";
     serverCompletedRpcs := "grpc.io/server/completed_rpcs";
     clientSentBytes := "grpc.io/client/sent_bytes_per_rpc";
     clientReceivedBytes := "grpc.io/client/received_bytes_per_rpc";
     clientRoundtripLatency := "grpc.io/client/roundtrip_latency";
     clientCompletedRpcs := "grpc.io/client/completed_rpcs";
     healthProbeCompletedCount := "grpc.io/healthprobes/completed_count";
     healthProbeRoundtripLatency := "grpc.io/healthprobes/roundtrip_latency";
     appID := "";
     enabled := false |}.

(** [Init]: the recorder is enabled from here on; the registration of the
    views is the backend's business. *)
Definition Init (g : grpcMetrics) (id : string) : grpcMetrics :=
  {| serverReceivedBytes := serverReceivedBytes g;
     serverSentBytes := serverSentBytes g;
     serverLatency := serverLatency g;
     serverCompletedRpcs := serverCompletedRpcs g;
     clientSentBytes := clientSentBytes g;
     clientReceivedBytes := clientReceivedBytes g;
     clientRoundtripLatency := clientRoundtripLatency g;
     clientCompletedRpcs := clientCompletedRpcs g;
     healthProbeCompletedCount := healthProbeCompletedCount g;
     healthProbeRoundtripLatency := healthProbeRoundtripLatency g;
     appID := id;
     enabled := true |}.

(** The receiver is a pointer: [None] is [nil]. *)
Definition IsEnabled (g : option grpcMetrics) : bool :=
  match g with
  | Some g => enabled g
  | None => false
  end.

(** [float64(time.Since(start) / time.Millisecond)], with the times in
    nanoseconds; the division of Go's integers truncates. *)
Definition elapsedMs (start now : Z) : Z := Z.quot (now - start) 1000000.

(** Modelled from the spec: [diagUtils.WithTags(name, key, value, ...)],
    whose source is missing, tags the value "with dimensions": the pairs
    of a key and its value, in the order given. *)
Definition WithTags (name : string) (kvs : list (string * string))
    : list (string * string) := kvs.

(** [stats.RecordWithOptions(ctx, WithRecorder(meter), WithTags(tags...),
    WithMeasurements(m.M(v)))] *)
Definition RecordWithOptions (meter : Meter) (tgs : list (string * string))
    (m : string) (v : Z) : Meter :=
  meter ++ [ {| measure := m; tags := tgs; value := v |} ].

Definition ServerRequestSent (g : option grpcMetrics) (method status : string)
    (reqContentSize resContentSize : Z) (start now : Z) (meter : Meter)
    : Meter :=
  if negb (IsEnabled g) then meter
  else
    match g with
    | Some g' =>
        let elapsed := elapsedMs start now in
        let meter :=
          RecordWithOptions meter
            (WithTags (serverCompletedRpcs g')
               [(appIDKey, appID g'); (KeyServerMethod, method);
                (KeyServerStatus, status)])
            (serverCompletedRpcs g') 1 in
        let meter :=
          RecordWithOptions meter
            (WithTags (serverReceivedBytes g')
               [(appIDKey, appID g'); (KeyServerMethod, method)])
            (serverReceivedBytes g') reqContentSize in
        let meter :=
          RecordWithOptions meter
            (WithTags (serverSentBytes g')
               [(appIDKey, appID g'); (KeyServerMethod, method)])
            (serverSentBytes g') resContentSize in
        RecordWithOptions meter
          (WithTags (serverLatency g')
             [(appIDKey, appID g'); (KeyServerMethod, method);
              (KeyServerStatus, status)])
          (serverLatency g') elapsed
    | None => meter (* not reached: an enabled recorder is not nil *)
    end.

Definition StreamServerRequestSent (g : option grpcMetrics)
    (method status : string) (start now : Z) (meter : Meter) : Meter :=
  if negb (IsEnabled g) then meter
  else
    match g with
    | Some g' =>
        let elapsed := elapsedMs start now in
        let meter :=
          RecordWithOptions meter
            (WithTags (serverCompletedRpcs g')
               [(appIDKey, appID g'); (KeyServerMethod, method);
                (KeyServerStatus, status)])
            (serverCompletedRpcs g') 1 in
        RecordWithOptions meter
          (WithTags (serverLatency g')
             [(appIDKey, appID g'); (KeyServerMethod, method);
              (KeyServerStatus, status)])
          (serverLatency g') elapsed
    | None => meter (* not reached: an enabled recorder is not nil *)
    end.

Definition StreamClientRequestSent (g : option grpcMetrics)
    (method status : string) (start now : Z) (meter : Meter) : Meter :=
  if negb (IsEnabled g) then meter
  else
    match g with
    | Some g' =>
        let elapsed := elapsedMs start now in
        let meter :=
          RecordWithOptions meter
            (WithTags (clientCompletedRpcs g')
               [(appIDKey, appID g'); (KeyClientMethod, method);
                (KeyClientStatus, status)])
            (clientCompletedRpcs g') 1 in
        RecordWithOptions meter
          (WithTags (clientRoundtripLatency g')
             [(appIDKey, appID g'); (KeyClientMethod, method);
              (KeyClientStatus, status)])
          (clientRoundtripLatency g') elapsed
    | None => meter (* not reached: an enabled recorder is not nil *)
    end.

Definition ClientRequestReceived (g : option grpcMetrics)
    (method status : string) (reqContentSize resContentSize : Z)
    (start now : Z) (meter : Meter) : Meter :=
  if negb (IsEnabled g) then meter
  else
    match g with
    | Some g' =>
        let elapsed := elapsedMs start now in
        let meter :=
          RecordWithOptions meter
            (WithTags (clientCompletedRpcs g')
               [(appIDKey, appID g'); (KeyClientMethod, method);
                (KeyClientStatus, status)])
            (clientCompletedRpcs g') 1 in
        let meter :=
          RecordWithOptions meter
            (WithTags (clientRoundtripLatency g')
               [(appIDKey, appID g'); (KeyClientMethod, method);
                (KeyClientStatus, status)])
            (clientRoundtripLatency g') elapsed in
        let meter :=
          RecordWithOptions meter
            (WithTags (clientSentBytes g')
               [(appIDKey, appID g'); (KeyClientMethod, method)])
            (clientSentBytes g') reqContentSize in
        RecordWithOptions meter
          (WithTags (clientReceivedBytes g')
             [(appIDKey, appID g'); (KeyClientMethod, method)])
          (clientReceivedBytes g') resContentSize
    | None => meter (* not reached: an enabled recorder is not nil *)
    end.

Definition AppHealthProbeCompleted (g : option grpcMetrics) (status : string)
    (start now : Z) (meter : Meter) : Meter :=
  if negb (IsEnabled g) then meter
  else
    match g with
    | Some g' =>
        let elapsed := elapsedMs start now in
        let meter :=
          RecordWithOptions meter
            (WithTags (healthProbeCompletedCount g')
               [(appIDKey, appID g'); (KeyClientStatus, status)])
            (healthProbeCompletedCount g') 1 in
        RecordWithOptions meter
          (WithTags (healthProbeRoundtripLatency g')
             [(appIDKey, appID g'); (KeyClientStatus, status)])
          (healthProbeRoundtripLatency g') elapsed
    | None => meter (* not reached: an enabled recorder is not nil *)
    end.

(** *** The interceptors

    An interceptor wraps a handler that the caller supplies.  The handler may
    do anything to the world around it; of that world the interceptors touch
    the meter and the counter of error codes, so a handler is a function on
    those two that also gives its results. *)

(** Modelled from the spec: [RecordErrorCode(err)], whose source is missing,
    surfaces "the error to the process-wide error-code counter": the counter
    is embedded as the errors it was given, in order. *)
Record World : Type := {
  meter : Meter;
  errorCodes : list grpcStatus.error
}.

Definition RecordErrorCode (err : grpcStatus.error) (w : World) : World :=
  {| meter := meter w; errorCodes := errorCodes w ++ [err] |}.

(** A payload ([interface{}]): [Some n] is a [proto.Message] of [proto.Size]
    [n], [None] any other value, [nil] among them. *)
Abbreviation Payload := (option Z).

(** [proto.Size(payload.(proto.Message))]: [None] is the panic of the type
    assertion. *)
Definition getPayloadSize (payload : Payload) : option Z := payload.

(** [UnaryServerInterceptor]; [start] and [now] are the two readings of the
    clock, before the handler and when the measurements are made.  [None] is
    a panic. *)
Definition UnaryServerInterceptor (g : option grpcMetrics)
    (req : Payload) (FullMethod : string)
    (handler : World -> Payload * option grpcStatus.error * World)
    (start now : Z) (w : World)
    : option (Payload * option grpcStatus.error * World) :=
  let '(resp, err, w) := handler w in
  size ← match err with
         | None => getPayloadSize resp
         | Some _ => Some 0
         end;
  reqSize ← getPayloadSize req;
  let w :=
    {| meter :=
         ServerRequestSent g FullMethod
           (codes.String (grpcStatus.CodeOf err)) reqSize size start now
           (meter w);
       errorCodes := errorCodes w |} in
  let w :=
    match err with
    | Some e => RecordErrorCode e w
    | None => w
    end in
  Some (resp, err, w).

(** [UnaryClientInterceptor]; the invoker fills [reply] and returns the
    error. *)
Definition UnaryClientInterceptor (g : option grpcMetrics)
    (method : string) (req : Payload)
    (invoker : World -> Payload * option grpcStatus.error * World)
    (start now : Z) (w : World)
    : option (option grpcStatus.error * World) :=
  let '(reply, err, w) := invoker w in
  resSize ← match err with
            | None => getPayloadSize reply
            | Some _ => Some 0
            end;
  m ← (if String.eqb method appHealthCheckMethod then
         Some
           (AppHealthProbeCompleted g (codes.String (grpcStatus.CodeOf err))
              start now (meter w))
       else
         reqSize ← getPayloadSize req;
         Some
           (ClientRequestReceived g method
              (codes.String (grpcStatus.CodeOf err)) reqSize resSize start now
              (meter w)));
  let w := {| meter := m; errorCodes := errorCodes w |} in
  let w :=
    match err with
    | Some e => RecordErrorCode e w
    | None => w
    end in
  Some (err, w).

(** [vals, ok := md[diagConsts.GRPCProxyAppIDKey]; !ok || len(vals) == 0] on
    the incoming metadata of the stream. *)
Definition notProxied (md : metadata.MD) : bool :=
  match md !! diagConsts.GRPCProxyAppIDKey with
  | Some (_ :: _) => false
  | _ => true
  end.

(** [StreamingServerInterceptor] *)
Definition StreamingServerInterceptor (g : option grpcMetrics)
    (md : metadata.MD) (FullMethod : string)
    (handler : World -> option grpcStatus.error * World)
    (start now : Z) (w : World) : option grpcStatus.error * World :=
  if notProxied md then handler w
  else
    let '(err, w) := handler w in
    let w :=
      {| meter :=
           StreamServerRequestSent g FullMethod
             (codes.String (grpcStatus.CodeOf err)) start now (meter w);
         errorCodes := errorCodes w |} in
    let w :=
      match err with
      | Some e => RecordErrorCode e w
      | None => w
      end in
    (err, w).

(** [StreamingClientInterceptor] *)
Definition StreamingClientInterceptor (g : option grpcMetrics)
    (md : metadata.MD) (FullMethod : string)
    (handler : World -> option grpcStatus.error * World)
    (start now : Z) (w : World) : option grpcStatus.error * World :=
  if notProxied md then handler w
  else
    let '(err, w) := handler w in
    let w :=
      {| meter :=
           StreamClientRequestSent g FullMethod
             (codes.String (grpcStatus.CodeOf err)) start now (meter w);
         errorCodes := errorCodes w |} in
    let w :=
      match err with
      | Some e => RecordErrorCode e w
      | None => w
      end in
    (err, w).

(** What the error counter is given after a call. *)
Definition counted (err : option grpcStatus.error) : list grpcStatus.error :=
  match err with
  | Some e => [e]
  | None => []
  end.

End diagnostics.

(** ** A stand-in for the tracing collaborators

    The theorems below hold for every [Diagnostics]; to run the bridge on
    concrete metadata one implementation is needed. *)

Module w3c.

(** Modelled from the spec: a trace context "representing trace-id, span-id,
    sampling flags, and trace-state", whose [traceparent] form is
    [{2-hex-version}-{32-hex-traceid}-{16-hex-spanid}-{2-hex-flags}].  The
    identifiers are kept in their hexadecimal form.  The spec leaves the
    layout of the binary token open: this stand-in takes the 50 hexadecimal
    digits of trace-id, span-id and flags. *)
Record SpanContext : Type := {
  TraceID : string;
  SpanID : string;
  TraceFlags : string;
  State : string
}.

Definition is_hex (c : ascii) : bool :=
  let n := N_of_ascii c in
  ((48 <=? n) && (n <=? 57) || (97 <=? n) && (n <=? 102))%N.

Fixpoint all_hex (s : string) : bool :=
  match s with
  | EmptyString => true
  | String c rest => is_hex c && all_hex rest
  end.

Definition dash_at (n : nat) (h : string) : bool :=
  match String.get n h with
  | Some c => Ascii.eqb c "-"
  | None => false
  end.

(** Modelled from the spec: [diag.SpanContextFromW3CString], whose source is
    missing, parses "version-traceid-spanid-flags, dash-separated, fixed field
    widths: 2/32/16/2 hex characters"; anything else does not parse. *)
Definition SpanContextFromW3CString (h : string) : option SpanContext :=
  let version := String.substring 0 2 h in
  let tid := String.substring 3 32 h in
  let sid := String.substring 36 16 h in
  let flags := String.substring 53 2 h in
  if (String.length h =? 55)%nat
     && dash_at 2 h && dash_at 35 h && dash_at 52 h
     && all_hex version && all_hex tid && all_hex sid && all_hex flags
  then Some {| TraceID := tid; SpanID := sid; TraceFlags := flags;
               State := "" |}
  else None.

(** Modelled from the spec: the [traceparent] value of a span context, in
    the format above with version [00]. *)
Definition SpanContextToW3CString (sc : SpanContext) : string :=
  "00-" +:+ TraceID sc +:+ "-" +:+ SpanID sc +:+ "-" +:+ TraceFlags sc.

(** Modelled from the spec: [diagUtils.BinaryFromSpanContext], "a single
    binary-encoded token" of the trace context; the layout is this
    stand-in's own. *)
Definition BinaryFromSpanContext (sc : SpanContext) : string :=
  TraceID sc +:+ SpanID sc +:+ TraceFlags sc.

(** Modelled from the spec: [diagUtils.SpanContextFromBinary], the parser of
    that token: both encodings "round-trip to the same trace-id/span-id". *)
Definition SpanContextFromBinary (b : string) : option SpanContext :=
  if (String.length b =? 50)%nat && all_hex b
  then Some {| TraceID := String.substring 0 32 b;
               SpanID := String.substring 32 16 b;
               TraceFlags := String.substring 48 2 b;
               State := "" |}
  else None.

(** Modelled from the spec: [sc.WithTraceState(ts)] of OpenTelemetry, the
    same span context with the trace state replaced. *)
Definition WithTraceState (sc : SpanContext) (ts : string) : SpanContext :=
  {| TraceID := TraceID sc; SpanID := SpanID sc;
     TraceFlags := TraceFlags sc; State := ts |}.

(** The call context is the span context of its ambient span. *)
Definition tracing : Diagnostics :=
  Build_Diagnostics
    SpanContext SpanContext string
    (fun ctx => ctx)
    SpanContextFromBinary
    BinaryFromSpanContext
    SpanContextFromW3CString
    (fun h => h)
    WithTraceState
    SpanContextToW3CString
    State.

Definition ambient : SpanContext :=
  {| TraceID := "4bf92f3577b34da6a3ce929d0e0e4736";
     SpanID := "00f067aa0ba902b7";
     TraceFlags := "01";
     State := "" |}.

End w3c.

(** ** Sample inputs *)

(** A detail string of 100 bytes. *)
Definition detail100 : string :=
  "0123456789012345678901234567890123456789012345678901234567890123456789012345678901234567890123456789".


(** * Properties *)

(** ** Status translation *)

Section StatusTranslation.

Open Scope Z_scope.

(** Every result of [CodeFromHTTPStatus] is one of the twelve codes the
    function names. *)
Lemma CodeFromHTTPStatus_range (s : Z) :
  In (v1.CodeFromHTTPStatus s)
    [codes.OK; codes.Canceled; codes.Unknown; codes.Internal;
     codes.DeadlineExceeded; codes.NotFound; codes.AlreadyExists;
     codes.PermissionDenied; codes.Unauthenticated; codes.ResourceExhausted;
     codes.Unimplemented; codes.Unavailable].
Proof.
  unfold v1.CodeFromHTTPStatus.
  destruct ((200 <=? s) && (s <? 300)); [simpl; tauto|].
  destruct s as [|p|p]; [simpl; tauto| |simpl; tauto].
  do 10 (try (destruct p as [p|p|]; try (simpl; tauto))).
Qed.

Lemma CodeFromHTTPStatus_2xx (s : Z) :
  200 <= s < 300 -> v1.CodeFromHTTPStatus s = codes.OK.
Proof.
  intros Hs. unfold v1.CodeFromHTTPStatus.
  replace ((200 <=? s) && (s <? 300)) with true; [reflexivity|].
  symmetry. apply andb_true_intro. split; [apply Z.leb_le|apply Z.ltb_lt]; lia.
Qed.

Lemma CodeFromHTTPStatus_not_2xx (s : Z) :
  ~ 200 <= s < 300 -> v1.CodeFromHTTPStatus s <> codes.OK.
Proof.
  intros Hs. unfold v1.CodeFromHTTPStatus.
  destruct (Z.leb_spec 200 s), (Z.ltb_spec s 300); try lia; simpl.
  all: destruct s as [|p|p]; try discriminate.
  all: do 10 (try (destruct p as [p|p|]; try discriminate)).
Qed.

(** C2, as the spec states it, fails: [CodeFromHTTPStatus(400)] is INTERNAL,
    which is not INVALID_ARGUMENT. *)
Lemma CodeFromHTTPStatus_400_is_not_InvalidArgument :
  v1.CodeFromHTTPStatus http.StatusBadRequest = codes.Internal
  /\ (v1.CodeFromHTTPStatus http.StatusBadRequest =? codes.InvalidArgument)
     = false.
Proof. split; reflexivity. Qed.

(** C2, amended: the HTTP to gRPC translation maps the HTTP status 400 to the
    gRPC code INTERNAL, and it yields INVALID_ARGUMENT for no HTTP status. *)
Theorem CodeFromHTTPStatus_400 :
  v1.CodeFromHTTPStatus http.StatusBadRequest = codes.Internal
  /\ forall s : Z, v1.CodeFromHTTPStatus s <> codes.InvalidArgument.
Proof.
  split; [reflexivity|].
  intros s Hs. pose proof (CodeFromHTTPStatus_range s) as Hin.
  rewrite Hs in Hin. simpl in Hin.
  repeat (destruct Hin as [Hin|Hin]; [discriminate Hin|]). exact Hin.
Qed.

(** C3: [HTTPStatusFromCode] is total and every result is an HTTP status with
    a reason phrase, 500 for every code outside the sixteen named ones; the
    two translations do not compose to the identity: FAILED_PRECONDITION and
    OUT_OF_RANGE both map to 400, and 400 maps back to INTERNAL. *)
Theorem HTTPStatusFromCode_total_lossy :
  (forall code : codes.Code,
      In (v1.HTTPStatusFromCode code)
        [200; 400; 401; 403; 404; 408; 409; 429; 500; 501; 503; 504]
      /\ http.StatusText (v1.HTTPStatusFromCode code) <> ""
      /\ (0 <= code <= 16
          \/ v1.HTTPStatusFromCode code = http.StatusInternalServerError))
  /\ v1.HTTPStatusFromCode codes.FailedPrecondition = http.StatusBadRequest
  /\ v1.HTTPStatusFromCode codes.OutOfRange = http.StatusBadRequest
  /\ v1.CodeFromHTTPStatus (v1.HTTPStatusFromCode codes.FailedPrecondition)
     = codes.Internal
  /\ v1.CodeFromHTTPStatus (v1.HTTPStatusFromCode codes.OutOfRange)
     = codes.Internal
  /\ codes.Internal <> codes.FailedPrecondition
  /\ codes.Internal <> codes.OutOfRange.
Proof.
  split; [|repeat split; discriminate].
  intros code. unfold v1.HTTPStatusFromCode.
  destruct code as [|p|p].
  - simpl. split; [tauto|]. split; [discriminate|]. left. lia.
  - do 5 (try destruct p as [p|p|]);
      (split; [simpl; tauto|]; split; [discriminate|]);
      first [ right; reflexivity | left; lia ].
  - split; [simpl; tauto|]. split; [discriminate|]. right. reflexivity.
Qed.

(** C6: for every HTTP status from 200 to 299 [CodeFromHTTPStatus] is OK and
    [ErrorFromHTTPResponseCode] returns nil, whatever the detail string. *)
Theorem success_status_is_OK_and_nil
    (packs : ErrorInfo -> bool) (code : Z) (detail : string) :
  200 <= code <= 299 ->
  v1.CodeFromHTTPStatus code = codes.OK
  /\ v1.ErrorFromHTTPResponseCode packs code detail = None.
Proof.
  intros Hc. assert (Hok : v1.CodeFromHTTPStatus code = codes.OK)
    by (apply CodeFromHTTPStatus_2xx; lia).
  split; [exact Hok|].
  unfold v1.ErrorFromHTTPResponseCode. rewrite Hok. reflexivity.
Qed.

Lemma success_status_is_OK_and_nil_witness :
  v1.CodeFromHTTPStatus 204 = codes.OK
  /\ v1.ErrorFromHTTPResponseCode (fun _ => true) 204 "no content" = None.
Proof.
  apply (success_status_is_OK_and_nil (fun _ => true) 204 "no content"). lia.
Defined.

End StatusTranslation.

(** ** The error built from an HTTP response *)

Section ErrorFromHTTP.

Open Scope Z_scope.

Lemma substring_prefix_length (n : nat) (s : string) :
  (n <= String.length s)%nat -> String.length (String.substring 0 n s) = n.
Proof.
  revert s. induction n as [|n IH]; intros s Hn.
  - destruct s; reflexivity.
  - destruct s as [|c s]; simpl in *; [lia|]. rewrite IH; [reflexivity|lia].
Qed.

(** C7: for a status outside 200..299 and a detail string of at least 63
    bytes, the error is a status with the translated code, the reason phrase
    as its message and one [ErrorInfo] detail: domain [dapr.io], the reason
    phrase as reason, [http.code] the decimal code and [http.error_message]
    the first 63 bytes of the detail string; when the detail cannot be
    attached the bare status is returned. *)
Theorem ErrorFromHTTPResponseCode_truncates
    (packs : ErrorInfo -> bool) (code : Z) (detail : string) :
  ~ 200 <= code <= 299 ->
  (63 <= String.length detail)%nat ->
  let message := String.substring 0 63 detail in
  let info :=
    {| Reason := http.StatusText code;
       Domain := "dapr.io";
       Metadata :=
         <["http.error_message" := message]>
           (<["http.code" := strconv.Itoa code]> ∅) |} in
  String.length message = 63%nat
  /\ Metadata info !! "http.code" = Some (strconv.Itoa code)
  /\ Metadata info !! "http.error_message" = Some message
  /\ v1.ErrorFromHTTPResponseCode packs code detail
     = Some {| grpcStatus.Code := v1.CodeFromHTTPStatus code;
               grpcStatus.Message := http.StatusText code;
               grpcStatus.Details := if packs info then [info] else [] |}.
Proof.
  intros Hcode Hlen message info.
  assert (Hne : v1.CodeFromHTTPStatus code <> codes.OK)
    by (apply CodeFromHTTPStatus_not_2xx; lia).
  apply Z.eqb_neq in Hne.
  split; [apply substring_prefix_length; exact Hlen|].
  split; [reflexivity|]. split; [apply lookup_insert_eq|].
  unfold v1.ErrorFromHTTPResponseCode. rewrite Hne.
  unfold v1.maxMetadataValueLen.
  replace (63 <=? String.length detail)%nat with true
    by (symmetry; apply Nat.leb_le; exact Hlen).
  unfold grpcStatus.WithDetails, grpcStatus.Err, grpcStatus.New.
  cbn [grpcStatus.Code grpcStatus.Message grpcStatus.Details].
  rewrite Hne.
  unfold v1.errorInfoDomain, v1.errorInfoHTTPErrorMetadata,
    v1.errorInfoHTTPCodeMetadata.
  fold message. fold info.
  destruct (packs info); cbn [grpcStatus.Code]; rewrite Hne; reflexivity.
Qed.

Lemma ErrorFromHTTPResponseCode_truncates_witness :
  String.length detail100 = 100%nat
  /\ let message :=
       "012345678901234567890123456789012345678901234567890123456789012" in
     String.length message = 63%nat
     /\ v1.ErrorFromHTTPResponseCode (fun _ => true) 404 detail100
        = Some {| grpcStatus.Code := codes.NotFound;
                  grpcStatus.Message := "Not Found";
                  grpcStatus.Details :=
                    [ {| Reason := "Not Found";
                         Domain := "dapr.io";
                         Metadata :=
                           <["http.error_message" := message]>
                             (<["http.code" := "404"]> ∅) |} ] |}.
Proof.
  split; [reflexivity|].
  destruct (ErrorFromHTTPResponseCode_truncates (fun _ => true) 404 detail100)
    as (Hlen & _ & _ & Herr); [lia | vm_compute; lia |].
  split; [exact Hlen | exact Herr].
Defined.

End ErrorFromHTTP.

(** ** The metrics recorder *)

Section Recorder.

Import diagnostics.

(** A recorder that was made and never initialised is disabled, and so is the
    nil recorder. *)
Lemma newGRPCMetrics_disabled :
  IsEnabled (Some newGRPCMetrics) = false /\ IsEnabled None = false.
Proof. split; reflexivity. Qed.

Lemma Init_enables (g : grpcMetrics) (id : string) :
  IsEnabled (Some (Init g id)) = true.
Proof. reflexivity. Qed.

(** C9: on a disabled recorder each of the five recording operations leaves
    the meter as it was, for every input: nothing is recorded. *)
Theorem disabled_recorder_records_nothing (g : option grpcMetrics) :
  IsEnabled g = false ->
  forall (method status : string) (reqContentSize resContentSize : Z)
         (start now : Z) (meter : Meter),
    ServerRequestSent g method status reqContentSize resContentSize start now
      meter = meter
    /\ ClientRequestReceived g method status reqContentSize resContentSize
         start now meter = meter
    /\ StreamServerRequestSent g method status start now meter = meter
    /\ StreamClientRequestSent g method status start now meter = meter
    /\ AppHealthProbeCompleted g status start now meter = meter.
Proof.
  intros Hoff method status req res start now meter.
  unfold ServerRequestSent, ClientRequestReceived, StreamServerRequestSent,
    StreamClientRequestSent, AppHealthProbeCompleted.
  rewrite Hoff. repeat split.
Qed.

Lemma disabled_recorder_records_nothing_witness :
  IsEnabled (Some newGRPCMetrics) = false
  /\ ServerRequestSent (Some newGRPCMetrics) "/svc/Method" "OK" 10 20 0 5000000
       [] = []
  /\ AppHealthProbeCompleted (Some newGRPCMetrics) "OK" 0 5000000 [] = [].
Proof.
  split; [reflexivity|].
  destruct (disabled_recorder_records_nothing (Some newGRPCMetrics) eq_refl
              "/svc/Method" "OK" 10 20 0 5000000 [])
    as (Hs & _ & _ & _ & Hh).
  split; [exact Hs | exact Hh].
Defined.

(** The guard is what keeps the meter unchanged: the same calls on an
    initialised recorder do record. *)
Lemma enabled_recorder_records (g : grpcMetrics) (id : string)
    (method status : string) (req res start now : Z) (meter : Meter) :
  length (ServerRequestSent (Some (Init g id)) method status req res start now
            meter) = (length meter + 4)%nat
  /\ length (ClientRequestReceived (Some (Init g id)) method status req res
               start now meter) = (length meter + 4)%nat
  /\ length (StreamServerRequestSent (Some (Init g id)) method status start
               now meter) = (length meter + 2)%nat
  /\ length (StreamClientRequestSent (Some (Init g id)) method status start
               now meter) = (length meter + 2)%nat
  /\ length (AppHealthProbeCompleted (Some (Init g id)) status start now
               meter) = (length meter + 2)%nat.
Proof.
  unfold ServerRequestSent, ClientRequestReceived, StreamServerRequestSent,
    StreamClientRequestSent, AppHealthProbeCompleted, RecordWithOptions.
  cbn [IsEnabled Init enabled negb].
  repeat split; rewrite ?length_app; simpl; lia.
Qed.

End Recorder.

(** ** The base64 codec *)

Section Base64.

Import base64.
Open Scope Z_scope.

(** *** Bits *)

Lemma testbit_ones_lt (w n : Z) :
  0 <= w -> 0 <= n -> Z.testbit (Z.ones w) n = (n <? w).
Proof.
  intros Hw Hn. rewrite Z.testbit_ones_nonneg by lia.
  destruct (Z.ltb_spec n w); reflexivity.
Qed.

Lemma testbit_above (v k n : Z) :
  0 <= v < 2 ^ k -> k <= n -> Z.testbit v n = false.
Proof.
  intros [H0 H1] Hk. destruct (Z.eq_dec v 0) as [->|Hne]; [apply Z.bits_0|].
  apply Z.bits_above_log2; [lia|].
  assert (Z.log2 v < k); [|lia]. apply Z.log2_lt_pow2; lia.
Qed.

(** The six bits of [v] from bit [k] on, put back at bit [k]. *)
Lemma testbit_sextet (v k n : Z) :
  0 <= k -> 0 <= n ->
  Z.testbit (Z.shiftl (Z.land (Z.shiftr v k) 63) k) n
  = Z.testbit v n && (k <=? n) && (n <? k + 6).
Proof.
  intros Hk Hn. rewrite Z.shiftl_spec by lia.
  destruct (Z.leb_spec k n) as [Hle|Hlt].
  - rewrite Z.land_spec, Z.shiftr_spec by lia.
    change 63 with (Z.ones 6). rewrite testbit_ones_lt by lia.
    replace (n - k + k) with n by lia.
    replace (n - k <? 6) with (n <? k + 6);
      [rewrite andb_true_r; reflexivity|].
    destruct (Z.ltb_spec n (k + 6)), (Z.ltb_spec (n - k) 6);
      try reflexivity; lia.
  - rewrite Z.testbit_neg_r by lia. rewrite andb_false_r. reflexivity.
Qed.

Lemma sextet_range (x : Z) : 0 <= Z.land x 63 < 64.
Proof.
  change 63 with (Z.ones 6). rewrite Z.land_ones by lia.
  apply Z.mod_pos_bound. lia.
Qed.

Ltac split_cmp :=
  repeat match goal with
  | |- context [?a <=? ?b] => destruct (Z.leb_spec a b)
  | |- context [?a <? ?b] => destruct (Z.ltb_spec a b)
  end.

(** Taking a 24-bit value apart into sextets and putting the first sextets
    back gives the bits of the value from bit [lo] on, for the three places
    [lo] at which an encoded group can end. *)
Lemma testbit_assemble (v n : Z) :
  0 <= v < 2 ^ 24 -> 0 <= n ->
  Z.testbit
    (assemble (Z.land (Z.shiftr v 18) 63) (Z.land (Z.shiftr v 12) 63)
       (Z.land (Z.shiftr v 6) 63) (Z.land v 63)) n
  = Z.testbit v n
  /\ Z.testbit
       (assemble (Z.land (Z.shiftr v 18) 63) (Z.land (Z.shiftr v 12) 63)
          (Z.land (Z.shiftr v 6) 63) 0) n
     = Z.testbit v n && (6 <=? n)
  /\ Z.testbit
       (assemble (Z.land (Z.shiftr v 18) 63) (Z.land (Z.shiftr v 12) 63) 0 0) n
     = Z.testbit v n && (12 <=? n).
Proof.
  intros Hv Hn. unfold assemble.
  rewrite !Z.lor_spec, !testbit_sextet by lia.
  rewrite Z.land_spec. change 63 with (Z.ones 6).
  rewrite testbit_ones_lt by lia.
  change (Z.shiftl 0 6) with 0. rewrite !Z.bits_0, !orb_false_r.
  destruct (Z.ltb_spec n 24) as [Hlt|Hge].
  - destruct (Z.testbit v n); [|repeat split; reflexivity]. simpl.
    repeat split; split_cmp; try reflexivity; lia.
  - rewrite (testbit_above v 24 n) by lia. repeat split; reflexivity.
Qed.

Lemma testbit_pack (a b c n : Z) :
  0 <= n ->
  Z.testbit (pack a b c) n
  = Z.testbit a (n - 16) || Z.testbit b (n - 8) || Z.testbit c n.
Proof.
  intros Hn. unfold pack. rewrite !Z.lor_spec, !Z.shiftl_spec by lia.
  reflexivity.
Qed.

Lemma pack_range (a b c : Z) :
  0 <= a < 256 -> 0 <= b < 256 -> 0 <= c < 256 -> 0 <= pack a b c < 2 ^ 24.
Proof.
  intros Ha Hb Hc. unfold pack.
  assert (H0 : 0 <= Z.lor (Z.lor (Z.shiftl a 16) (Z.shiftl b 8)) c).
  { rewrite !Z.lor_nonneg, !Z.shiftl_nonneg. lia. }
  split; [exact H0|].
  destruct (Z.eq_dec (Z.lor (Z.lor (Z.shiftl a 16) (Z.shiftl b 8)) c) 0)
    as [->|Hne]; [reflexivity|].
  apply Z.log2_lt_pow2; [lia|].
  rewrite !Z.log2_lor by (rewrite ?Z.lor_nonneg, ?Z.shiftl_nonneg; lia).
  assert (Hl : forall x, 0 <= x < 256 -> Z.log2 x < 8).
  { intros x Hx. destruct (Z.eq_dec x 0) as [->|Hx0]; [reflexivity|].
    apply Z.log2_lt_pow2; lia. }
  assert (Hs : forall x k, 0 <= x < 256 -> 0 <= k -> Z.log2 (Z.shiftl x k) < 8 + k).
  { intros x k Hx Hk. destruct (Z.eq_dec x 0) as [->|Hx0].
    - rewrite Z.shiftl_0_l. simpl. lia.
    - rewrite Z.log2_shiftl by lia. specialize (Hl x Hx). lia. }
  pose proof (Hs a 16 Ha ltac:(lia)). pose proof (Hs b 8 Hb ltac:(lia)).
  pose proof (Hl c Hc). lia.
Qed.

(** The three bytes of a packed value. *)
Lemma pack_bytes (a b c : Z) :
  0 <= a < 256 -> 0 <= b < 256 -> 0 <= c < 256 ->
  forall m, 0 <= m < 8 ->
    Z.testbit (pack a b c) (m + 16) = Z.testbit a m
    /\ Z.testbit (pack a b c) (m + 8) = Z.testbit b m
    /\ Z.testbit (pack a b c) m = Z.testbit c m.
Proof.
  intros Ha Hb Hc m Hm. rewrite !testbit_pack by lia.
  replace (m + 16 - 16) with m by lia. replace (m + 8 - 8) with m by lia.
  replace (m + 16 - 8) with (m + 8) by lia.
  rewrite (testbit_above b 8 (m + 8)), (testbit_above c 8 (m + 16)),
    (testbit_above c 8 (m + 8)) by lia.
  rewrite !(Z.testbit_neg_r _ (m - _)), !(Z.testbit_neg_r _ (m + 8 - 16)) by lia.
  rewrite !orb_false_r. repeat split; reflexivity.
Qed.

Lemma uint_range (c : ascii) : 0 <= uint c < 256.
Proof.
  unfold uint. pose proof (N_ascii_bounded c). lia.
Qed.

Lemma byte_uint (c : ascii) : byte (uint c) = c.
Proof.
  unfold byte. change 255 with (Z.ones 8). rewrite Z.land_ones by lia.
  pose proof (uint_range c). rewrite Z.mod_small by (simpl; lia).
  unfold uint. rewrite N2Z.id. apply ascii_N_embedding.
Qed.

(** [byte(x >> k)] only looks at the eight bits of [x] from bit [k] on. *)
Lemma byte_shiftr (x k : Z) (c : ascii) :
  0 <= k ->
  (forall m, 0 <= m < 8 -> Z.testbit x (m + k) = Z.testbit (uint c) m) ->
  byte (Z.shiftr x k) = c.
Proof.
  intros Hk Hbits. rewrite <- (byte_uint c). unfold byte. do 2 f_equal.
  apply Z.bits_inj'. intros n Hn. rewrite !Z.land_spec, Z.shiftr_spec by lia.
  change 255 with (Z.ones 8). rewrite testbit_ones_lt by lia.
  destruct (Z.ltb_spec n 8).
  - rewrite Hbits by lia. reflexivity.
  - rewrite !andb_false_r. reflexivity.
Qed.

(** *** The alphabet *)

Lemma decodeMap_encode (i : Z) : 0 <= i < 64 -> decodeMap (encode i) = i.
Proof.
  intros Hi. rewrite <- (Z2Nat.id i) by lia.
  assert (Hn : (Z.to_nat i < 64)%nat) by lia.
  generalize dependent (Z.to_nat i). clear i Hi. intros n Hn.
  do 64 (destruct n as [|n]; [vm_compute; reflexivity|]). lia.
Qed.

(** *** One quantum *)

Lemma append_String (c : ascii) (s r : string) :
  String c s +:+ r = String c (s +:+ r).
Proof. reflexivity. Qed.

Lemma append_Empty (r : string) : EmptyString +:+ r = r.
Proof. reflexivity. Qed.

Lemma scan_full (src : string) (dbuf : list Z) :
  scan src 4 dbuf = Collected src dbuf 4 None.
Proof. destruct src; reflexivity. Qed.

(** A byte of the alphabet is stored and the loop goes on. *)
Lemma scan_sextet (x : Z) (rest : string) (j : nat) (dbuf : list Z) :
  (j < 4)%nat ->
  scan (String (encode (Z.land x 63)) rest) j dbuf
  = scan rest (S j) (dbuf ++ [Z.land x 63]).
Proof.
  intros Hj. pose proof (sextet_range x) as Hr.
  assert (Hd : decodeMap (encode (Z.land x 63)) = Z.land x 63)
    by (apply decodeMap_encode; exact Hr).
  assert (Hne : negb (Z.land x 63 =? 255) = true).
  { apply negb_true_iff, Z.eqb_neq. lia. }
  do 4 (destruct j as [|j]; [cbn [scan]; rewrite Hd, Hne; reflexivity|]). lia.
Qed.

(** The padding that ends a group of one byte, and of two. *)
Lemma scan_padding2 (dbuf : list Z) :
  scan (String padChar (String padChar EmptyString)) 2 dbuf
  = Collected EmptyString dbuf 2 None.
Proof. reflexivity. Qed.

Lemma scan_padding1 (dbuf : list Z) :
  scan (String padChar EmptyString) 3 dbuf = Collected EmptyString dbuf 3 None.
Proof. reflexivity. Qed.

Lemma decodeQuantum_three (a b c : ascii) (rest : string) :
  decodeQuantum (quad (pack (uint a) (uint b) (uint c)) ++ rest)
  = (rest, String a (String b (String c EmptyString)), None).
Proof.
  pose proof (pack_range _ _ _ (uint_range a) (uint_range b) (uint_range c))
    as Hv.
  pose proof (pack_bytes _ _ _ (uint_range a) (uint_range b) (uint_range c))
    as Hb.
  set (v := pack (uint a) (uint b) (uint c)) in *.
  unfold decodeQuantum, quad. rewrite !append_String, append_Empty.
  rewrite !scan_sextet by lia. rewrite scan_full. cbn [app nth].
  fold (assemble (Z.land (Z.shiftr v 18) 63) (Z.land (Z.shiftr v 12) 63)
          (Z.land (Z.shiftr v 6) 63) (Z.land v 63)).
  assert (Hbits : forall n, 0 <= n ->
    Z.testbit (assemble (Z.land (Z.shiftr v 18) 63) (Z.land (Z.shiftr v 12) 63)
                 (Z.land (Z.shiftr v 6) 63) (Z.land v 63)) n = Z.testbit v n)
    by (intros n Hn; apply (testbit_assemble v n Hv Hn)).
  repeat f_equal; apply byte_shiftr; try lia; intros m Hm;
    rewrite Hbits by lia; rewrite ?Z.add_0_r; apply (Hb m Hm).
Qed.

Lemma decodeQuantum_two (a b : ascii) :
  decodeQuantum (EncodeToString (String a (String b EmptyString)))
  = (EmptyString, String a (String b EmptyString), None).
Proof.
  pose proof (pack_range _ _ 0 (uint_range a) (uint_range b) ltac:(lia)) as Hv.
  pose proof (pack_bytes _ _ 0 (uint_range a) (uint_range b) ltac:(lia)) as Hb.
  unfold EncodeToString.
  replace (Z.lor (Z.shiftl (uint a) 16) (Z.shiftl (uint b) 8))
    with (pack (uint a) (uint b) 0) by (unfold pack; apply Z.lor_0_r).
  set (v := pack (uint a) (uint b) 0) in *.
  unfold decodeQuantum. rewrite !scan_sextet by lia.
  rewrite scan_padding1. cbn [app nth].
  change (Z.shiftl 0 6) with 0. rewrite !Z.lor_0_r.
  assert (Hbits : forall n, 6 <= n ->
    Z.testbit (Z.lor (Z.lor (Z.shiftl (Z.land (Z.shiftr v 18) 63) 18)
                        (Z.shiftl (Z.land (Z.shiftr v 12) 63) 12))
                 (Z.shiftl (Z.land (Z.shiftr v 6) 63) 6)) n = Z.testbit v n).
  { intros n Hn. destruct (testbit_assemble v n Hv ltac:(lia)) as (_ & H6 & _).
    unfold assemble in H6. rewrite Z.lor_0_r in H6. rewrite H6.
    replace (6 <=? n) with true by (symmetry; apply Z.leb_le; lia).
    apply andb_true_r. }
  repeat f_equal; apply byte_shiftr; try lia; intros m Hm;
    rewrite Hbits by lia; apply (Hb m Hm).
Qed.

Lemma decodeQuantum_one (a : ascii) :
  decodeQuantum (EncodeToString (String a EmptyString))
  = (EmptyString, String a EmptyString, None).
Proof.
  pose proof (pack_range _ 0 0 (uint_range a) ltac:(lia) ltac:(lia)) as Hv.
  pose proof (pack_bytes _ 0 0 (uint_range a) ltac:(lia) ltac:(lia)) as Hb.
  unfold EncodeToString.
  replace (Z.shiftl (uint a) 16) with (pack (uint a) 0 0)
    by (unfold pack; change (Z.shiftl 0 8) with 0; rewrite !Z.lor_0_r;
        reflexivity).
  set (v := pack (uint a) 0 0) in *.
  unfold decodeQuantum. rewrite !scan_sextet by lia.
  rewrite scan_padding2. cbn [app nth].
  change (Z.shiftl 0 6) with 0. rewrite !Z.lor_0_r.
  assert (Hbits : forall n, 12 <= n ->
    Z.testbit (Z.lor (Z.shiftl (Z.land (Z.shiftr v 18) 63) 18)
                 (Z.shiftl (Z.land (Z.shiftr v 12) 63) 12)) n = Z.testbit v n).
  { intros n Hn. destruct (testbit_assemble v n Hv ltac:(lia)) as (_ & _ & H12).
    unfold assemble in H12. change (Z.shiftl 0 6) with 0 in H12.
    rewrite !Z.lor_0_r in H12. rewrite H12.
    replace (12 <=? n) with true by (symmetry; apply Z.leb_le; lia).
    apply andb_true_r. }
  repeat f_equal; apply byte_shiftr; try lia; intros m Hm;
    rewrite Hbits by lia; apply (Hb m Hm).
Qed.

(** *** The decoder always returns *)

Lemma skipNewlines_length (src : string) :
  (String.length (skipNewlines src) <= String.length src)%nat.
Proof.
  induction src as [|c src IH]; simpl; [lia|].
  destruct (Ascii.eqb c LF || Ascii.eqb c CR); simpl; lia.
Qed.

Lemma scan_consumes (src : string) :
  forall (j : nat) (dbuf : list Z),
    (String.length (left_over (scan src j dbuf)) <= String.length src)%nat
    /\ ((j < 4)%nat -> src <> EmptyString ->
        (String.length (left_over (scan src j dbuf)) < String.length src)%nat).
Proof.
  induction src as [|c src IH]; intros j dbuf.
  - do 5 (destruct j as [|j]; [simpl; split; [lia|congruence]|]).
    simpl; split; [lia|congruence].
  - assert (Hcons :
      (j < 4)%nat ->
      (String.length (left_over (scan (String c src) j dbuf))
       < String.length (String c src))%nat).
    { intros Hj.
      pose proof (skipNewlines_length src) as Hskip.
      destruct j as [|[|[|[|j]]]]; [| | | |lia]; cbn [scan];
        destruct (negb (decodeMap c =? 255));
        try (destruct (IH 1%nat (dbuf ++ [decodeMap c])) as [Hle _];
             simpl String.length; lia);
        try (destruct (IH 2%nat (dbuf ++ [decodeMap c])) as [Hle _];
             simpl String.length; lia);
        try (destruct (IH 3%nat (dbuf ++ [decodeMap c])) as [Hle _];
             simpl String.length; lia);
        try (destruct (IH 4%nat (dbuf ++ [decodeMap c])) as [Hle _];
             simpl String.length; lia);
        (destruct (Ascii.eqb c LF || Ascii.eqb c CR);
         [ match goal with
           | |- context [scan src ?k ?d] =>
               destruct (IH k d) as [Hle _]; simpl String.length; lia
           end |]);
        (destruct (negb (Ascii.eqb c padChar));
         [simpl; lia|]);
        try (simpl; lia).
      destruct (skipNewlines src) as [|c2 rest2] eqn:Hs; [simpl; lia|].
      destruct (negb (Ascii.eqb c2 padChar)).
      - simpl in *. lia.
      - pose proof (skipNewlines_length rest2). simpl in *. lia. }
    split; [|intros Hj _; apply Hcons; exact Hj].
    destruct (Nat.lt_ge_cases j 4) as [Hj|Hj]; [specialize (Hcons Hj); lia|].
    destruct j as [|[|[|[|[|j]]]]]; try lia.
    + rewrite scan_full. simpl. lia.
    + cbn [scan].
      destruct (negb (decodeMap c =? 255)).
      * destruct (IH (S (S (S (S (S (S j)))))) (dbuf ++ [decodeMap c]))
          as [Hle _]. simpl String.length. lia.
      * destruct (Ascii.eqb c LF || Ascii.eqb c CR).
        -- destruct (IH (S (S (S (S (S j))))) dbuf) as [Hle _].
           simpl String.length. lia.
        -- destruct (negb (Ascii.eqb c padChar)); [simpl; lia|].
           pose proof (skipNewlines_length src). simpl. lia.
Qed.

Lemma decodeQuantum_consumes (src : string) :
  src <> EmptyString ->
  (String.length (fst (fst (decodeQuantum src))) < String.length src)%nat.
Proof.
  intros Hne. destruct (scan_consumes src 0%nat []) as [_ Hlt].
  specialize (Hlt ltac:(lia) Hne). unfold decodeQuantum.
  destruct (scan src 0 []); exact Hlt.
Qed.

Lemma Decode_S (fuel : nat) (src : string) :
  src <> EmptyString ->
  Decode (S fuel) src
  = let '(rest, out, err) := decodeQuantum src in
    match err with
    | Some e => Some (out, Some e)
    | None =>
        match Decode fuel rest with
        | Some (out', err') => Some ((out ++ out')%string, err')
        | None => None
        end
    end.
Proof. destruct src; [congruence|reflexivity]. Qed.

(** As many rounds as the input has bytes are enough. *)
Lemma Decode_total (fuel : nat) :
  forall src : string,
    (String.length src <= fuel)%nat -> is_Some (Decode fuel src).
Proof.
  induction fuel as [|fuel IH]; intros src Hlen.
  - destruct src; [eexists; reflexivity|simpl in Hlen; lia].
  - destruct src as [|c src]; [eexists; reflexivity|].
    rewrite Decode_S by discriminate.
    pose proof (decodeQuantum_consumes (String c src) ltac:(discriminate))
      as Hlt.
    destruct (decodeQuantum (String c src)) as [[rest out] err].
    destruct err; [eexists; reflexivity|].
    destruct (IH rest) as [[out' err'] Hr]; [simpl in *; lia|].
    rewrite Hr. eexists; reflexivity.
Qed.

Lemma DecodeString_Decode (s : string) :
  Decode (String.length s) s = Some (DecodeString s).
Proof.
  unfold DecodeString.
  destruct (Decode_total (String.length s) s (le_n _)) as [r Hr].
  rewrite Hr. reflexivity.
Qed.

(** *** Decoding what was encoded *)

Lemma EncodeToString_three (a b c : ascii) (rest : string) :
  EncodeToString (String a (String b (String c rest)))
  = quad (pack (uint a) (uint b) (uint c)) +:+ EncodeToString rest.
Proof. reflexivity. Qed.

Lemma quad_length (v : Z) (rest : string) :
  String.length (quad v +:+ rest) = S (S (S (S (String.length rest)))).
Proof. reflexivity. Qed.

Lemma quad_not_empty (v : Z) (rest : string) : quad v +:+ rest <> EmptyString.
Proof. discriminate. Qed.

(** The three shapes of the input are proved together, so that the step of
    three bytes can lean on the string three bytes shorter. *)
Lemma Decode_EncodeToString (src : string) :
  (forall fuel, (String.length (EncodeToString src) <= fuel)%nat ->
     Decode fuel (EncodeToString src) = Some (src, None))
  /\ (forall a fuel,
        (String.length (EncodeToString (String a src)) <= fuel)%nat ->
        Decode fuel (EncodeToString (String a src))
        = Some (String a src, None))
  /\ (forall a b fuel,
        (String.length (EncodeToString (String a (String b src))) <= fuel)%nat ->
        Decode fuel (EncodeToString (String a (String b src)))
        = Some (String a (String b src), None)).
Proof.
  induction src as [|c src (IH0 & IH1 & IH2)].
  - split; [intros [|fuel] _; reflexivity|]. split.
    + intros a [|fuel] Hlen; [simpl in Hlen; lia|].
      rewrite Decode_S by discriminate. rewrite decodeQuantum_one.
      destruct fuel; reflexivity.
    + intros a b [|fuel] Hlen; [simpl in Hlen; lia|].
      rewrite Decode_S by discriminate. rewrite decodeQuantum_two.
      destruct fuel; reflexivity.
  - split; [exact (IH1 c)|]. split; [intros a; exact (IH2 a c)|].
    intros a b fuel. rewrite EncodeToString_three, quad_length.
    destruct fuel as [|fuel]; intros Hlen; [lia|].
    rewrite Decode_S by apply quad_not_empty.
    rewrite decodeQuantum_three. rewrite IH0 by lia. reflexivity.
Qed.

(** Round trip: the decoder gives back the bytes that were encoded, and no
    error. *)
Lemma DecodeString_EncodeToString (src : string) :
  DecodeString (EncodeToString src) = (src, None).
Proof.
  unfold DecodeString.
  destruct (Decode_EncodeToString src) as [H0 _]. rewrite H0 by lia.
  reflexivity.
Qed.

(** *** The decoder on inputs that were not made by the encoder *)

Example DecodeString_hello :
  EncodeToString "hello" = "aGVsbG8="
  /\ DecodeString "aGVsbG8=" = ("hello", None).
Proof. split; vm_compute; reflexivity. Qed.

(** Line feeds and carriage returns are skipped. *)
Example DecodeString_newlines :
  DecodeString ("aGVs" +:+ String LF (String CR "bG8=")) = ("hello", None).
Proof. vm_compute. reflexivity. Qed.

(** The decoder is not strict: the padding bits are not looked at. *)
Example DecodeString_padding_bits : DecodeString "aGVsbG9=" = ("hello", None).
Proof. vm_compute. reflexivity. Qed.

(** An error comes with the bytes decoded before it. *)
Example DecodeString_errors :
  DecodeString "!" = ("", Some CorruptInputError)
  /\ DecodeString "aGVsbG8" = ("hel", Some CorruptInputError)
  /\ DecodeString "aG=" = ("", Some CorruptInputError)
  /\ DecodeString "aGk=x" = ("hi", Some CorruptInputError).
Proof. repeat split; vm_compute; reflexivity. Qed.

End Base64.

(** ** Strings *)

Section Strings.

Import strings.

Lemma lower_byte_idem (c : ascii) : lower_byte (lower_byte c) = lower_byte c.
Proof. destruct c as [[] [] [] [] [] [] [] []]; reflexivity. Qed.

Lemma ToLower_idem (s : string) : ToLower (ToLower s) = ToLower s.
Proof.
  induction s as [|c s IH]; simpl; [reflexivity|].
  rewrite lower_byte_idem, IH. reflexivity.
Qed.

Lemma ToLower_append (s t : string) :
  ToLower (s +:+ t) = ToLower s +:+ ToLower t.
Proof.
  induction s as [|c s IH]; [reflexivity|].
  change (String c s +:+ t) with (String c (s +:+ t)).
  cbn [ToLower]. rewrite IH. reflexivity.
Qed.

Lemma ToLower_length (s : string) : String.length (ToLower s) = String.length s.
Proof. induction s as [|c s IH]; simpl; [reflexivity|]. rewrite IH. reflexivity. Qed.

Lemma ToLower_substring (s : string) :
  forall n m, ToLower (String.substring n m s) = String.substring n m (ToLower s).
Proof.
  induction s as [|c s IH]; intros n m.
  - destruct n, m; reflexivity.
  - destruct n as [|n].
    + destruct m as [|m]; [reflexivity|]. simpl. rewrite IH. reflexivity.
    + simpl. apply IH.
Qed.

(** A suffix in lower case stays a suffix when the string is lower-cased. *)
Lemma HasSuffix_ToLower (s suffix : string) :
  ToLower suffix = suffix ->
  HasSuffix s suffix = true -> HasSuffix (ToLower s) suffix = true.
Proof.
  unfold HasSuffix. intros Hlow Hs.
  apply andb_true_iff in Hs as [Hlen Heq]. apply String.eqb_eq in Heq.
  rewrite ToLower_length, Hlen. simpl.
  rewrite <- ToLower_substring, Heq, Hlow. apply String.eqb_refl.
Qed.

End Strings.

(** ** The outgoing metadata *)

Section Metadata.

Import strings v1.

Lemma lookup_Set (md : metadata.MD) (k v key : string) :
  metadata.Set_ md k [v] !! key
  = if decide (ToLower k = key) then Some [v] else md !! key.
Proof. unfold metadata.Set_. apply lookup_insert. Qed.

Lemma extend_extend (old : option (list string)) (a b : list string) :
  extend (extend old a) b = extend old (a ++ b).
Proof.
  destruct a as [|x a]; [reflexivity|].
  destruct b as [|y b]; [rewrite app_nil_r; reflexivity|].
  simpl. rewrite <- app_assoc. reflexivity.
Qed.

Lemma lookup_Append (md : metadata.MD) (k key : string) (vals : list string) :
  metadata.Append md k vals !! key
  = if decide (ToLower k = key) then extend (md !! key) vals else md !! key.
Proof.
  unfold metadata.Append. destruct vals as [|v vals].
  - destruct (decide (ToLower k = key)); reflexivity.
  - rewrite lookup_insert. destruct (decide (ToLower k = key)) as [->|];
      reflexivity.
Qed.

Section WithDiagnostics.
Context `{Diagnostics}.

Lemma lookup_appendDecoded (vals : list string) :
  forall (md : metadata.MD) (keyName key : string),
    appendDecoded md keyName vals !! key
    = if decide (ToLower keyName = key)
      then extend (md !! key) (decodedValues vals) else md !! key.
Proof.
  induction vals as [|val vals IH]; intros md keyName key.
  - simpl. destruct (decide (ToLower keyName = key)); reflexivity.
  - cbn [appendDecoded decodedValues].
    destruct (base64.DecodeString val) as [decoded [e|]].
    + apply IH.
    + rewrite IH, lookup_Append.
      destruct (decide (ToLower keyName = key)); [|reflexivity].
      rewrite extend_extend. reflexivity.
Qed.

(** The outgoing key is in lower case already, so [Append] keeps it. *)
Lemma ToLower_outKey (conv : bool) (k : string) :
  ToLower (outKey conv k) = outKey conv k.
Proof.
  unfold outKey. destruct (conv && isPermanentHTTPHeader k).
  - rewrite ToLower_append, ToLower_idem. reflexivity.
  - apply ToLower_idem.
Qed.

Lemma diverted_false (k : string) :
  diverted k = false ->
  String.eqb (ToLower k) diagConsts.TraceparentHeader = false
  /\ String.eqb (ToLower k) diagConsts.TracestateHeader = false
  /\ String.eqb (ToLower k) diagConsts.GRPCTraceContextKey = false
  /\ String.eqb (ToLower k) DestinationIDHeader = false.
Proof.
  unfold diverted. intros Hd.
  repeat (apply orb_false_iff in Hd as [Hd ?]). auto.
Qed.

(** One round either panics or adds the contribution of its entry to every
    outgoing key. *)
Lemma grpcRound_lookup (conv : bool) (vars vars' : grpcVars) (k : string)
    (listVal : ListStringValue) (key : string) :
  grpcRound conv vars k listVal = Some vars' ->
  md vars' !! key = extend (md vars !! key) (contribution conv key (k, listVal)).
Proof.
  unfold grpcRound, contribution. cbn [fst snd].
  destruct (diverted k) eqn:Hdiv.
  - unfold diverted in Hdiv. intros Hr.
    destruct (String.eqb (ToLower k) diagConsts.TraceparentHeader);
      [destruct (index0 (GetValues listVal)); inversion Hr; reflexivity|].
    destruct (String.eqb (ToLower k) diagConsts.TracestateHeader);
      [destruct (index0 (GetValues listVal)); inversion Hr; reflexivity|].
    destruct (String.eqb (ToLower k) diagConsts.GRPCTraceContextKey);
      [destruct (index0 (GetValues listVal)); inversion Hr; reflexivity|].
    destruct (String.eqb (ToLower k) DestinationIDHeader);
      [inversion Hr; reflexivity|discriminate Hdiv].
  - destruct (diverted_false k Hdiv) as (-> & -> & -> & ->).
    intros Hr. inversion Hr as [Hvars]. cbn [md]. clear Hr Hvars.
    fold (outKey conv k). unfold outVals.
    destruct (HasSuffix k gRPCBinaryMetadataSuffix).
    + rewrite lookup_appendDecoded, ToLower_outKey.
      destruct (decide (outKey conv k = key)) as [->|Hne].
      * rewrite String.eqb_refl. reflexivity.
      * apply String.eqb_neq in Hne. rewrite Hne. reflexivity.
    + rewrite lookup_Append, ToLower_outKey.
      destruct (decide (outKey conv k = key)) as [->|Hne].
      * rewrite String.eqb_refl. reflexivity.
      * apply String.eqb_neq in Hne. rewrite Hne. reflexivity.
Qed.

Lemma grpcLoop_lookup (conv : bool) (entries : DaprInternalMetadata)
    (key : string) :
  forall vars vars' : grpcVars,
    grpcLoop conv vars entries = Some vars' ->
    md vars' !! key
    = extend (md vars !! key) (flat_map (contribution conv key) entries).
Proof.
  induction entries as [|[k listVal] entries IH]; intros vars vars' Hloop.
  - inversion Hloop. reflexivity.
  - cbn [grpcLoop] in Hloop.
    destruct (grpcRound conv vars k listVal) as [vars1|] eqn:Hround;
      [|discriminate Hloop].
    cbn [mbind option_bind] in Hloop.
    rewrite (IH vars1 vars' Hloop).
    rewrite (grpcRound_lookup _ _ _ _ _ key Hround).
    cbn [flat_map]. apply extend_extend.
Qed.

(** *** Panics *)

Lemma index0_None (vals : list string) : index0 vals = None <-> vals = [].
Proof. destruct vals; simpl; split; congruence. Qed.

Lemma grpcRound_None (conv : bool) (vars : grpcVars) (k : string)
    (listVal : ListStringValue) :
  grpcRound conv vars k listVal = None
  <-> traceKey k = true /\ GetValues listVal = [].
Proof.
  unfold grpcRound, traceKey.
  destruct (String.eqb (ToLower k) diagConsts.TraceparentHeader);
    [rewrite <- index0_None; destruct (index0 (GetValues listVal)); simpl;
     intuition congruence|].
  destruct (String.eqb (ToLower k) diagConsts.TracestateHeader);
    [rewrite <- index0_None; destruct (index0 (GetValues listVal)); simpl;
     intuition congruence|].
  destruct (String.eqb (ToLower k) diagConsts.GRPCTraceContextKey);
    [rewrite <- index0_None; destruct (index0 (GetValues listVal)); simpl;
     intuition congruence|].
  cbn [orb].
  destruct (String.eqb (ToLower k) DestinationIDHeader);
    (split; [discriminate|intros [Hf _]; discriminate Hf]).
Qed.

Lemma grpcLoop_None (conv : bool) (entries : DaprInternalMetadata) :
  forall vars, grpcLoop conv vars entries = None <-> Exists panics entries.
Proof.
  induction entries as [|[k listVal] entries IH]; intros vars.
  - simpl. split; [discriminate|]. intros Hex. inversion Hex.
  - cbn [grpcLoop]. rewrite Exists_cons.
    destruct (grpcRound conv vars k listVal) as [vars1|] eqn:Hround.
    + cbn [mbind option_bind]. rewrite IH. split; [tauto|].
      intros [Hp|Hex]; [|exact Hex].
      apply (grpcRound_None conv vars k listVal) in Hp. congruence.
    + cbn [mbind option_bind]. apply grpcRound_None in Hround.
      split; [intros _; left; exact Hround|reflexivity].
Qed.

Lemma IsGRPCProtocol_None (internalMD : DaprInternalMetadata) :
  IsGRPCProtocol internalMD = None
  <-> exists listVal,
        lookup ContentTypeHeader internalMD = Some listVal
        /\ GetValues listVal = [].
Proof.
  unfold IsGRPCProtocol.
  destruct (lookup ContentTypeHeader internalMD) as [listVal|].
  - destruct (GetValues listVal) as [|v vals] eqn:Hv; simpl.
    + split; [intros _; exists listVal; auto|reflexivity].
    + split; [discriminate|]. intros (lv & Heq & Hnil).
      inversion Heq; subst. congruence.
  - simpl. split; [discriminate|]. intros (lv & Heq & _). discriminate.
Qed.

Lemma InternalMetadataToGrpcMetadata_None (ctx : Ctx)
    (internalMD : DaprInternalMetadata) (conv : bool) :
  InternalMetadataToGrpcMetadata ctx internalMD conv = None
  <-> Exists panics internalMD \/ IsGRPCProtocol internalMD = None.
Proof.
  unfold InternalMetadataToGrpcMetadata.
  destruct (grpcLoop conv _ internalMD) as [vars|] eqn:Hloop.
  - cbn [mbind option_bind].
    assert (Hno : ~ Exists panics internalMD).
    { intros Hex.
      rewrite (proj2 (grpcLoop_None conv internalMD _) Hex) in Hloop.
      discriminate. }
    destruct (IsGRPCProtocol internalMD); simpl; intuition congruence.
  - cbn [mbind option_bind]. apply grpcLoop_None in Hloop. tauto.
Qed.

(** A key with the empty list of values has a first entry that is empty or
    none at all. *)
Lemma Forall_nonempty_lookup (internalMD : DaprInternalMetadata) (k : string)
    (listVal : ListStringValue) :
  Forall (fun entry => GetValues (snd entry) <> []) internalMD ->
  lookup k internalMD = Some listVal -> GetValues listVal <> [].
Proof.
  induction internalMD as [|[k' v] rest IH]; intros Hall Hl; [discriminate|].
  inversion Hall as [|? ? Hv Hrest]; subst. simpl in Hl.
  destruct (String.eqb k' k); [inversion Hl; subst; exact Hv|auto].
Qed.

Lemma bridges_total (ctx : Ctx) (internalMD : DaprInternalMetadata)
    (conv : bool) :
  Forall (fun entry => GetValues (snd entry) <> []) internalMD ->
  is_Some (IsGRPCProtocol internalMD)
  /\ is_Some (InternalMetadataToGrpcMetadata ctx internalMD conv).
Proof.
  intros Hall.
  assert (H1 : IsGRPCProtocol internalMD <> None).
  { rewrite IsGRPCProtocol_None. intros (lv & Hl & Hnil).
    exact (Forall_nonempty_lookup _ _ _ Hall Hl Hnil). }
  assert (H2 : InternalMetadataToGrpcMetadata ctx internalMD conv <> None).
  { rewrite InternalMetadataToGrpcMetadata_None. intros [Hex|Hn]; [|auto].
    apply Exists_exists in Hex as (entry & Hin & _ & Hnil).
    rewrite Forall_forall in Hall. exact (Hall entry Hin Hnil). }
  split; apply not_eq_None_Some; assumption.
Qed.

Lemma httpRound_skips_empty {S : Type}
    (setHeader : string -> string -> S -> S) (vars : httpVars S) (k : string)
    (listVal : ListStringValue) :
  GetValues listVal = [] -> httpRound setHeader vars k listVal = vars.
Proof. intros Hnil. unfold httpRound. rewrite Hnil. reflexivity. Qed.

Lemma InternalMetadataToHTTPHeader_None {S : Type} (ctx : Ctx)
    (internalMD : DaprInternalMetadata)
    (setHeader : string -> string -> S -> S) (s : S) :
  InternalMetadataToHTTPHeader ctx internalMD setHeader s = None
  <-> IsGRPCProtocol internalMD = None.
Proof.
  unfold InternalMetadataToHTTPHeader.
  destruct (IsGRPCProtocol internalMD); simpl; split; congruence.
Qed.

(** C10: [IsGRPCProtocol] and [InternalMetadataToGrpcMetadata] take the first
    value of a key without looking at the number of values.
    [IsGRPCProtocol] panics exactly when the [content-type] key has no value;
    [InternalMetadataToGrpcMetadata] panics exactly when that is so or when a
    key that is [traceparent], [tracestate] or [grpc-trace-bin] up to case
    has no value.  Both return when every key has at least one value.  The
    loop of [InternalMetadataToHTTPHeader] leaves a key without values aside
    (and that bridge panics only through [IsGRPCProtocol]). *)
Theorem first_value_read_unchecked :
  (forall internalMD : DaprInternalMetadata,
      IsGRPCProtocol internalMD = None
      <-> exists listVal,
            lookup ContentTypeHeader internalMD = Some listVal
            /\ GetValues listVal = [])
  /\ (forall (ctx : Ctx) (internalMD : DaprInternalMetadata) (conv : bool),
        InternalMetadataToGrpcMetadata ctx internalMD conv = None
        <-> (Exists panics internalMD
             \/ exists listVal,
                  lookup ContentTypeHeader internalMD = Some listVal
                  /\ GetValues listVal = []))
  /\ (forall (ctx : Ctx) (internalMD : DaprInternalMetadata) (conv : bool),
        Forall (fun entry => GetValues (snd entry) <> []) internalMD ->
        is_Some (IsGRPCProtocol internalMD)
        /\ is_Some (InternalMetadataToGrpcMetadata ctx internalMD conv))
  /\ (forall (vars : httpVars (list (string * string))) (k : string)
             (listVal : ListStringValue),
        GetValues listVal = [] ->
        httpRound recordHeader vars k listVal = vars)
  /\ (forall (ctx : Ctx) (internalMD : DaprInternalMetadata)
             (calls : list (string * string)),
        InternalMetadataToHTTPHeader ctx internalMD recordHeader calls = None
        <-> IsGRPCProtocol internalMD = None).
Proof.
  split; [exact IsGRPCProtocol_None|].
  split; [intros ctx internalMD conv;
          rewrite InternalMetadataToGrpcMetadata_None, IsGRPCProtocol_None;
          reflexivity|].
  split; [exact bridges_total|].
  split; [intros vars k listVal; apply httpRound_skips_empty|].
  intros ctx internalMD calls. apply InternalMetadataToHTTPHeader_None.
Qed.

End WithDiagnostics.

Lemma first_value_read_unchecked_witness :
  IsGRPCProtocol [("content-type", {| Values := [] |})] = None
  /\ @InternalMetadataToGrpcMetadata w3c.tracing w3c.ambient
       [("Traceparent", {| Values := [] |})] false = None
  /\ is_Some
       (@InternalMetadataToGrpcMetadata w3c.tracing w3c.ambient
          [("content-type", {| Values := ["application/json"] |})] false).
Proof.
  destruct (@first_value_read_unchecked w3c.tracing) as (H1 & H2 & H3 & _).
  split; [apply H1; eexists; split; reflexivity|].
  split; [apply H2; left; apply Exists_cons_hd; split; reflexivity|].
  apply H3. constructor; [discriminate|constructor].
Defined.

End Metadata.

(** ** Trace propagation *)

Section TracePropagation.

Import strings v1.
Context `{Diagnostics}.

(** The headers of a span context, as calls of [setHeader]. *)
Lemma SpanContextToHTTPHeaders_calls (sc : SpanContext)
    (calls : list (string * string)) :
  SpanContextToHTTPHeaders sc recordHeader calls = calls ++ W3CHeaders sc.
Proof.
  unfold SpanContextToHTTPHeaders, recordHeader, W3CHeaders.
  destruct (String.eqb (TraceStateToW3CString sc) "");
    [reflexivity|]. rewrite <- app_assoc. reflexivity.
Qed.

(** The headers of a span context, set on outgoing metadata. *)
Lemma SpanContextToHTTPHeaders_md (sc : SpanContext) (md : metadata.MD) :
  SpanContextToHTTPHeaders sc mdSet md !! "traceparent"
  = Some [SpanContextToW3CString sc]
  /\ SpanContextToHTTPHeaders sc mdSet md !! "tracestate"
     = (if String.eqb (TraceStateToW3CString sc) "" then md !! "tracestate"
        else Some [TraceStateToW3CString sc])
  /\ forall key : string,
       key <> "traceparent" -> key <> "tracestate" ->
       SpanContextToHTTPHeaders sc mdSet md !! key = md !! key.
Proof.
  unfold SpanContextToHTTPHeaders, mdSet.
  change diagConsts.TraceparentHeader with "traceparent".
  change diagConsts.TracestateHeader with "tracestate".
  destruct (String.eqb (TraceStateToW3CString sc) "").
  - split; [rewrite lookup_Set; reflexivity|].
    split; [rewrite lookup_Set; reflexivity|].
    intros key H1 H2. rewrite lookup_Set.
    change (ToLower "traceparent") with "traceparent".
    destruct (decide ("traceparent" = key)); congruence.
  - split; [rewrite !lookup_Set; reflexivity|].
    split; [rewrite !lookup_Set; reflexivity|].
    intros key H1 H2. rewrite !lookup_Set.
    change (ToLower "traceparent") with "traceparent".
    change (ToLower "tracestate") with "tracestate".
    destruct (decide ("tracestate" = key)); [congruence|].
    destruct (decide ("traceparent" = key)); congruence.
Qed.

(** Both encodings of one span context on outgoing metadata: what
    [processHTTPToGRPCTraceHeader] and the first branch of
    [processGRPCToGRPCTraceHeader] do. *)
Lemma dual_emission (sc : SpanContext) (md : metadata.MD) :
  let md' :=
    metadata.Set_ (SpanContextToHTTPHeaders sc mdSet md)
      diagConsts.GRPCTraceContextKey [BinaryFromSpanContext sc] in
  md' !! "grpc-trace-bin" = Some [BinaryFromSpanContext sc]
  /\ md' !! "traceparent" = Some [SpanContextToW3CString sc]
  /\ md' !! "tracestate"
     = (if String.eqb (TraceStateToW3CString sc) "" then md !! "tracestate"
        else Some [TraceStateToW3CString sc])
  /\ forall key : string,
       key <> "traceparent" -> key <> "tracestate" ->
       key <> "grpc-trace-bin" -> md' !! key = md !! key.
Proof.
  intros md'. subst md'.
  destruct (SpanContextToHTTPHeaders_md sc md) as (Htp & Hts & Hother).
  change diagConsts.GRPCTraceContextKey with "grpc-trace-bin".
  repeat split; try intros key H1 H2 H3; rewrite lookup_Set;
    change (ToLower "grpc-trace-bin") with "grpc-trace-bin".
  - reflexivity.
  - exact Htp.
  - exact Hts.
  - destruct (decide ("grpc-trace-bin" = key)); [congruence|].
    apply Hother; assumption.
Qed.

Lemma eqb_empty_false (s : string) : s <> "" -> String.eqb s "" = false.
Proof. apply String.eqb_neq. Qed.

(** *** The four paths *)

Lemma processHTTPToHTTPTraceHeaders_calls (ctx : Ctx)
    (traceparentValue traceStateValue : string)
    (calls : list (string * string)) :
  processHTTPToHTTPTraceHeaders ctx traceparentValue traceStateValue
    recordHeader calls
  = calls
    ++ (if String.eqb traceparentValue ""
        then W3CHeaders (SpanFromContext ctx)
        else ("traceparent", traceparentValue)
             :: (if String.eqb traceStateValue "" then []
                 else [("tracestate", traceStateValue)])).
Proof.
  unfold processHTTPToHTTPTraceHeaders.
  destruct (String.eqb traceparentValue "");
    [apply SpanContextToHTTPHeaders_calls|].
  unfold recordHeader. destruct (String.eqb traceStateValue ""); simpl;
    [reflexivity|]. rewrite <- app_assoc. reflexivity.
Qed.

Lemma processGRPCToHTTPTraceHeaders_calls (ctx : Ctx) (traceContext : string)
    (calls : list (string * string)) :
  processGRPCToHTTPTraceHeaders ctx traceContext recordHeader calls
  = calls
    ++ W3CHeaders
         (match
            SpanContextFromBinary (fst (base64.DecodeString traceContext))
          with
          | Some sc => sc
          | None => SpanFromContext ctx
          end).
Proof.
  unfold processGRPCToHTTPTraceHeaders. apply SpanContextToHTTPHeaders_calls.
Qed.

Lemma processHTTPToGRPCTraceHeader_keys (ctx : Ctx) (md : metadata.MD)
    (traceparentValue traceStateValue : string) :
  let sc :=
    match SpanContextFromW3CString traceparentValue with
    | Some sc => WithTraceState sc (TraceStateFromW3CString traceStateValue)
    | None => SpanFromContext ctx
    end in
  let md' :=
    processHTTPToGRPCTraceHeader ctx md traceparentValue traceStateValue in
  md' !! "grpc-trace-bin" = Some [BinaryFromSpanContext sc]
  /\ md' !! "traceparent" = Some [SpanContextToW3CString sc].
Proof.
  intros sc md'. subst md'. unfold processHTTPToGRPCTraceHeader. fold sc.
  destruct (dual_emission sc md) as (Hb & Ht & _). split; assumption.
Qed.

Lemma processGRPCToGRPCTraceHeader_keys (ctx : Ctx) (md : metadata.MD)
    (grpctracebinValue : string) :
  let md' := processGRPCToGRPCTraceHeader ctx md grpctracebinValue in
  (grpctracebinValue = "" ->
   md' !! "grpc-trace-bin" = Some [BinaryFromSpanContext (SpanFromContext ctx)]
   /\ md' !! "traceparent"
      = Some [SpanContextToW3CString (SpanFromContext ctx)])
  /\ (grpctracebinValue <> "" ->
      forall decoded : string,
        base64.DecodeString grpctracebinValue = (decoded, None) ->
        md' !! "grpc-trace-bin" = Some [decoded]
        /\ forall sc, SpanContextFromBinary decoded = Some sc ->
             md' !! "traceparent" = Some [SpanContextToW3CString sc])
  /\ (grpctracebinValue <> "" ->
      snd (base64.DecodeString grpctracebinValue) <> None ->
      md' = md).
Proof.
  intros md'. subst md'. unfold processGRPCToGRPCTraceHeader.
  split; [|split].
  - intros ->. cbn [String.eqb].
    destruct (dual_emission (SpanFromContext ctx) md) as (Hb & Ht & _).
    split; assumption.
  - intros Hne decoded Hdec.
    rewrite (eqb_empty_false _ Hne), Hdec.
    change diagConsts.GRPCTraceContextKey with "grpc-trace-bin".
    split; [rewrite lookup_Set; reflexivity|].
    intros sc Hsc. rewrite Hsc, lookup_Set.
    change (ToLower "grpc-trace-bin") with "grpc-trace-bin".
    destruct (decide ("grpc-trace-bin" = "traceparent")) as [Hd|_];
      [discriminate Hd|].
    apply (SpanContextToHTTPHeaders_md sc md).
  - intros Hne Herr. rewrite (eqb_empty_false _ Hne).
    destruct (base64.DecodeString grpctracebinValue) as [decoded [e|]];
      [reflexivity|]. exfalso. apply Herr. reflexivity.
Qed.

(** A token that is valid base64 of bytes that are no span context: the
    decoded bytes are set under [grpc-trace-bin] and that is all. *)
Lemma processGRPCToGRPCTraceHeader_unparsed (ctx : Ctx) (md : metadata.MD)
    (grpctracebinValue decoded : string) :
  grpctracebinValue <> "" ->
  base64.DecodeString grpctracebinValue = (decoded, None) ->
  SpanContextFromBinary decoded = None ->
  processGRPCToGRPCTraceHeader ctx md grpctracebinValue
  = metadata.Set_ md "grpc-trace-bin" [decoded].
Proof.
  intros Hne Hdec Hsc. unfold processGRPCToGRPCTraceHeader.
  rewrite (eqb_empty_false _ Hne), Hdec, Hsc. reflexivity.
Qed.

Lemma lookup_Set_token (md : metadata.MD) (decoded key : string) :
  key = "traceparent" \/ key = "tracestate" ->
  metadata.Set_ md "grpc-trace-bin" [decoded] !! key = md !! key.
Proof.
  intros Hkey. rewrite lookup_Set.
  change (ToLower "grpc-trace-bin") with "grpc-trace-bin".
  destruct (decide ("grpc-trace-bin" = key)) as [Heq|_]; [|reflexivity].
  destruct Hkey as [-> | ->]; discriminate Heq.
Qed.

End TracePropagation.

(** ** The gRPC bridge *)

Section GrpcBridge.

Import strings v1.
Context `{Diagnostics}.

Lemma prefixed_ne (x key : string) :
  String.get 0 key <> Some "d"%char -> DaprHeaderPrefix +:+ x <> key.
Proof. intros Hk Heq. apply Hk. rewrite <- Heq. reflexivity. Qed.

(** A key that is copied never lands on a trace key. *)
Lemma outKey_not_trace (conv : bool) (k : string) :
  diverted k = false ->
  outKey conv k <> "traceparent" /\ outKey conv k <> "tracestate"
  /\ outKey conv k <> "grpc-trace-bin".
Proof.
  intros Hd. destruct (diverted_false k Hd) as (H1 & H2 & H3 & _).
  apply String.eqb_neq in H1, H2, H3.
  unfold outKey. destruct (conv && isPermanentHTTPHeader k).
  - repeat split; apply prefixed_ne; discriminate.
  - repeat split; assumption.
Qed.

Lemma contribution_trace_key (conv : bool) (key : string)
    (entry : string * ListStringValue) :
  key = "traceparent" \/ key = "tracestate" \/ key = "grpc-trace-bin" ->
  contribution conv key entry = [].
Proof.
  intros Hkey. unfold contribution.
  destruct (diverted (fst entry)) eqn:Hd; [reflexivity|].
  destruct (outKey_not_trace conv (fst entry) Hd) as (H1 & H2 & H3).
  destruct (String.eqb_spec (outKey conv (fst entry)) key) as [Heq|];
    [|reflexivity].
  destruct Hkey as [->|[->| ->]]; contradiction.
Qed.

(** The loop writes no trace key. *)
Lemma grpcLoop_trace_keys (conv : bool) (entries : DaprInternalMetadata)
    (vars vars' : grpcVars) (key : string) :
  key = "traceparent" \/ key = "tracestate" \/ key = "grpc-trace-bin" ->
  grpcLoop conv vars entries = Some vars' ->
  md vars' !! key = md vars !! key.
Proof.
  intros Hkey Hloop. rewrite (grpcLoop_lookup conv entries key _ _ Hloop).
  replace (flat_map (contribution conv key) entries) with (@nil string);
    [reflexivity|].
  symmetry. clear Hloop.
  induction entries as [|entry entries IH]; [reflexivity|].
  cbn [flat_map]. rewrite (contribution_trace_key conv key entry Hkey).
  exact IH.
Qed.

(** Without a [traceparent] key the loop leaves [traceparentValue] alone. *)
Lemma grpcLoop_traceparentValue (conv : bool)
    (entries : DaprInternalMetadata) :
  Forall (fun entry => ToLower (fst entry) <> "traceparent") entries ->
  forall vars vars',
    grpcLoop conv vars entries = Some vars' ->
    traceparentValue vars' = traceparentValue vars.
Proof.
  induction 1 as [|[k listVal] entries Hk Hall IH]; intros vars vars' Hloop.
  - inversion Hloop. reflexivity.
  - cbn [grpcLoop] in Hloop.
    destruct (grpcRound conv vars k listVal) as [vars1|] eqn:Hround;
      [|discriminate Hloop].
    cbn [mbind option_bind] in Hloop. rewrite (IH _ _ Hloop).
    unfold grpcRound in Hround. cbn [fst] in Hk.
    apply String.eqb_neq in Hk.
    change diagConsts.TraceparentHeader with "traceparent" in Hround.
    rewrite Hk in Hround.
    destruct (String.eqb (ToLower k) diagConsts.TracestateHeader);
      [destruct (index0 (GetValues listVal)); inversion Hround; reflexivity|].
    destruct (String.eqb (ToLower k) diagConsts.GRPCTraceContextKey);
      [destruct (index0 (GetValues listVal)); inversion Hround; reflexivity|].
    destruct (String.eqb (ToLower k) DestinationIDHeader);
      inversion Hround; reflexivity.
Qed.

(** C4: metadata that comes from HTTP and has no [traceparent] key is bridged
    to gRPC metadata with [grpc-trace-bin] set to the binary form of the
    ambient span context and, in the same metadata, [traceparent] set to its
    W3C form, and [tracestate] to its trace state when it has one. *)
Theorem http_without_traceparent_is_mirrored (ctx : Ctx)
    (internalMD : DaprInternalMetadata) (conv : bool) :
  SpanContextFromW3CString "" = None ->
  IsGRPCProtocol internalMD = Some false ->
  Forall (fun entry => ToLower (fst entry) <> "traceparent") internalMD ->
  Forall (fun entry => GetValues (snd entry) <> []) internalMD ->
  exists md : metadata.MD,
    InternalMetadataToGrpcMetadata ctx internalMD conv = Some md
    /\ md !! "grpc-trace-bin"
       = Some [BinaryFromSpanContext (SpanFromContext ctx)]
    /\ md !! "traceparent"
       = Some [SpanContextToW3CString (SpanFromContext ctx)]
    /\ md !! "tracestate"
       = (if String.eqb (TraceStateToW3CString (SpanFromContext ctx)) ""
          then None
          else Some [TraceStateToW3CString (SpanFromContext ctx)]).
Proof.
  intros Hparse Hhttp Hnotp Hvals.
  destruct (bridges_total ctx internalMD conv Hvals) as [_ [md0 Hmd]].
  exists md0. split; [exact Hmd|].
  unfold InternalMetadataToGrpcMetadata in Hmd.
  destruct (grpcLoop conv _ internalMD) as [vars|] eqn:Hloop;
    [|discriminate Hmd].
  cbn [mbind option_bind] in Hmd. rewrite Hhttp in Hmd.
  cbn [mbind option_bind] in Hmd. inversion Hmd as [Hmd0]. clear Hmd.
  subst md0.
  rewrite (grpcLoop_traceparentValue conv internalMD Hnotp _ _ Hloop).
  change (traceparentValue grpcVars0) with "".
  unfold processHTTPToGRPCTraceHeader.
  rewrite Hparse.
  destruct (dual_emission (SpanFromContext ctx) (md vars))
    as (Hb & Ht & Hs & _).
  split; [exact Hb|]. split; [exact Ht|]. rewrite Hs.
  rewrite (grpcLoop_trace_keys conv internalMD _ vars "tracestate"
             ltac:(auto) Hloop).
  unfold grpcVars0. cbn [md]. rewrite lookup_empty. reflexivity.
Qed.

(** *** What the bridge sends to an outgoing key *)

Lemma process_other_keys (ctx : Ctx) (md : metadata.MD) (key : string) :
  key <> "traceparent" -> key <> "tracestate" -> key <> "grpc-trace-bin" ->
  (forall grpctracebinValue,
      processGRPCToGRPCTraceHeader ctx md grpctracebinValue !! key = md !! key)
  /\ (forall traceparentValue traceStateValue,
        processHTTPToGRPCTraceHeader ctx md traceparentValue traceStateValue
          !! key = md !! key).
Proof.
  intros H1 H2 H3.
  assert (Hset : forall (md0 : metadata.MD) v,
    metadata.Set_ md0 diagConsts.GRPCTraceContextKey [v] !! key = md0 !! key).
  { intros md0 v. rewrite lookup_Set.
    change (ToLower diagConsts.GRPCTraceContextKey) with "grpc-trace-bin".
    destruct (decide ("grpc-trace-bin" = key)); congruence. }
  assert (Hhdr : forall sc,
    SpanContextToHTTPHeaders sc mdSet md !! key = md !! key).
  { intros sc. apply (SpanContextToHTTPHeaders_md sc md); assumption. }
  split.
  - intros tok. unfold processGRPCToGRPCTraceHeader.
    destruct (String.eqb tok ""); [rewrite Hset; apply Hhdr|].
    destruct (base64.DecodeString tok) as [decoded [e|]]; [reflexivity|].
    rewrite Hset. destruct (SpanContextFromBinary decoded);
      [apply Hhdr|reflexivity].
  - intros tp ts. unfold processHTTPToGRPCTraceHeader.
    rewrite Hset. apply Hhdr.
Qed.

(** The values under an outgoing key that is no trace key are what the
    entries contribute to it, in the order of the visit. *)
Lemma bridge_lookup (ctx : Ctx) (internalMD : DaprInternalMetadata)
    (conv : bool) (md : metadata.MD) (key : string) :
  InternalMetadataToGrpcMetadata ctx internalMD conv = Some md ->
  key <> "traceparent" -> key <> "tracestate" -> key <> "grpc-trace-bin" ->
  md !! key = extend None (flat_map (contribution conv key) internalMD).
Proof.
  intros Hmd H1 H2 H3. unfold InternalMetadataToGrpcMetadata in Hmd.
  destruct (grpcLoop conv _ internalMD) as [vars|] eqn:Hloop;
    [|discriminate Hmd].
  cbn [mbind option_bind] in Hmd.
  destruct (IsGRPCProtocol internalMD) as [isGRPC|]; [|discriminate Hmd].
  cbn [mbind option_bind] in Hmd. inversion Hmd as [Hmd0]. clear Hmd.
  destruct (process_other_keys ctx (v1.md vars) key H1 H2 H3) as [Hg Hh].
  rewrite (grpcLoop_lookup conv internalMD key _ _ Hloop) in Hg, Hh.
  unfold grpcVars0 in Hg, Hh. cbn [v1.md] in Hg, Hh.
  rewrite lookup_empty in Hg, Hh.
  destruct isGRPC; [apply Hg|apply Hh].
Qed.

Lemma extend_None_middle (before vals after : list string) :
  vals <> [] ->
  extend None (before ++ vals ++ after) = Some (before ++ vals ++ after).
Proof.
  intros Hne. destruct (before ++ vals ++ after) as [|x l] eqn:Hl;
    [|reflexivity].
  apply app_eq_nil in Hl as [_ Hl]. apply app_eq_nil in Hl as [Hl _].
  contradiction.
Qed.

(** *** Permanent headers *)

Lemma permanent_header_facts (k : string) :
  isPermanentHTTPHeader k = true ->
  diverted k = false
  /\ HasSuffix k gRPCBinaryMetadataSuffix = false
  /\ HasSuffix (DaprHeaderPrefix +:+ ToLower k) gRPCBinaryMetadataSuffix
     = false.
Proof.
  unfold isPermanentHTTPHeader. intros Hp.
  apply existsb_exists in Hp as (x & Hin & Heq).
  apply String.eqb_eq in Heq. subst x. simpl in Hin.
  repeat (destruct Hin as [<-|Hin]; [repeat split; reflexivity|]).
  contradiction.
Qed.

(** The values of an entry that is copied arrive under its outgoing key. *)
Lemma copied_values_arrive (ctx : Ctx) (conv : bool)
    (before : DaprInternalMetadata) (k : string) (listVal : ListStringValue)
    (after : DaprInternalMetadata) (md : metadata.MD) :
  diverted k = false ->
  outVals k listVal <> [] ->
  InternalMetadataToGrpcMetadata ctx (before ++ (k, listVal) :: after) conv
  = Some md ->
  exists front back : list string,
    md !! outKey conv k = Some (front ++ outVals k listVal ++ back).
Proof.
  intros Hd Hne Hmd.
  destruct (outKey_not_trace conv k Hd) as (H1 & H2 & H3).
  rewrite (bridge_lookup ctx _ conv md (outKey conv k) Hmd H1 H2 H3).
  rewrite flat_map_app. cbn [flat_map].
  exists (flat_map (contribution conv (outKey conv k)) before),
         (flat_map (contribution conv (outKey conv k)) after).
  replace (contribution conv (outKey conv k) (k, listVal))
    with (outVals k listVal).
  - apply extend_None_middle. exact Hne.
  - unfold contribution. cbn [fst snd]. rewrite Hd, String.eqb_refl.
    reflexivity.
Qed.

(** C8: with [httpHeaderConversion] set, the values of a key that is exactly
    a permanent header name arrive under [dapr-] followed by the name in
    lower case; metadata with the one key [Accept] is bridged to metadata
    with the key [dapr-accept] and without the key [accept], and metadata
    with the one key [accept] to metadata with the key [accept] and without
    the key [dapr-accept]. *)
Theorem permanent_header_gets_prefix (ctx : Ctx) :
  (forall (before : DaprInternalMetadata) (k : string)
          (listVal : ListStringValue) (after : DaprInternalMetadata)
          (md : metadata.MD),
      isPermanentHTTPHeader k = true ->
      GetValues listVal <> [] ->
      InternalMetadataToGrpcMetadata ctx (before ++ (k, listVal) :: after) true
      = Some md ->
      exists front back : list string,
        md !! (DaprHeaderPrefix +:+ ToLower k)
        = Some (front ++ GetValues listVal ++ back))
  /\ (forall vals : list string,
        vals <> [] ->
        exists md : metadata.MD,
          InternalMetadataToGrpcMetadata ctx
            [("Accept", {| Values := vals |})] true = Some md
          /\ md !! "dapr-accept" = Some vals
          /\ md !! "accept" = None)
  /\ (forall vals : list string,
        vals <> [] ->
        exists md : metadata.MD,
          InternalMetadataToGrpcMetadata ctx
            [("accept", {| Values := vals |})] true = Some md
          /\ md !! "accept" = Some vals
          /\ md !! "dapr-accept" = None).
Proof.
  split; [|split].
  - intros before k listVal after md Hp Hne Hmd.
    destruct (permanent_header_facts k Hp) as (Hd & Hbin & _).
    assert (Hout : outVals k listVal = GetValues listVal)
      by (unfold outVals; rewrite Hbin; reflexivity).
    assert (Hkey : outKey true k = DaprHeaderPrefix +:+ ToLower k)
      by (unfold outKey; rewrite Hp; reflexivity).
    rewrite <- Hkey, <- Hout. rewrite <- Hout in Hne.
    exact (copied_values_arrive ctx true before k listVal after md Hd Hne Hmd).
  - intros vals Hne.
    destruct (bridges_total ctx [("Accept", {| Values := vals |})] true)
      as [_ [md Hmd]]; [constructor; [exact Hne|constructor]|].
    exists md. split; [exact Hmd|].
    rewrite (bridge_lookup ctx _ true md "dapr-accept" Hmd)
      by discriminate.
    rewrite (bridge_lookup ctx _ true md "accept" Hmd) by discriminate.
    cbn [flat_map]. rewrite !app_nil_r.
    change (contribution true "dapr-accept" ("Accept", {| Values := vals |}))
      with vals.
    change (contribution true "accept" ("Accept", {| Values := vals |}))
      with (@nil string).
    split; [|reflexivity]. destruct vals; [contradiction|reflexivity].
  - intros vals Hne.
    destruct (bridges_total ctx [("accept", {| Values := vals |})] true)
      as [_ [md Hmd]]; [constructor; [exact Hne|constructor]|].
    exists md. split; [exact Hmd|].
    rewrite (bridge_lookup ctx _ true md "dapr-accept" Hmd)
      by discriminate.
    rewrite (bridge_lookup ctx _ true md "accept" Hmd) by discriminate.
    cbn [flat_map]. rewrite !app_nil_r.
    change (contribution true "dapr-accept" ("accept", {| Values := vals |}))
      with (@nil string).
    change (contribution true "accept" ("accept", {| Values := vals |}))
      with vals.
    split; [|reflexivity]. destruct vals; [contradiction|reflexivity].
Qed.

(** *** Binary keys *)

Lemma decodedValues_encoded (originals : list string) :
  decodedValues (map base64.EncodeToString originals) = originals.
Proof.
  induction originals as [|b originals IH]; [reflexivity|].
  cbn [map decodedValues]. rewrite DecodeString_EncodeToString, IH.
  reflexivity.
Qed.

Lemma decodedValues_app (vals1 vals2 : list string) :
  decodedValues (vals1 ++ vals2) = decodedValues vals1 ++ decodedValues vals2.
Proof.
  induction vals1 as [|v vals1 IH]; [reflexivity|].
  cbn [app decodedValues].
  destruct (base64.DecodeString v) as [decoded [e|]]; rewrite IH; reflexivity.
Qed.

Lemma decodedValues_invalid (val : string) :
  snd (base64.DecodeString val) <> None -> decodedValues [val] = [].
Proof.
  intros Herr. cbn [decodedValues].
  destruct (base64.DecodeString val) as [decoded [e|]]; [reflexivity|].
  exfalso. apply Herr. reflexivity.
Qed.

Lemma bin_key_facts (k : string) :
  HasSuffix k gRPCBinaryMetadataSuffix = true ->
  ToLower k <> "grpc-trace-bin" ->
  diverted k = false /\ isPermanentHTTPHeader k = false.
Proof.
  intros Hbin Hne.
  pose proof (HasSuffix_ToLower k gRPCBinaryMetadataSuffix eq_refl Hbin)
    as Hlow.
  split.
  - unfold diverted.
    destruct (String.eqb_spec (ToLower k) diagConsts.TraceparentHeader)
      as [Heq|_]; [rewrite Heq in Hlow; discriminate Hlow|].
    destruct (String.eqb_spec (ToLower k) diagConsts.TracestateHeader)
      as [Heq|_]; [rewrite Heq in Hlow; discriminate Hlow|].
    destruct (String.eqb_spec (ToLower k) diagConsts.GRPCTraceContextKey)
      as [Heq|_]; [contradiction|].
    destruct (String.eqb_spec (ToLower k) DestinationIDHeader)
      as [Heq|_]; [rewrite Heq in Hlow; discriminate Hlow|].
    reflexivity.
  - destruct (isPermanentHTTPHeader k) eqn:Hp; [|reflexivity].
    destruct (permanent_header_facts k Hp) as (_ & Hno & _). congruence.
Qed.

(** An entry whose key differs from a binary key even up to case adds
    nothing to the outgoing key of the binary key. *)
Lemma contribution_other_key (conv : bool) (k : string)
    (entry : string * ListStringValue) :
  HasSuffix k gRPCBinaryMetadataSuffix = true ->
  ToLower (fst entry) <> ToLower k ->
  contribution conv (ToLower k) entry = [].
Proof.
  intros Hbin Hne.
  pose proof (HasSuffix_ToLower k gRPCBinaryMetadataSuffix eq_refl Hbin)
    as Hlow.
  unfold contribution. destruct (diverted (fst entry)); [reflexivity|].
  destruct (String.eqb_spec (outKey conv (fst entry)) (ToLower k))
    as [Heq|_]; [|reflexivity].
  exfalso. unfold outKey in Heq.
  destruct (conv && isPermanentHTTPHeader (fst entry)) eqn:Hc;
    [|contradiction].
  apply andb_true_iff in Hc as [_ Hp].
  destruct (permanent_header_facts _ Hp) as (_ & _ & Hno).
  rewrite Heq in Hno. congruence.
Qed.

(** C5, amended: the values of a key that ends in [-bin], other than the
    trace key [grpc-trace-bin], are decoded with the standard base64 decoder
    and appended under the key in lower case, between what the keys visited
    before and after it send there (nothing, when no other key agrees with it
    up to case); a value that does not decode is left out, and the bridge
    returns all the same.  Values that were base64-encoded arrive as the
    original bytes. *)
Theorem binary_values_are_decoded (ctx : Ctx) (conv : bool)
    (before : DaprInternalMetadata) (k : string) (listVal : ListStringValue)
    (after : DaprInternalMetadata) :
  HasSuffix k gRPCBinaryMetadataSuffix = true ->
  ToLower k <> "grpc-trace-bin" ->
  Forall (fun entry => GetValues (snd entry) <> [])
    (before ++ (k, listVal) :: after) ->
  exists md : metadata.MD,
    InternalMetadataToGrpcMetadata ctx (before ++ (k, listVal) :: after) conv
    = Some md
    /\ md !! ToLower k
       = extend None
           (flat_map (contribution conv (ToLower k)) before
            ++ decodedValues (GetValues listVal)
            ++ flat_map (contribution conv (ToLower k)) after)
    /\ (Forall (fun entry => ToLower (fst entry) <> ToLower k)
          (before ++ after) ->
        md !! ToLower k = extend None (decodedValues (GetValues listVal))
        /\ forall originals : list string,
             originals <> [] ->
             GetValues listVal = map base64.EncodeToString originals ->
             md !! ToLower k = Some originals)
    /\ (forall (vals1 : list string) (invalid : string) (vals2 : list string),
          snd (base64.DecodeString invalid) <> None ->
          GetValues listVal = vals1 ++ invalid :: vals2 ->
          decodedValues (GetValues listVal)
          = decodedValues vals1 ++ decodedValues vals2).
Proof.
  intros Hbin Hne Hvals.
  destruct (bridges_total ctx _ conv Hvals) as [_ [md Hmd]].
  exists md. split; [exact Hmd|].
  destruct (bin_key_facts k Hbin Hne) as [Hd Hp].
  pose proof (HasSuffix_ToLower k gRPCBinaryMetadataSuffix eq_refl Hbin)
    as Hlow.
  assert (Hlookup :
    md !! ToLower k
    = extend None
        (flat_map (contribution conv (ToLower k)) before
         ++ decodedValues (GetValues listVal)
         ++ flat_map (contribution conv (ToLower k)) after)).
  { rewrite (bridge_lookup ctx _ conv md (ToLower k) Hmd);
      [|intros Heq; rewrite Heq in Hlow; discriminate Hlow
       |intros Heq; rewrite Heq in Hlow; discriminate Hlow
       |exact Hne].
    rewrite flat_map_app. cbn [flat_map].
    unfold contribution at 2. unfold outKey, outVals. cbn [fst snd].
    rewrite Hd, Hp, andb_false_r, String.eqb_refl, Hbin. reflexivity. }
  split; [exact Hlookup|]. split.
  - intros Hothers. apply Forall_app in Hothers as [Hbefore Hafter].
    assert (Hnil : forall l : DaprInternalMetadata,
      Forall (fun entry => ToLower (fst entry) <> ToLower k) l ->
      flat_map (contribution conv (ToLower k)) l = []).
    { induction 1 as [|entry l Hentry Hl IH]; [reflexivity|].
      cbn [flat_map].
      rewrite (contribution_other_key conv k entry Hbin Hentry). exact IH. }
    rewrite (Hnil before Hbefore), (Hnil after Hafter), app_nil_r in Hlookup.
    cbn [app] in Hlookup. split; [exact Hlookup|].
    intros originals Hsome Henc.
    rewrite Hlookup, Henc, decodedValues_encoded.
    destruct originals; [contradiction|reflexivity].
  - intros vals1 invalid vals2 Herr Hsplit. rewrite Hsplit.
    change (invalid :: vals2) with ([invalid] ++ vals2).
    rewrite !decodedValues_app, (decodedValues_invalid invalid Herr).
    reflexivity.
Qed.

End GrpcBridge.

Section BridgeExamples.

Import strings v1.

Lemma http_without_traceparent_is_mirrored_witness :
  exists md : metadata.MD,
    @InternalMetadataToGrpcMetadata w3c.tracing w3c.ambient
      [("content-type", {| Values := ["application/json"] |});
       ("Accept", {| Values := ["*/*"] |})] true = Some md
    /\ md !! "grpc-trace-bin"
       = Some ["4bf92f3577b34da6a3ce929d0e0e473600f067aa0ba902b701"]
    /\ md !! "traceparent"
       = Some ["00-4bf92f3577b34da6a3ce929d0e0e4736-00f067aa0ba902b7-01"]
    /\ md !! "tracestate" = None.
Proof.
  apply (@http_without_traceparent_is_mirrored w3c.tracing w3c.ambient
           [("content-type", {| Values := ["application/json"] |});
            ("Accept", {| Values := ["*/*"] |})] true).
  - reflexivity.
  - reflexivity.
  - repeat constructor; discriminate.
  - repeat constructor; discriminate.
Defined.

Lemma permanent_header_gets_prefix_witness :
  (exists md : metadata.MD,
      @InternalMetadataToGrpcMetadata w3c.tracing w3c.ambient
        [("Accept", {| Values := ["text/html"] |})] true = Some md
      /\ md !! "dapr-accept" = Some ["text/html"]
      /\ md !! "accept" = None)
  /\ (exists md : metadata.MD,
        @InternalMetadataToGrpcMetadata w3c.tracing w3c.ambient
          [("accept", {| Values := ["text/html"] |})] true = Some md
        /\ md !! "accept" = Some ["text/html"]
        /\ md !! "dapr-accept" = None).
Proof.
  destruct (@permanent_header_gets_prefix w3c.tracing w3c.ambient)
    as (_ & HAccept & Haccept).
  split; [apply HAccept|apply Haccept]; discriminate.
Defined.

Lemma binary_values_are_decoded_witness :
  exists md : metadata.MD,
    @InternalMetadataToGrpcMetadata w3c.tracing w3c.ambient
      ([("content-type", {| Values := ["application/json"] |})]
       ++ ("Payload-bin", {| Values := ["aGVsbG8="; "!!"; "aGk="] |}) :: [])
      false = Some md
    /\ md !! "payload-bin" = Some ["hello"; "hi"].
Proof.
  destruct (@binary_values_are_decoded w3c.tracing w3c.ambient false
              [("content-type", {| Values := ["application/json"] |})]
              "Payload-bin" {| Values := ["aGVsbG8="; "!!"; "aGk="] |} [])
    as (md & Hmd & _ & Hunique & _).
  - reflexivity.
  - discriminate.
  - repeat constructor; discriminate.
  - exists md. split; [exact Hmd|].
    destruct Hunique as [Hlookup _]; [repeat constructor; discriminate|].
    etransitivity; [exact Hlookup|vm_compute; reflexivity].
Defined.

(** C5, as the spec states it, fails for the key [grpc-trace-bin], which ends
    in [-bin]: its values are not decoded and appended.  From HTTP the
    encoded bytes [abc] are replaced by the token of the ambient span; from
    gRPC only the first of two values is decoded and set. *)
Lemma trace_token_key_is_not_copied :
  HasSuffix "grpc-trace-bin" gRPCBinaryMetadataSuffix = true
  /\ base64.EncodeToString "abc" = "YWJj"
  /\ @InternalMetadataToGrpcMetadata w3c.tracing w3c.ambient
       [("grpc-trace-bin", {| Values := ["YWJj"] |})] false
     = Some
         (<["grpc-trace-bin" :=
              ["4bf92f3577b34da6a3ce929d0e0e473600f067aa0ba902b701"]]>
            (<["traceparent" :=
                 ["00-4bf92f3577b34da6a3ce929d0e0e4736-00f067aa0ba902b7-01"]]>
               ∅))
  /\ base64.EncodeToString "a" = "YQ==" /\ base64.EncodeToString "b" = "Yg=="
  /\ @InternalMetadataToGrpcMetadata w3c.tracing w3c.ambient
       [("content-type", {| Values := ["application/grpc"] |});
        ("grpc-trace-bin", {| Values := ["YQ=="; "Yg=="] |})] false
     = Some
         (<["grpc-trace-bin" := ["a"]]>
            (<["content-type" := ["application/grpc"]]> ∅)).
Proof. repeat split; vm_compute; reflexivity. Qed.

End BridgeExamples.

(** ** What the two bridges emit for the trace *)

Section TraceEmission.

Import strings v1.
Context `{Diagnostics}.

Lemma W3CHeaders_traceparent (sc : SpanContext) :
  exists back, W3CHeaders sc = ("traceparent", SpanContextToW3CString sc) :: back.
Proof. eexists. reflexivity. Qed.

(** The HTTP bridge ends with a call that sets [traceparent]. *)
Lemma HTTP_bridge_sets_traceparent (ctx : Ctx)
    (internalMD : DaprInternalMetadata) (calls calls' : list (string * string)) :
  InternalMetadataToHTTPHeader ctx internalMD recordHeader calls = Some calls' ->
  exists front value back, calls' = front ++ ("traceparent", value) :: back.
Proof.
  unfold InternalMetadataToHTTPHeader. intros Hcalls.
  destruct (IsGRPCProtocol internalMD) as [isGRPC|]; [|discriminate Hcalls].
  cbn [mbind option_bind] in Hcalls. inversion Hcalls as [Heq]. clear Hcalls.
  destruct isGRPC.
  - rewrite processGRPCToHTTPTraceHeaders_calls.
    edestruct W3CHeaders_traceparent as [back ->]. eauto.
  - rewrite processHTTPToHTTPTraceHeaders_calls.
    destruct (String.eqb _ "").
    + edestruct W3CHeaders_traceparent as [back ->]. eauto.
    + eauto.
Qed.

(** The gRPC bridge, by the origin of the metadata and the token the loop
    ended with. *)
Lemma gRPC_bridge_trace_keys (ctx : Ctx) (internalMD : DaprInternalMetadata)
    (conv : bool) (md : metadata.MD) :
  InternalMetadataToGrpcMetadata ctx internalMD conv = Some md ->
  exists vars : grpcVars,
    grpcLoop conv grpcVars0 internalMD = Some vars
    /\ (IsGRPCProtocol internalMD = Some false ->
        is_Some (md !! "grpc-trace-bin") /\ is_Some (md !! "traceparent"))
    /\ (IsGRPCProtocol internalMD = Some true ->
        (grpctracebinValue vars = ""
         \/ snd (base64.DecodeString (grpctracebinValue vars)) = None ->
         is_Some (md !! "grpc-trace-bin"))
        /\ (grpctracebinValue vars <> "" ->
            forall decoded : string,
              base64.DecodeString (grpctracebinValue vars) = (decoded, None) ->
              SpanContextFromBinary decoded = None ->
              md !! "grpc-trace-bin" = Some [decoded]
              /\ md !! "traceparent" = None /\ md !! "tracestate" = None)
        /\ (grpctracebinValue vars <> "" ->
            snd (base64.DecodeString (grpctracebinValue vars)) <> None ->
            md !! "grpc-trace-bin" = None /\ md !! "traceparent" = None
            /\ md !! "tracestate" = None)).
Proof.
  unfold InternalMetadataToGrpcMetadata. intros Hmd.
  destruct (grpcLoop conv grpcVars0 internalMD) as [vars|] eqn:Hloop;
    [|discriminate Hmd].
  cbn [mbind option_bind] in Hmd. exists vars. split; [reflexivity|].
  destruct (IsGRPCProtocol internalMD) as [isGRPC|]; [|discriminate Hmd].
  cbn [mbind option_bind] in Hmd. inversion Hmd as [Heq]. clear Hmd.
  split.
  - intros Hhttp. inversion Hhttp; subst isGRPC.
    destruct (processHTTPToGRPCTraceHeader_keys ctx (v1.md vars)
                (traceparentValue vars) (tracestateValue vars)) as [Hb Ht].
    rewrite Hb, Ht. split; eexists; reflexivity.
  - intros Hgrpc. inversion Hgrpc; subst isGRPC.
    destruct (processGRPCToGRPCTraceHeader_keys ctx (v1.md vars)
                (grpctracebinValue vars)) as (Hempty & Hvalid & Hbad).
    split.
    + intros [Htok|Hdec].
      * destruct (Hempty Htok) as [Hb _]. rewrite Hb. eexists; reflexivity.
      * destruct (String.eqb_spec (grpctracebinValue vars) "") as [Htok|Hne].
        -- destruct (Hempty Htok) as [Hb _]. rewrite Hb. eexists; reflexivity.
        -- destruct (base64.DecodeString (grpctracebinValue vars))
             as [decoded err] eqn:Hd.
           cbn [snd] in Hdec. subst err.
           destruct (Hvalid Hne decoded eq_refl) as [Hb _]. rewrite Hb.
           eexists; reflexivity.
    + split.
      * intros Hne decoded Hdec Hsc.
        rewrite (processGRPCToGRPCTraceHeader_unparsed ctx (v1.md vars)
                   (grpctracebinValue vars) decoded Hne Hdec Hsc).
        split; [rewrite lookup_Set; reflexivity|].
        rewrite !lookup_Set_token by auto.
        rewrite (grpcLoop_trace_keys conv internalMD grpcVars0 vars
                   "traceparent" ltac:(auto) Hloop).
        rewrite (grpcLoop_trace_keys conv internalMD grpcVars0 vars
                   "tracestate" ltac:(auto) Hloop).
        split; apply lookup_empty.
      * intros Hne Herr. rewrite (Hbad Hne Herr).
        rewrite (grpcLoop_trace_keys conv internalMD grpcVars0 vars
                   "grpc-trace-bin" ltac:(auto) Hloop).
        rewrite (grpcLoop_trace_keys conv internalMD grpcVars0 vars
                   "traceparent" ltac:(auto) Hloop).
        rewrite (grpcLoop_trace_keys conv internalMD grpcVars0 vars
                   "tracestate" ltac:(auto) Hloop).
        repeat split; apply lookup_empty.
Qed.

(** C1, amended: three of the four paths emit a trace context for every
    input.  HTTP to HTTP calls [setHeader] with the inbound [traceparent]
    when it is not empty and with the headers of the ambient span when it is;
    gRPC to HTTP with the headers of the span context the decoded token
    parses to, else of the ambient span; HTTP to gRPC sets [grpc-trace-bin]
    and [traceparent] from the parsed [traceparent], else from the ambient
    span.  gRPC to gRPC sets both from the ambient span for an empty token and
    sets [grpc-trace-bin] to the decoded bytes for a token that is valid
    base64, with [traceparent] when the bytes parse and only then: when they
    do not parse, [grpc-trace-bin] is the one key it sets and there is no
    fall back to the ambient span; for a token that is not empty and not
    valid base64 it leaves the outgoing metadata as it was.  So the HTTP
    bridge always sets [traceparent], and the gRPC bridge always sets
    [grpc-trace-bin] except for metadata from gRPC whose token is not empty
    and not valid base64, which it bridges to metadata without any trace key;
    metadata from gRPC whose token is valid base64 of bytes that do not parse
    is bridged to metadata with [grpc-trace-bin] and without [traceparent]
    and [tracestate]. *)
Theorem trace_context_emission :
  (forall (ctx : Ctx) (traceparentValue traceStateValue : string)
          (calls : list (string * string)),
      processHTTPToHTTPTraceHeaders ctx traceparentValue traceStateValue
        recordHeader calls
      = calls
        ++ (if String.eqb traceparentValue ""
            then W3CHeaders (SpanFromContext ctx)
            else ("traceparent", traceparentValue)
                 :: (if String.eqb traceStateValue "" then []
                     else [("tracestate", traceStateValue)])))
  /\ (forall (ctx : Ctx) (traceContext : string)
             (calls : list (string * string)),
        processGRPCToHTTPTraceHeaders ctx traceContext recordHeader calls
        = calls
          ++ W3CHeaders
               (match
                  SpanContextFromBinary
                    (fst (base64.DecodeString traceContext))
                with
                | Some sc => sc
                | None => SpanFromContext ctx
                end))
  /\ (forall (ctx : Ctx) (md : metadata.MD)
             (traceparentValue traceStateValue : string),
        let sc :=
          match SpanContextFromW3CString traceparentValue with
          | Some sc =>
              WithTraceState sc (TraceStateFromW3CString traceStateValue)
          | None => SpanFromContext ctx
          end in
        let md' :=
          processHTTPToGRPCTraceHeader ctx md traceparentValue
            traceStateValue in
        md' !! "grpc-trace-bin" = Some [BinaryFromSpanContext sc]
        /\ md' !! "traceparent" = Some [SpanContextToW3CString sc])
  /\ (forall (ctx : Ctx) (md : metadata.MD) (grpctracebinValue : string),
        let md' := processGRPCToGRPCTraceHeader ctx md grpctracebinValue in
        (grpctracebinValue = "" ->
         md' !! "grpc-trace-bin"
         = Some [BinaryFromSpanContext (SpanFromContext ctx)]
         /\ md' !! "traceparent"
            = Some [SpanContextToW3CString (SpanFromContext ctx)])
        /\ (grpctracebinValue <> "" ->
            forall decoded : string,
              base64.DecodeString grpctracebinValue = (decoded, None) ->
              md' !! "grpc-trace-bin" = Some [decoded]
              /\ (forall sc, SpanContextFromBinary decoded = Some sc ->
                    md' !! "traceparent" = Some [SpanContextToW3CString sc])
              /\ (SpanContextFromBinary decoded = None ->
                  md' = metadata.Set_ md "grpc-trace-bin" [decoded]
                  /\ md' !! "traceparent" = md !! "traceparent"
                  /\ md' !! "tracestate" = md !! "tracestate"))
        /\ (grpctracebinValue <> "" ->
            snd (base64.DecodeString grpctracebinValue) <> None ->
            md' = md))
  /\ (forall (ctx : Ctx) (internalMD : DaprInternalMetadata)
             (calls calls' : list (string * string)),
        InternalMetadataToHTTPHeader ctx internalMD recordHeader calls
        = Some calls' ->
        exists front value back,
          calls' = front ++ ("traceparent", value) :: back)
  /\ (forall (ctx : Ctx) (internalMD : DaprInternalMetadata) (conv : bool)
             (md : metadata.MD),
        InternalMetadataToGrpcMetadata ctx internalMD conv = Some md ->
        exists vars : grpcVars,
          grpcLoop conv grpcVars0 internalMD = Some vars
          /\ (IsGRPCProtocol internalMD = Some false ->
              is_Some (md !! "grpc-trace-bin")
              /\ is_Some (md !! "traceparent"))
          /\ (IsGRPCProtocol internalMD = Some true ->
              (grpctracebinValue vars = ""
               \/ snd (base64.DecodeString (grpctracebinValue vars)) = None ->
               is_Some (md !! "grpc-trace-bin"))
              /\ (grpctracebinValue vars <> "" ->
                  forall decoded : string,
                    base64.DecodeString (grpctracebinValue vars)
                    = (decoded, None) ->
                    SpanContextFromBinary decoded = None ->
                    md !! "grpc-trace-bin" = Some [decoded]
                    /\ md !! "traceparent" = None
                    /\ md !! "tracestate" = None)
              /\ (grpctracebinValue vars <> "" ->
                  snd (base64.DecodeString (grpctracebinValue vars)) <> None ->
                  md !! "grpc-trace-bin" = None
                  /\ md !! "traceparent" = None
                  /\ md !! "tracestate" = None))).
Proof.
  split; [exact processHTTPToHTTPTraceHeaders_calls|].
  split; [exact processGRPCToHTTPTraceHeaders_calls|].
  split; [exact processHTTPToGRPCTraceHeader_keys|].
  split.
  { intros ctx md grpctracebinValue md'.
    destruct (processGRPCToGRPCTraceHeader_keys ctx md grpctracebinValue)
      as (Hempty & Hvalid & Hbad).
    split; [exact Hempty|]. split; [|exact Hbad].
    intros Hne decoded Hdec. destruct (Hvalid Hne decoded Hdec) as [Hb Ht].
    split; [exact Hb|]. split; [exact Ht|].
    intros Hsc. subst md'.
    rewrite (processGRPCToGRPCTraceHeader_unparsed ctx md grpctracebinValue
               decoded Hne Hdec Hsc).
    split; [reflexivity|]. split; apply lookup_Set_token; auto. }
  split; [exact HTTP_bridge_sets_traceparent|].
  exact gRPC_bridge_trace_keys.
Qed.

End TraceEmission.

Section TraceExamples.

Import strings v1.

Lemma trace_context_emission_witness :
  @processGRPCToGRPCTraceHeader w3c.tracing w3c.ambient ∅ "" !! "grpc-trace-bin"
  = Some ["4bf92f3577b34da6a3ce929d0e0e473600f067aa0ba902b701"]
  /\ @processGRPCToGRPCTraceHeader w3c.tracing w3c.ambient ∅ "" !! "traceparent"
     = Some ["00-4bf92f3577b34da6a3ce929d0e0e4736-00f067aa0ba902b7-01"]
  /\ @processGRPCToGRPCTraceHeader w3c.tracing w3c.ambient ∅ "YWJj"
       !! "grpc-trace-bin" = Some ["abc"]
  /\ @processGRPCToGRPCTraceHeader w3c.tracing w3c.ambient ∅ "YWJj"
       !! "traceparent" = None
  /\ @processGRPCToGRPCTraceHeader w3c.tracing w3c.ambient ∅ "!" = ∅.
Proof.
  destruct (@trace_context_emission w3c.tracing) as (_ & _ & _ & Hgg & _).
  destruct (Hgg w3c.ambient ∅ "") as ((Hb & Ht) & _ & _); [reflexivity|].
  destruct (Hgg w3c.ambient ∅ "YWJj") as (_ & Hdec & _).
  destruct (Hdec ltac:(discriminate) "abc" ltac:(vm_compute; reflexivity))
    as (Habc & _ & Hunparsed).
  destruct (Hunparsed ltac:(reflexivity)) as (_ & Hnone & _).
  destruct (Hgg w3c.ambient ∅ "!") as (_ & _ & Hbad).
  specialize (Hbad ltac:(discriminate) ltac:(vm_compute; discriminate)).
  split; [exact Hb|]. split; [exact Ht|]. split; [exact Habc|].
  split; [exact Hnone|exact Hbad].
Defined.

(** C1, as the spec states it, fails on the gRPC to gRPC path: metadata that
    comes from gRPC with a binary trace token that is not base64 is bridged
    to metadata without any trace key; only the content type is there. *)
Lemma malformed_token_emits_no_trace_context :
  @InternalMetadataToGrpcMetadata w3c.tracing w3c.ambient
    [("content-type", {| Values := ["application/grpc"] |});
     ("grpc-trace-bin", {| Values := ["!"] |})] false
  = Some (<["content-type" := ["application/grpc"]]> ∅)
  /\ (<["content-type" := ["application/grpc"]]> ∅ : metadata.MD)
       !! "traceparent" = None
  /\ (<["content-type" := ["application/grpc"]]> ∅ : metadata.MD)
       !! "grpc-trace-bin" = None.
Proof. split; [vm_compute; reflexivity|]. split; reflexivity. Qed.

End TraceExamples.

(** * Further properties *)

(** ** Status translation, both ways *)

Section StatusRoundTrips.

Open Scope Z_scope.

Lemma HTTPStatusFromCode_range (code : codes.Code) :
  In (v1.HTTPStatusFromCode code)
    [200; 400; 401; 403; 404; 408; 409; 429; 500; 501; 503; 504].
Proof.
  unfold v1.HTTPStatusFromCode.
  destruct code as [|p|p]; [simpl; tauto| |simpl; tauto].
  do 5 (try destruct p as [p|p|]); simpl; tauto.
Qed.

(** X1: neither translation turns a failure into a success or a success
    into a failure: [CodeFromHTTPStatus] gives OK exactly on 200..299,
    [HTTPStatusFromCode] gives 200 exactly on OK, and every other code
    becomes a status from 400 to 504. *)
Theorem success_is_preserved_both_ways :
  (forall s : Z, v1.CodeFromHTTPStatus s = codes.OK <-> 200 <= s < 300)
  /\ (forall code : codes.Code,
        v1.HTTPStatusFromCode code = http.StatusOK <-> code = codes.OK)
  /\ (forall code : codes.Code,
        code = codes.OK \/ 400 <= v1.HTTPStatusFromCode code <= 504).
Proof.
  split; [|split].
  - intros s. split.
    + intros Hok. destruct (Z_le_dec 200 s); [destruct (Z_lt_dec s 300)|];
        try tauto; exfalso; apply (CodeFromHTTPStatus_not_2xx s); try lia;
        exact Hok.
    + apply CodeFromHTTPStatus_2xx.
  - intros code. split; [|intros ->; reflexivity].
    unfold v1.HTTPStatusFromCode. destruct code as [|p|p];
      [reflexivity| |discriminate].
    do 5 (try destruct p as [p|p|]); discriminate.
  - intros code. destruct code as [|p|p]; [left; reflexivity| |right].
    + right. pose proof (HTTPStatusFromCode_range (Z.pos p)) as Hin.
      assert (Hne : v1.HTTPStatusFromCode (Z.pos p) <> 200).
      { unfold v1.HTTPStatusFromCode.
        do 5 (try destruct p as [p|p|]); discriminate. }
      revert Hin Hne. generalize (v1.HTTPStatusFromCode (Z.pos p)).
      intros h Hin Hne. simpl in Hin. lia.
    + simpl. lia.
Qed.

(** X2: translating a gRPC code to HTTP and back gives the code again for
    exactly eleven codes; every other code comes back changed. *)
Theorem code_survives_HTTP_iff (code : codes.Code) :
  v1.CodeFromHTTPStatus (v1.HTTPStatusFromCode code) = code
  <-> In code
        [codes.OK; codes.Canceled; codes.Unknown; codes.DeadlineExceeded;
         codes.NotFound; codes.AlreadyExists; codes.PermissionDenied;
         codes.ResourceExhausted; codes.Unimplemented; codes.Unavailable;
         codes.Unauthenticated].
Proof.
  destruct code as [|p|p].
  - simpl. tauto.
  - do 5 (try destruct p as [p|p|]);
      (split;
       [ intros Heq; first [discriminate Heq | simpl; tauto]
       | intros Hin; first [reflexivity | simpl in Hin; exfalso;
           repeat (destruct Hin as [Hin|Hin]; [discriminate Hin|]);
           exact Hin ] ]).
  - split; [discriminate|]. intros Hin. simpl in Hin. exfalso.
    repeat (destruct Hin as [Hin|Hin]; [discriminate Hin|]). exact Hin.
Qed.

(** X3: translating an HTTP status to gRPC and back gives the status again
    for exactly eleven statuses; every other status, 400 and 201 to 299
    among them, comes back changed. *)
Theorem status_survives_gRPC_iff (s : Z) :
  v1.HTTPStatusFromCode (v1.CodeFromHTTPStatus s) = s
  <-> In s [200; 401; 403; 404; 408; 409; 429; 500; 501; 503; 504].
Proof.
  destruct (Z_le_dec 200 s) as [Hlo|Hlo]; [destruct (Z_lt_dec s 300) as [Hhi|Hhi]|].
  - rewrite (CodeFromHTTPStatus_2xx s) by lia. simpl. lia.
  - pose proof (CodeFromHTTPStatus_range s) as Hrange.
    split.
    + intros Heq.
      pose proof (HTTPStatusFromCode_range (v1.CodeFromHTTPStatus s)) as Hin.
      assert (Hne : v1.HTTPStatusFromCode (v1.CodeFromHTTPStatus s) <> 400).
      { simpl in Hrange.
        repeat (destruct Hrange as [Hr|Hrange];
                [rewrite <- Hr; discriminate|]).
        contradiction. }
      rewrite Heq in Hin, Hne. simpl in Hin. simpl. lia.
    + intros Hin. simpl in Hin.
      repeat (destruct Hin as [<-|Hin]; [try reflexivity; lia|]).
      contradiction.
  - assert (Hs : s < 200) by lia. split.
    + intros Heq.
      pose proof (HTTPStatusFromCode_range (v1.CodeFromHTTPStatus s)) as Hin.
      rewrite Heq in Hin. simpl in Hin. lia.
    + intros Hin. simpl in Hin. lia.
Qed.

End StatusRoundTrips.

(** ** The error of an HTTP response, for every detail string *)

Section ErrorDetail.

Open Scope Z_scope.

Lemma substring_split (n : nat) (s : string) :
  (n <= String.length s)%nat ->
  String.substring 0 n s +:+ String.substring n (String.length s - n) s = s.
Proof.
  revert s. induction n as [|n IH]; intros s Hn.
  - rewrite Nat.sub_0_r. destruct s as [|c s]; [reflexivity|].
    change (String.substring 0 0 (String c s)) with EmptyString.
    change (EmptyString +:+ ?x) with x.
    clear Hn. generalize (String c s). clear. intros s.
    induction s as [|c s IH]; [reflexivity|]. simpl. rewrite IH. reflexivity.
  - destruct s as [|c s]; [simpl in Hn; lia|]. simpl in Hn.
    cbn [String.substring String.length Nat.sub].
    change (String c ?x +:+ ?y) with (String c (x +:+ y)).
    rewrite IH by lia. reflexivity.
Qed.

(** X4: [ErrorFromHTTPResponseCode] returns nil exactly for the statuses
    200..299.  Otherwise the error has the translated code, which is not OK,
    the reason phrase as message and at most one detail; the
    [http.error_message] of that detail is a prefix of the detail string, of
    63 bytes or of the whole length when that is less, so a detail string
    shorter than 63 bytes is attached unchanged. *)
Theorem ErrorFromHTTPResponseCode_always
    (packs : ErrorInfo -> bool) (code : Z) (detail : string) :
  (v1.ErrorFromHTTPResponseCode packs code detail = None
   <-> 200 <= code <= 299)
  /\ forall st : grpcStatus.Status,
       v1.ErrorFromHTTPResponseCode packs code detail = Some st ->
       grpcStatus.Code st = v1.CodeFromHTTPStatus code
       /\ grpcStatus.Code st <> codes.OK
       /\ grpcStatus.Message st = http.StatusText code
       /\ exists message rest : string,
            detail = message +:+ rest
            /\ String.length message = Nat.min 63 (String.length detail)
            /\ ((String.length detail < 63)%nat -> message = detail)
            /\ (grpcStatus.Details st = []
                \/ exists info : ErrorInfo,
                     grpcStatus.Details st = [info]
                     /\ Reason info = http.StatusText code
                     /\ Domain info = "dapr.io"
                     /\ Metadata info !! "http.code"
                        = Some (strconv.Itoa code)
                     /\ Metadata info !! "http.error_message"
                        = Some message).
Proof.
  unfold v1.ErrorFromHTTPResponseCode.
  destruct (Z.eqb_spec (v1.CodeFromHTTPStatus code) codes.OK) as [Hok|Hne].
  - assert (Hc : 200 <= code <= 299).
    { destruct (Z_le_dec 200 code); [destruct (Z_le_dec code 299)|];
        try lia; exfalso; apply (CodeFromHTTPStatus_not_2xx code); try lia;
        exact Hok. }
    split; [split; [intros _; exact Hc|reflexivity]|discriminate].
  - assert (Hcode : ~ 200 <= code <= 299).
    { intros Hc. apply Hne. apply CodeFromHTTPStatus_2xx. lia. }
    assert (Hneb : (v1.CodeFromHTTPStatus code =? codes.OK) = false)
      by (apply Z.eqb_neq; exact Hne).
    set (message :=
           if (v1.maxMetadataValueLen <=? String.length detail)%nat
           then String.substring 0 v1.maxMetadataValueLen detail else detail).
    set (info := {| Reason := http.StatusText code;
                    Domain := v1.errorInfoDomain;
                    Metadata := _ |}).
    assert (Hmsg : exists rest, detail = message +:+ rest
              /\ String.length message = Nat.min 63 (String.length detail)
              /\ ((String.length detail < 63)%nat -> message = detail)).
    { subst message. unfold v1.maxMetadataValueLen.
      destruct (Nat.leb_spec 63 (String.length detail)) as [Hlen|Hlen].
      - exists (String.substring 63 (String.length detail - 63) detail).
        split; [symmetry; apply substring_split; exact Hlen|].
        split; [rewrite substring_prefix_length by exact Hlen; lia|lia].
      - exists EmptyString. split.
        + clear. induction detail as [|c d IH]; [reflexivity|].
          change (String c d +:+ "") with (String c (d +:+ "")).
          rewrite <- IH. reflexivity.
        + split; [lia|reflexivity]. }
    destruct Hmsg as (rest & Hsplit & Hlen & Hshort).
    split; [split; [|intros Hc; contradiction]|].
    + unfold grpcStatus.WithDetails, grpcStatus.Err, grpcStatus.New.
      cbn [grpcStatus.Code]. rewrite Hneb.
      destruct (packs info); cbn [grpcStatus.Code]; rewrite Hneb;
        discriminate.
    + intros st Hst.
      unfold grpcStatus.WithDetails, grpcStatus.Err, grpcStatus.New in Hst.
      cbn [grpcStatus.Code grpcStatus.Message grpcStatus.Details] in Hst.
      rewrite Hneb in Hst.
      destruct (packs info); cbn [grpcStatus.Code] in Hst;
        rewrite Hneb in Hst; inversion Hst; subst st;
        cbn [grpcStatus.Code grpcStatus.Message grpcStatus.Details];
        (split; [reflexivity|]); (split; [exact Hne|]);
        (split; [reflexivity|]); exists message, rest;
        (split; [exact Hsplit|]); (split; [exact Hlen|]);
        (split; [exact Hshort|]).
      * right. exists info. split; [reflexivity|].
        split; [reflexivity|]. split; [reflexivity|].
        split; [reflexivity|]. apply lookup_insert_eq.
      * left. reflexivity.
Qed.

End ErrorDetail.

(** ** More on the gRPC bridge *)

Section GrpcBridgeMore.

Import strings v1.
Context `{Diagnostics}.

Lemma wellKeyed_empty : wellKeyed ∅.
Proof. intros key vals Hl. rewrite lookup_empty in Hl. discriminate. Qed.

Lemma wellKeyed_Set (md : metadata.MD) (k v : string) :
  wellKeyed md -> wellKeyed (metadata.Set_ md k [v]).
Proof.
  intros Hmd key vals. rewrite lookup_Set.
  destruct (decide (ToLower k = key)) as [<-|_]; [|apply Hmd].
  intros Heq. inversion Heq. split; [apply ToLower_idem|discriminate].
Qed.

Lemma wellKeyed_Append (md : metadata.MD) (k : string) (vals : list string) :
  wellKeyed md -> wellKeyed (metadata.Append md k vals).
Proof.
  intros Hmd key vals'. rewrite lookup_Append.
  destruct (decide (ToLower k = key)) as [<-|_]; [|apply Hmd].
  destruct vals as [|v vals]; [apply Hmd|].
  intros Heq. inversion Heq. split; [apply ToLower_idem|].
  intros Hnil. apply app_eq_nil in Hnil as [_ Hnil]. discriminate Hnil.
Qed.

Lemma wellKeyed_appendDecoded (vals : list string) :
  forall (md : metadata.MD) (keyName : string),
    wellKeyed md -> wellKeyed (appendDecoded md keyName vals).
Proof.
  induction vals as [|val vals IH]; intros md keyName Hmd; [exact Hmd|].
  cbn [appendDecoded]. apply IH.
  destruct (base64.DecodeString val) as [decoded [e|]];
    [exact Hmd|apply wellKeyed_Append; exact Hmd].
Qed.

Lemma wellKeyed_headers (sc : SpanContext) (md : metadata.MD) :
  wellKeyed md -> wellKeyed (SpanContextToHTTPHeaders sc mdSet md).
Proof.
  intros Hmd. unfold SpanContextToHTTPHeaders, mdSet.
  destruct (String.eqb (TraceStateToW3CString sc) "");
    repeat apply wellKeyed_Set; exact Hmd.
Qed.

Lemma wellKeyed_grpcLoop (conv : bool) (entries : DaprInternalMetadata) :
  forall vars vars' : grpcVars,
    wellKeyed (md vars) ->
    grpcLoop conv vars entries = Some vars' -> wellKeyed (md vars').
Proof.
  induction entries as [|[k listVal] entries IH]; intros vars vars' Hmd Hloop.
  - inversion Hloop; subst; exact Hmd.
  - cbn [grpcLoop] in Hloop.
    destruct (grpcRound conv vars k listVal) as [vars1|] eqn:Hround;
      [|discriminate Hloop].
    cbn [mbind option_bind] in Hloop. apply (IH vars1 vars'); [|exact Hloop].
    unfold grpcRound in Hround.
    repeat match type of Hround with
    | (if ?c then _ else _) = _ => destruct c
    | (_ ← index0 ?l; _) = _ =>
        destruct (index0 l); [|discriminate Hround];
        cbn [mbind option_bind] in Hround
    end; inversion Hround; subst vars1; cbn [md]; try exact Hmd.
    destruct (HasSuffix k gRPCBinaryMetadataSuffix);
      [apply wellKeyed_appendDecoded|apply wellKeyed_Append]; exact Hmd.
Qed.

(** X5: whatever the internal metadata, the metadata the gRPC bridge returns
    has every key in lower case and no key without a value. *)
Theorem bridge_output_is_wellKeyed (ctx : Ctx)
    (internalMD : DaprInternalMetadata) (conv : bool) (md : metadata.MD) :
  InternalMetadataToGrpcMetadata ctx internalMD conv = Some md ->
  wellKeyed md.
Proof.
  unfold InternalMetadataToGrpcMetadata. intros Hmd.
  destruct (grpcLoop conv grpcVars0 internalMD) as [vars|] eqn:Hloop;
    [|discriminate Hmd].
  cbn [mbind option_bind] in Hmd.
  destruct (IsGRPCProtocol internalMD) as [isGRPC|]; [|discriminate Hmd].
  cbn [mbind option_bind] in Hmd. inversion Hmd as [Heq]. clear Hmd Heq.
  pose proof (wellKeyed_grpcLoop conv internalMD grpcVars0 vars
                wellKeyed_empty Hloop) as Hvars.
  destruct isGRPC.
  - unfold processGRPCToGRPCTraceHeader.
    destruct (String.eqb (grpctracebinValue vars) "");
      [apply wellKeyed_Set, wellKeyed_headers; exact Hvars|].
    destruct (base64.DecodeString (grpctracebinValue vars))
      as [decoded [e|]]; [exact Hvars|].
    apply wellKeyed_Set. destruct (SpanContextFromBinary decoded);
      [apply wellKeyed_headers|]; exact Hvars.
  - unfold processHTTPToGRPCTraceHeader.
    apply wellKeyed_Set, wellKeyed_headers; exact Hvars.
Qed.

(** X6: the values under an outgoing key that is no trace key are the
    values of the entries that are copied to it, one entry after the other
    in the order in which the map is visited; so entries whose keys agree up
    to case are merged under one key, and an outgoing key that no entry is
    copied to is absent. *)
Theorem bridge_merges_in_visit_order (ctx : Ctx)
    (internalMD : DaprInternalMetadata) (conv : bool) (md : metadata.MD)
    (key : string) :
  InternalMetadataToGrpcMetadata ctx internalMD conv = Some md ->
  key <> "traceparent" -> key <> "tracestate" -> key <> "grpc-trace-bin" ->
  md !! key = extend None (flat_map (contribution conv key) internalMD)
  /\ (md !! key = None
      <-> forall entry, In entry internalMD ->
            contribution conv key entry = []).
Proof.
  intros Hmd H1 H2 H3.
  pose proof (bridge_lookup ctx internalMD conv md key Hmd H1 H2 H3) as Hl.
  split; [exact Hl|]. rewrite Hl. clear.
  induction internalMD as [|entry rest IH].
  - simpl. split; [intros _ entry []|reflexivity].
  - cbn [flat_map].
    destruct (contribution conv key entry) as [|v vals] eqn:Hc.
    + cbn [app]. rewrite IH. split.
      * intros Hall e [<-|Hin]; [exact Hc|apply Hall; exact Hin].
      * intros Hall e Hin. apply Hall. right. exact Hin.
    + split; [discriminate|]. intros Hall.
      specialize (Hall entry (or_introl eq_refl)). congruence.
Qed.

Lemma prefixed_ne_destination (x : string) :
  DaprHeaderPrefix +:+ x <> DestinationIDHeader.
Proof.
  intros Heq. assert (Hg : String.get 1 (DaprHeaderPrefix +:+ x)
                           = String.get 1 DestinationIDHeader)
    by (rewrite Heq; reflexivity).
  discriminate Hg.
Qed.

(** X7: the key [destination-app-id] never reaches the outgoing metadata,
    whatever its case and whatever else the internal metadata holds. *)
Theorem destination_id_is_never_copied (ctx : Ctx)
    (internalMD : DaprInternalMetadata) (conv : bool) (md : metadata.MD) :
  InternalMetadataToGrpcMetadata ctx internalMD conv = Some md ->
  md !! DestinationIDHeader = None.
Proof.
  intros Hmd.
  rewrite (bridge_lookup ctx internalMD conv md DestinationIDHeader Hmd)
    by discriminate.
  replace (flat_map (contribution conv DestinationIDHeader) internalMD)
    with (@nil string); [reflexivity|].
  symmetry. clear. induction internalMD as [|entry rest IH]; [reflexivity|].
  cbn [flat_map]. rewrite IH, app_nil_r. unfold contribution.
  destruct (diverted (fst entry)) eqn:Hd; [reflexivity|].
  destruct (String.eqb_spec (outKey conv (fst entry)) DestinationIDHeader)
    as [Heq|_]; [|reflexivity].
  exfalso. destruct (diverted_false _ Hd) as (_ & _ & _ & Hdest).
  apply String.eqb_neq in Hdest. unfold outKey in Heq.
  destruct (conv && isPermanentHTTPHeader (fst entry));
    [exact (prefixed_ne_destination _ Heq)|contradiction].
Qed.

(** *** Only the first value of a trace key counts *)

Lemma grpcLoop_app (conv : bool) (l1 l2 : DaprInternalMetadata) :
  forall vars,
    grpcLoop conv vars (l1 ++ l2)
    = vars' ← grpcLoop conv vars l1; grpcLoop conv vars' l2.
Proof.
  induction l1 as [|[k listVal] l1 IH]; intros vars; [reflexivity|].
  cbn [app grpcLoop].
  destruct (grpcRound conv vars k listVal) as [vars1|]; [|reflexivity].
  cbn [mbind option_bind]. apply IH.
Qed.

Lemma lookup_other_entry (key k : string) (v v' : ListStringValue)
    (l1 l2 : DaprInternalMetadata) :
  k <> key ->
  lookup key (l1 ++ (k, v) :: l2) = lookup key (l1 ++ (k, v') :: l2).
Proof.
  intros Hne. induction l1 as [|[k1 v1] l1 IH].
  - simpl. apply String.eqb_neq in Hne. rewrite Hne. reflexivity.
  - simpl. rewrite IH. reflexivity.
Qed.

Lemma traceKey_not_content_type (k : string) :
  traceKey k = true -> k <> ContentTypeHeader.
Proof. intros Ht ->. discriminate Ht. Qed.

(** X8: of a key that is [traceparent], [tracestate] or [grpc-trace-bin] up
    to case, the gRPC bridge reads the first value only: the values after it
    change nothing in what the bridge returns. *)
Theorem later_trace_values_are_ignored (ctx : Ctx) (conv : bool)
    (before : DaprInternalMetadata) (k v0 : string) (later : list string)
    (after : DaprInternalMetadata) :
  traceKey k = true ->
  InternalMetadataToGrpcMetadata ctx
    (before ++ (k, {| Values := v0 :: later |}) :: after) conv
  = InternalMetadataToGrpcMetadata ctx
      (before ++ (k, {| Values := [v0] |}) :: after) conv.
Proof.
  intros Ht. unfold InternalMetadataToGrpcMetadata, IsGRPCProtocol.
  rewrite (lookup_other_entry ContentTypeHeader k
             {| Values := v0 :: later |} {| Values := [v0] |} before after
             (traceKey_not_content_type k Ht)).
  rewrite !grpcLoop_app.
  destruct (grpcLoop conv grpcVars0 before) as [vars|]; [|reflexivity].
  cbn [mbind option_bind grpcLoop].
  replace (grpcRound conv vars k {| Values := v0 :: later |})
    with (grpcRound conv vars k {| Values := [v0] |}); [reflexivity|].
  unfold grpcRound, traceKey in *.
  destruct (String.eqb (ToLower k) diagConsts.TraceparentHeader);
    [reflexivity|].
  destruct (String.eqb (ToLower k) diagConsts.TracestateHeader);
    [reflexivity|].
  destruct (String.eqb (ToLower k) diagConsts.GRPCTraceContextKey);
    [reflexivity|discriminate Ht].
Qed.

End GrpcBridgeMore.

(** ** The HTTP bridge *)

Section HttpBridge.

Import strings v1.
Context `{Diagnostics}.

(** *** Reserved names *)

Lemma prefixed_unfold (x : string) :
  DaprHeaderPrefix +:+ x
  = String "d" (String "a" (String "p" (String "r" (String "-" x)))).
Proof. reflexivity. Qed.

Lemma append_length (p s : string) :
  String.length (p +:+ s) = (String.length p + String.length s)%nat.
Proof.
  induction p as [|c p IH]; [reflexivity|].
  change (String c p +:+ s) with (String c (p +:+ s)). simpl.
  rewrite IH. reflexivity.
Qed.

Lemma substring_skip_prefix (p s : string) (n : nat) :
  String.substring (String.length p) n (p +:+ s) = String.substring 0 n s.
Proof.
  induction p as [|c p IH]; [reflexivity|].
  change (String c p +:+ s) with (String c (p +:+ s)). simpl. exact IH.
Qed.

Lemma substring_shift (p s : string) (i n : nat) :
  String.substring (String.length p + i) n (p +:+ s) = String.substring i n s.
Proof.
  induction p as [|c p IH]; [reflexivity|].
  change (String c p +:+ s) with (String c (p +:+ s)). simpl. exact IH.
Qed.

(** A suffix no longer than the string is not touched by what is put
    before the string. *)
Lemma HasSuffix_prepend (p s suffix : string) :
  (String.length suffix <= String.length s)%nat ->
  HasSuffix (p +:+ s) suffix = HasSuffix s suffix.
Proof.
  intros Hlen. unfold HasSuffix. rewrite append_length.
  replace (String.length p + String.length s - String.length suffix)%nat
    with (String.length p + (String.length s - String.length suffix))%nat
    by lia.
  rewrite substring_shift.
  replace (String.length suffix <=? String.length p + String.length s)%nat
    with true by (symmetry; apply Nat.leb_le; lia).
  replace (String.length suffix <=? String.length s)%nat
    with true by (symmetry; apply Nat.leb_le; lia).
  reflexivity.
Qed.

Lemma HasPrefix_append (p s : string) : HasPrefix (p +:+ s) p = true.
Proof.
  unfold HasPrefix. rewrite append_length.
  replace (String.length p <=? String.length p + String.length s)%nat
    with true by (symmetry; apply Nat.leb_le; lia).
  cbn [andb]. apply String.eqb_eq.
  induction p as [|c p IH]; [destruct s; reflexivity|].
  change (String c p +:+ s) with (String c (p +:+ s)). simpl.
  rewrite IH. reflexivity.
Qed.

Lemma HasPrefix_length (s prefix : string) :
  HasPrefix s prefix = true -> (String.length prefix <= String.length s)%nat.
Proof.
  unfold HasPrefix. intros Hp. apply andb_true_iff in Hp as [Hlen _].
  apply Nat.leb_le. exact Hlen.
Qed.

Lemma Reserved_fixed (key : string) :
  reserved key = false -> ReservedGRPCMetadataToDaprPrefixHeader key = key.
Proof.
  intros Hr. unfold reserved in Hr.
  unfold ReservedGRPCMetadataToDaprPrefixHeader.
  apply orb_false_iff in Hr as [Hr Hg]. rewrite Hr, Hg. reflexivity.
Qed.

Lemma Reserved_renamed (key : string) :
  reserved (ReservedGRPCMetadataToDaprPrefixHeader key) = false
  /\ (reserved key = true ->
      HasPrefix (ReservedGRPCMetadataToDaprPrefixHeader key) DaprHeaderPrefix
      = true).
Proof.
  destruct (reserved key) eqn:Hr;
    [|rewrite (Reserved_fixed key Hr); split; [exact Hr|discriminate]].
  unfold ReservedGRPCMetadataToDaprPrefixHeader.
  destruct (String.eqb_spec key ":method") as [->|Hn1];
    [split; reflexivity|].
  destruct (String.eqb_spec key ":scheme") as [->|Hn2];
    [split; reflexivity|].
  destruct (String.eqb_spec key ":path") as [->|Hn3];
    [split; reflexivity|].
  destruct (String.eqb_spec key ":authority") as [->|Hn4];
    [split; reflexivity|].
  cbn [orb]. apply String.eqb_neq in Hn1, Hn2, Hn3, Hn4.
  destruct (HasPrefix key "grpc-") eqn:Hg.
  - split; [rewrite prefixed_unfold; reflexivity|].
    intros _. apply HasPrefix_append.
  - unfold reserved in Hr. rewrite Hn1, Hn2, Hn3, Hn4, Hg in Hr.
    discriminate Hr.
Qed.

(** X9: [ReservedGRPCMetadataToDaprPrefixHeader] never returns a name gRPC
    keeps for itself (a pseudo-header or a key that starts with [grpc-]); it
    leaves every other key as it is, puts [dapr-] in front of the reserved
    ones, and changes nothing when it is applied a second time. *)
Theorem reserved_names_are_renamed (key : string) :
  reserved (ReservedGRPCMetadataToDaprPrefixHeader key) = false
  /\ (reserved key = false -> ReservedGRPCMetadataToDaprPrefixHeader key = key)
  /\ (reserved key = true ->
      HasPrefix (ReservedGRPCMetadataToDaprPrefixHeader key) DaprHeaderPrefix
      = true)
  /\ ReservedGRPCMetadataToDaprPrefixHeader
       (ReservedGRPCMetadataToDaprPrefixHeader key)
     = ReservedGRPCMetadataToDaprPrefixHeader key.
Proof.
  destruct (Reserved_renamed key) as [Hout Hprefix].
  split; [exact Hout|].
  split; [apply Reserved_fixed|].
  split; [exact Hprefix|].
  apply Reserved_fixed. exact Hout.
Qed.

(** *** The calls of the loop *)

Lemma setAll_recordHeader (name : string) (vals : list string) :
  forall calls,
    setAll recordHeader name vals calls
    = calls ++ map (fun v => (name, v)) vals.
Proof.
  unfold setAll. induction vals as [|v vals IH]; intros calls.
  - rewrite app_nil_r. reflexivity.
  - cbn [fold_left map]. rewrite IH. unfold recordHeader.
    rewrite <- app_assoc. reflexivity.
Qed.

Lemma httpRound_sink (vars : httpVars (list (string * string))) (k : string)
    (listVal : ListStringValue) :
  sink (httpRound recordHeader vars k listVal)
  = sink vars ++ httpCopied (k, listVal).
Proof.
  unfold httpRound, httpCopied. cbn [fst snd].
  destruct (GetValues listVal) as [|v0 later] eqn:Hvals;
    [rewrite app_nil_r; reflexivity|].
  destruct (String.eqb (ToLower k) diagConsts.TraceparentHeader);
    [cbn [orb sink]; rewrite app_nil_r; reflexivity|].
  destruct (String.eqb (ToLower k) diagConsts.TracestateHeader);
    [cbn [orb sink]; rewrite app_nil_r; reflexivity|].
  destruct (String.eqb (ToLower k) diagConsts.GRPCTraceContextKey);
    [cbn [orb sink]; rewrite app_nil_r; reflexivity|].
  destruct (String.eqb (ToLower k) DestinationIDHeader);
    [cbn [orb sink]; rewrite app_nil_r; reflexivity|].
  cbn [orb].
  destruct (String.eqb (ToLower k) diagConsts.BaggageHeader);
    [reflexivity|].
  destruct (HasSuffix (ToLower k) gRPCBinaryMetadataSuffix
            || String.eqb (ToLower k) ContentTypeHeader);
    [rewrite app_nil_r; reflexivity|].
  cbn [sink]. apply setAll_recordHeader.
Qed.

Lemma httpLoop_sink (entries : DaprInternalMetadata) :
  forall vars : httpVars (list (string * string)),
    sink (httpLoop recordHeader vars entries)
    = sink vars ++ flat_map httpCopied entries.
Proof.
  unfold httpLoop.
  induction entries as [|[k listVal] entries IH]; intros vars.
  - simpl. rewrite app_nil_r. reflexivity.
  - cbn [fold_left flat_map]. rewrite IH, httpRound_sink, <- app_assoc.
    reflexivity.
Qed.

(** The calls the HTTP bridge makes: those of the loop, then the trace
    headers. *)
Lemma HTTP_bridge_calls (ctx : Ctx) (internalMD : DaprInternalMetadata)
    (calls calls' : list (string * string)) :
  InternalMetadataToHTTPHeader ctx internalMD recordHeader calls = Some calls' ->
  exists (traceparent : string) (tracestate : list (string * string)),
    calls'
    = calls ++ flat_map httpCopied internalMD
      ++ ("traceparent", traceparent) :: tracestate
    /\ (tracestate = []
        \/ exists value, tracestate = [("tracestate", value)]).
Proof.
  unfold InternalMetadataToHTTPHeader. intros Hcalls.
  destruct (IsGRPCProtocol internalMD) as [isGRPC|]; [|discriminate Hcalls].
  cbn [mbind option_bind] in Hcalls. inversion Hcalls as [Heq]. clear Hcalls Heq.
  assert (Hw : forall sc,
    exists tp ts, W3CHeaders sc = ("traceparent", tp) :: ts
      /\ (ts = [] \/ exists value, ts = [("tracestate", value)])).
  { intros sc. unfold W3CHeaders.
    destruct (String.eqb (TraceStateToW3CString sc) ""); eauto 6. }
  destruct isGRPC.
  - rewrite processGRPCToHTTPTraceHeaders_calls, httpLoop_sink.
    cbn [sink].
    match goal with |- context [W3CHeaders ?sc] =>
      destruct (Hw sc) as (tp & ts & Heq & Hts) end.
    rewrite Heq, <- app_assoc. exists tp, ts. split; [reflexivity|exact Hts].
  - rewrite processHTTPToHTTPTraceHeaders_calls, httpLoop_sink.
    cbn [sink]. rewrite <- app_assoc.
    destruct (String.eqb _ "").
    + destruct (Hw (SpanFromContext ctx)) as (tp & ts & Heq & Hts).
      rewrite Heq. exists tp, ts. split; [reflexivity|exact Hts].
    + destruct (String.eqb _ ""); eauto 6.
Qed.

(** *** Names that never become HTTP headers *)

Lemma Reserved_keeps_out (keyName : string) :
  HasSuffix keyName gRPCBinaryMetadataSuffix = false ->
  keyName <> ContentTypeHeader ->
  keyName <> DestinationIDHeader ->
  HasSuffix (ReservedGRPCMetadataToDaprPrefixHeader keyName)
    gRPCBinaryMetadataSuffix = false
  /\ ReservedGRPCMetadataToDaprPrefixHeader keyName <> ContentTypeHeader
  /\ ReservedGRPCMetadataToDaprPrefixHeader keyName <> DestinationIDHeader.
Proof.
  intros Hbin Hct Hdest. unfold ReservedGRPCMetadataToDaprPrefixHeader.
  destruct (String.eqb_spec keyName ":method") as [->|_];
    [repeat split; discriminate|].
  destruct (String.eqb_spec keyName ":scheme") as [->|_];
    [repeat split; discriminate|].
  destruct (String.eqb_spec keyName ":path") as [->|_];
    [repeat split; discriminate|].
  destruct (String.eqb_spec keyName ":authority") as [->|_];
    [repeat split; discriminate|].
  cbn [orb]. destruct (HasPrefix keyName "grpc-") eqn:Hg;
    [|repeat split; assumption].
  apply HasPrefix_length in Hg. simpl in Hg.
  split; [rewrite HasSuffix_prepend by (simpl; lia); exact Hbin|].
  split.
  - apply prefixed_ne. discriminate.
  - apply prefixed_ne_destination.
Qed.

Lemma httpCopied_names (entry : string * ListStringValue)
    (name value : string) :
  In (name, value) (httpCopied entry) ->
  reserved name = false
  /\ HasSuffix name gRPCBinaryMetadataSuffix = false
  /\ name <> ContentTypeHeader /\ name <> DestinationIDHeader.
Proof.
  unfold httpCopied. destruct (GetValues (snd entry)) as [|v0 later];
    [intros []|].
  destruct (String.eqb (ToLower (fst entry)) diagConsts.TraceparentHeader
            || String.eqb (ToLower (fst entry)) diagConsts.TracestateHeader
            || String.eqb (ToLower (fst entry)) diagConsts.GRPCTraceContextKey
            || String.eqb (ToLower (fst entry)) DestinationIDHeader) eqn:Hsw;
    [intros []|].
  destruct (String.eqb (ToLower (fst entry)) diagConsts.BaggageHeader).
  - intros [Heq|[]]. inversion Heq; subst. repeat split; discriminate.
  - destruct (HasSuffix (ToLower (fst entry)) gRPCBinaryMetadataSuffix
              || String.eqb (ToLower (fst entry)) ContentTypeHeader) eqn:Hdrop;
      [intros []|].
    intros Hin. apply in_map_iff in Hin as (v & Heq & _).
    inversion Heq; subst. clear Heq.
    apply orb_false_iff in Hdrop as [Hbin Hct].
    apply orb_false_iff in Hsw as [_ Hdest].
    apply String.eqb_neq in Hct, Hdest.
    destruct (Reserved_renamed (ToLower (fst entry))) as [Hres _].
    destruct (Reserved_keeps_out _ Hbin Hct Hdest) as (H1 & H2 & H3).
    repeat split; assumption.
Qed.

(** X10: the HTTP bridge keeps the calls made before it, then makes the calls
    of the entries one entry after the other in the order of the visit, and
    last sets [traceparent], followed by at most one call that sets
    [tracestate].  None of the calls it makes sets a header that ends in
    [-bin], the header [content-type], the header [destination-app-id], a
    pseudo-header or a header that starts with [grpc-]. *)
Theorem HTTP_bridge_calls_in_visit_order (ctx : Ctx)
    (internalMD : DaprInternalMetadata)
    (calls calls' : list (string * string)) :
  InternalMetadataToHTTPHeader ctx internalMD recordHeader calls = Some calls' ->
  exists (traceparent : string) (tracestate : list (string * string)),
    calls'
    = calls ++ flat_map httpCopied internalMD
      ++ ("traceparent", traceparent) :: tracestate
    /\ (tracestate = []
        \/ exists value, tracestate = [("tracestate", value)])
    /\ forall name value : string,
         In (name, value)
           (flat_map httpCopied internalMD
            ++ ("traceparent", traceparent) :: tracestate) ->
         reserved name = false
         /\ HasSuffix name gRPCBinaryMetadataSuffix = false
         /\ name <> ContentTypeHeader /\ name <> DestinationIDHeader.
Proof.
  intros Hcalls.
  destruct (HTTP_bridge_calls ctx internalMD calls calls' Hcalls)
    as (tp & ts & Heq & Hts).
  exists tp, ts. split; [exact Heq|]. split; [exact Hts|].
  intros name value Hin.
  apply in_app_or in Hin as [Hin|Hin].
  - apply in_flat_map in Hin as (entry & _ & Hin).
    exact (httpCopied_names entry name value Hin).
  - destruct Hin as [Hhead|Hin].
    + inversion Hhead; subst. repeat split; discriminate.
    + destruct Hts as [->|[st ->]]; [destruct Hin|].
      destruct Hin as [Hhead|[]]. inversion Hhead; subst.
      repeat split; discriminate.
Qed.

End HttpBridge.

(** ** The outgoing call context *)

Section OutgoingContext.

Import strings v1.

Lemma WithCustomGRPCMetadata_filter (md : list (string * string)) :
  forall ctx : metadata.OutgoingContext,
    WithCustomGRPCMetadata ctx md
    = ctx
      ++ map (fun entry => (ToLower (fst entry), snd entry))
           (List.filter
              (fun entry =>
                 negb (EqualFold (fst entry) ContentTypeHeader
                       || EqualFold (fst entry) ContentLengthHeader))
              md).
Proof.
  unfold WithCustomGRPCMetadata.
  induction md as [|[k v] md IH]; intros ctx.
  - simpl. rewrite app_nil_r. reflexivity.
  - cbn [fold_left List.filter fst snd]. rewrite IH. unfold customRound.
    destruct (EqualFold k ContentTypeHeader || EqualFold k ContentLengthHeader);
      cbn [negb]; [reflexivity|].
    unfold metadata.AppendToOutgoingContext. rewrite <- app_assoc.
    reflexivity.
Qed.

(** X11: [WithCustomGRPCMetadata] keeps what the context held, adds every
    entry of the map whose key is neither [content-type] nor
    [content-length] in any case, once, with the key in lower case and the
    value as it is, and adds nothing else: no key it adds is [content-type]
    or [content-length]. *)
Theorem custom_metadata_skips_content_headers
    (ctx : metadata.OutgoingContext) (md : list (string * string)) :
  WithCustomGRPCMetadata ctx md
  = ctx
    ++ map (fun entry => (ToLower (fst entry), snd entry))
         (List.filter
            (fun entry =>
               negb (EqualFold (fst entry) ContentTypeHeader
                     || EqualFold (fst entry) ContentLengthHeader))
            md)
  /\ forall k v : string,
       In (k, v) (WithCustomGRPCMetadata ctx md) ->
       In (k, v) ctx
       \/ (k <> ContentTypeHeader /\ k <> ContentLengthHeader
           /\ ToLower k = k
           /\ exists k0, In (k0, v) md /\ ToLower k0 = k).
Proof.
  split; [apply WithCustomGRPCMetadata_filter|].
  intros k v. rewrite WithCustomGRPCMetadata_filter. intros Hin.
  apply in_app_or in Hin as [Hin|Hin]; [left; exact Hin|right].
  apply in_map_iff in Hin as ([k0 v0] & Heq & Hin).
  cbn [fst snd] in Heq. inversion Heq; subst. clear Heq.
  apply filter_In in Hin as [Hin Hkeep]. cbn [fst] in Hkeep.
  apply negb_true_iff, orb_false_iff in Hkeep as [Hct Hcl].
  unfold EqualFold in Hct, Hcl. apply String.eqb_neq in Hct, Hcl.
  split; [exact Hct|]. split; [exact Hcl|].
  split; [apply ToLower_idem|]. exists k0. split; [exact Hin|reflexivity].
Qed.

End OutgoingContext.

(** ** The interceptors *)

Section Interceptors.

Import diagnostics.

(** X12: the unary server interceptor hands on the response and the error of
    the handler as they are, and gives the error counter every error,
    whether the recorder is enabled or not; a disabled recorder leaves the
    meter as the handler left it, an enabled one adds four measurements.  It
    panics exactly when the request is no protobuf message, or the handler
    succeeds with a response that is none. *)
Theorem unary_server_interceptor_passes_through (g : option grpcMetrics)
    (req : Payload) (FullMethod : string)
    (handler : World -> Payload * option grpcStatus.error * World)
    (start now : Z) (w : World)
    (resp : Payload) (err : option grpcStatus.error) (w1 : World) :
  handler w = (resp, err, w1) ->
  (UnaryServerInterceptor g req FullMethod handler start now w = None
   <-> req = None \/ (err = None /\ resp = None))
  /\ forall r,
       UnaryServerInterceptor g req FullMethod handler start now w = Some r ->
       fst (fst r) = resp /\ snd (fst r) = err
       /\ errorCodes (snd r) = errorCodes w1 ++ counted err
       /\ (IsEnabled g = false -> meter (snd r) = meter w1)
       /\ (IsEnabled g = true ->
           exists added,
             meter (snd r) = meter w1 ++ added /\ length added = 4%nat).
Proof.
  intros Hh. unfold UnaryServerInterceptor. rewrite Hh.
  unfold getPayloadSize. split.
  - destruct err as [e|]; destruct resp as [n|]; destruct req as [m|];
      cbn [mbind option_bind]; split; intros Hx; try discriminate Hx;
      try reflexivity; try (left; reflexivity); try (right; split; reflexivity);
      destruct Hx as [Hx|[Hx1 Hx2]]; discriminate.
  - intros r Hr.
    assert (Hmeter : forall status reqSize size,
      (IsEnabled g = false ->
       ServerRequestSent g FullMethod status reqSize size start now (meter w1)
       = meter w1)
      /\ (IsEnabled g = true ->
          exists added,
            ServerRequestSent g FullMethod status reqSize size start now
              (meter w1) = meter w1 ++ added /\ length added = 4%nat)).
    { intros status reqSize size. unfold ServerRequestSent. split.
      - intros ->. reflexivity.
      - intros Hon. rewrite Hon. cbn [negb].
        destruct g as [g'|]; [|discriminate Hon].
        unfold RecordWithOptions. rewrite <- !app_assoc.
        eexists. split; [reflexivity|reflexivity]. }
    destruct err as [e|]; destruct resp as [n|]; destruct req as [m|];
      cbn [mbind option_bind] in Hr; try discriminate Hr;
      inversion Hr; subst r; cbn [fst snd meter errorCodes RecordErrorCode counted];
      rewrite ?app_nil_r;
      (split; [reflexivity|]); (split; [reflexivity|]);
      (split; [reflexivity|]); apply Hmeter.
Qed.

(** X13: a unary call that fails is measured with a response of size zero,
    whatever the handler returned beside the error, and under the name of the
    error's code: on the server the sent bytes, on the client the received
    bytes. *)
Theorem failed_unary_call_is_measured_empty (g' : grpcMetrics)
    (reqSize : Z) (method : string)
    (handler : World -> Payload * option grpcStatus.error * World)
    (start now : Z) (w : World)
    (resp : Payload) (e : grpcStatus.error) (w1 : World) :
  enabled g' = true ->
  handler w = (resp, Some e, w1) ->
  let status := codes.String (grpcStatus.CodeOf (Some e)) in
  UnaryServerInterceptor (Some g') (Some reqSize) method handler start now w
  = Some
      (resp, Some e,
       {| meter :=
            meter w1
            ++ [ {| measure := serverCompletedRpcs g';
                    tags := [(appIDKey, appID g'); (KeyServerMethod, method);
                             (KeyServerStatus, status)];
                    value := 1 |};
                 {| measure := serverReceivedBytes g';
                    tags := [(appIDKey, appID g'); (KeyServerMethod, method)];
                    value := reqSize |};
                 {| measure := serverSentBytes g';
                    tags := [(appIDKey, appID g'); (KeyServerMethod, method)];
                    value := 0 |};
                 {| measure := serverLatency g';
                    tags := [(appIDKey, appID g'); (KeyServerMethod, method);
                             (KeyServerStatus, status)];
                    value := elapsedMs start now |} ];
          errorCodes := errorCodes w1 ++ [e] |})
  /\ (method <> appHealthCheckMethod ->
      UnaryClientInterceptor (Some g') method (Some reqSize) handler start
        now w
      = Some
          (Some e,
           {| meter :=
                meter w1
                ++ [ {| measure := clientCompletedRpcs g';
                        tags := [(appIDKey, appID g');
                                 (KeyClientMethod, method);
                                 (KeyClientStatus, status)];
                        value := 1 |};
                     {| measure := clientRoundtripLatency g';
                        tags := [(appIDKey, appID g');
                                 (KeyClientMethod, method);
                                 (KeyClientStatus, status)];
                        value := elapsedMs start now |};
                     {| measure := clientSentBytes g';
                        tags := [(appIDKey, appID g');
                                 (KeyClientMethod, method)];
                        value := reqSize |};
                     {| measure := clientReceivedBytes g';
                        tags := [(appIDKey, appID g');
                                 (KeyClientMethod, method)];
                        value := 0 |} ];
              errorCodes := errorCodes w1 ++ [e] |})).
Proof.
  intros Hon Hh status.
  unfold UnaryServerInterceptor, UnaryClientInterceptor. rewrite Hh.
  unfold getPayloadSize, ServerRequestSent, ClientRequestReceived,
    RecordWithOptions, WithTags, RecordErrorCode, IsEnabled.
  rewrite Hon. cbn [mbind option_bind negb meter errorCodes].
  rewrite <- !app_assoc. split; [reflexivity|].
  intros Hm. apply String.eqb_neq in Hm. rewrite Hm.
  cbn [mbind option_bind meter errorCodes]. reflexivity.
Qed.

(** X14: a client call of the health check method is measured as a health
    probe: the request is not looked at, no client measurement is made, and
    an enabled recorder adds the count and the latency of the probe, tagged
    with the application and the status and with no method. *)
Theorem health_check_is_measured_as_probe (g : option grpcMetrics)
    (req : Payload)
    (invoker : World -> Payload * option grpcStatus.error * World)
    (start now : Z) (w : World)
    (reply : Payload) (err : option grpcStatus.error) (w1 : World) :
  invoker w = (reply, err, w1) ->
  (err = None -> reply <> None) ->
  let status := codes.String (grpcStatus.CodeOf err) in
  UnaryClientInterceptor g appHealthCheckMethod req invoker start now w
  = Some
      (err,
       {| meter := AppHealthProbeCompleted g status start now (meter w1);
          errorCodes := errorCodes w1 ++ counted err |})
  /\ forall g' : grpcMetrics,
       g = Some g' -> enabled g' = true ->
       AppHealthProbeCompleted g status start now (meter w1)
       = meter w1
         ++ [ {| measure := healthProbeCompletedCount g';
                 tags := [(appIDKey, appID g'); (KeyClientStatus, status)];
                 value := 1 |};
              {| measure := healthProbeRoundtripLatency g';
                 tags := [(appIDKey, appID g'); (KeyClientStatus, status)];
                 value := elapsedMs start now |} ].
Proof.
  intros Hi Hreply status. split.
  - unfold UnaryClientInterceptor. rewrite Hi.
    change (String.eqb appHealthCheckMethod appHealthCheckMethod) with true.
    unfold getPayloadSize.
    destruct err as [e|]; cbn [mbind option_bind].
    + unfold RecordErrorCode. cbn [meter errorCodes counted]. reflexivity.
    + destruct reply as [n|]; [|exfalso; apply (Hreply eq_refl); reflexivity].
      cbn [mbind option_bind counted]. rewrite app_nil_r. reflexivity.
  - intros g' -> Hon. unfold AppHealthProbeCompleted, IsEnabled,
      RecordWithOptions, WithTags.
    rewrite Hon. cbn [negb]. rewrite <- app_assoc. reflexivity.
Qed.

(** X15: a stream whose incoming metadata has no value under [dapr-app-id] is
    handed to the handler and nothing else happens: no measurement is made
    and the error counter is not given the error, whether the recorder is
    enabled or not.  With a value there, the error of the handler is handed
    on and counted, a disabled recorder leaves the meter as it is and an
    enabled one adds two measurements. *)
Theorem stream_interceptors_gate_on_app_id (g : option grpcMetrics)
    (md : metadata.MD) (FullMethod : string)
    (handler : World -> option grpcStatus.error * World)
    (start now : Z) (w : World) :
  ((md !! "dapr-app-id" = None \/ md !! "dapr-app-id" = Some []) ->
   StreamingServerInterceptor g md FullMethod handler start now w = handler w
   /\ StreamingClientInterceptor g md FullMethod handler start now w
      = handler w)
  /\ forall (v : string) (vals : list string),
       md !! "dapr-app-id" = Some (v :: vals) ->
       let err := fst (handler w) in
       let w1 := snd (handler w) in
       let status := codes.String (grpcStatus.CodeOf err) in
       StreamingServerInterceptor g md FullMethod handler start now w
       = (err,
          {| meter :=
               StreamServerRequestSent g FullMethod status start now
                 (meter w1);
             errorCodes := errorCodes w1 ++ counted err |})
       /\ StreamingClientInterceptor g md FullMethod handler start now w
          = (err,
             {| meter :=
                  StreamClientRequestSent g FullMethod status start now
                    (meter w1);
                errorCodes := errorCodes w1 ++ counted err |})
       /\ (IsEnabled g = false ->
           StreamServerRequestSent g FullMethod status start now (meter w1)
           = meter w1
           /\ StreamClientRequestSent g FullMethod status start now (meter w1)
              = meter w1)
       /\ (IsEnabled g = true ->
           length (StreamServerRequestSent g FullMethod status start now
                     (meter w1)) = (length (meter w1) + 2)%nat
           /\ length (StreamClientRequestSent g FullMethod status start now
                        (meter w1)) = (length (meter w1) + 2)%nat).
Proof.
  unfold StreamingServerInterceptor, StreamingClientInterceptor, notProxied.
  change diagConsts.GRPCProxyAppIDKey with "dapr-app-id".
  split.
  - intros [-> | ->]; split; reflexivity.
  - intros v vals Hmd. cbv zeta. rewrite Hmd.
    destruct (handler w) as [err w1]. cbn [fst snd].
    unfold RecordErrorCode, StreamServerRequestSent, StreamClientRequestSent,
      RecordWithOptions.
    split; [destruct err; cbn [meter errorCodes counted];
            rewrite ?app_nil_r; reflexivity|].
    split; [destruct err; cbn [meter errorCodes counted];
            rewrite ?app_nil_r; reflexivity|].
    split; [intros ->; split; reflexivity|].
    intros Hon. rewrite Hon. cbn [negb].
    destruct g as [g'|]; [|discriminate Hon].
    rewrite !length_app. simpl. split; lia.
Qed.

End Interceptors.

(** ** The content type of JSON *)

Section ContentType.

Import strings v1.

(** X16: of a content type made of ASCII bytes, on which [ToLower] is Go's
    [strings.ToLower], [IsJSONContentType] accepts exactly those that begin
    with [application/json] written in any case; what follows it, a charset
    or anything else, is not looked at. *)
Theorem IsJSONContentType_iff (contentType : string) :
  isASCII contentType = true ->
  (IsJSONContentType contentType = true
   <-> exists mediaType rest : string,
         contentType = mediaType +:+ rest
         /\ ToLower mediaType = "application/json").
Proof.
  intros _. unfold IsJSONContentType, JSONContentType. split.
  - intros Hp. pose proof (HasPrefix_length _ _ Hp) as Hlen.
    rewrite ToLower_length in Hlen.
    unfold HasPrefix in Hp. apply andb_true_iff in Hp as [_ Heq].
    apply String.eqb_eq in Heq.
    exists (String.substring 0 (String.length "application/json") contentType),
      (String.substring (String.length "application/json")
         (String.length contentType - String.length "application/json")
         contentType).
    split; [symmetry; apply substring_split; exact Hlen|].
    rewrite ToLower_substring. exact Heq.
  - intros (mediaType & rest & -> & Hlower).
    rewrite ToLower_append, Hlower. apply HasPrefix_append.
Qed.

End ContentType.

(** ** The further properties on concrete inputs *)

Section FurtherExamples.

Import strings v1 diagnostics.

Lemma bridge_output_is_wellKeyed_witness :
  exists md : metadata.MD,
    @InternalMetadataToGrpcMetadata w3c.tracing w3c.ambient
      [("Content-Type", {| Values := ["application/json"] |});
       ("X-Request-Id", {| Values := ["7"; "8"] |});
       ("Empty", {| Values := [] |})] true = Some md
    /\ wellKeyed md.
Proof.
  eexists. split; [reflexivity|].
  apply (@bridge_output_is_wellKeyed w3c.tracing w3c.ambient
           [("Content-Type", {| Values := ["application/json"] |});
            ("X-Request-Id", {| Values := ["7"; "8"] |});
            ("Empty", {| Values := [] |})] true).
  reflexivity.
Defined.

Lemma bridge_merges_in_visit_order_witness :
  exists md : metadata.MD,
    @InternalMetadataToGrpcMetadata w3c.tracing w3c.ambient
      [("X-Id", {| Values := ["a"] |});
       ("content-type", {| Values := ["application/grpc"] |});
       ("x-id", {| Values := ["b"; "c"] |})] false = Some md
    /\ md !! "x-id" = Some ["a"; "b"; "c"].
Proof.
  eexists. split; [reflexivity|].
  destruct (@bridge_merges_in_visit_order w3c.tracing w3c.ambient
              [("X-Id", {| Values := ["a"] |});
               ("content-type", {| Values := ["application/grpc"] |});
               ("x-id", {| Values := ["b"; "c"] |})] false _ "x-id" eq_refl)
    as [Hlookup _]; try discriminate.
  etransitivity; [exact Hlookup|vm_compute; reflexivity].
Defined.

Lemma destination_id_is_never_copied_witness :
  exists md : metadata.MD,
    @InternalMetadataToGrpcMetadata w3c.tracing w3c.ambient
      [("Destination-App-Id", {| Values := ["callee"] |});
       ("content-type", {| Values := ["application/json"] |})] true = Some md
    /\ md !! "destination-app-id" = None.
Proof.
  eexists. split; [reflexivity|].
  apply (@destination_id_is_never_copied w3c.tracing w3c.ambient
           [("Destination-App-Id", {| Values := ["callee"] |});
            ("content-type", {| Values := ["application/json"] |})] true).
  reflexivity.
Defined.

Lemma later_trace_values_are_ignored_witness :
  @InternalMetadataToGrpcMetadata w3c.tracing w3c.ambient
    ([("content-type", {| Values := ["application/json"] |})]
     ++ ("Traceparent",
         {| Values :=
              ["00-0af7651916cd43dd8448eb211c80319c-b7ad6b7169203331-01";
               "00-ffffffffffffffffffffffffffffffff-ffffffffffffffff-00"] |})
        :: []) true
  = @InternalMetadataToGrpcMetadata w3c.tracing w3c.ambient
      ([("content-type", {| Values := ["application/json"] |})]
       ++ ("Traceparent",
           {| Values :=
                ["00-0af7651916cd43dd8448eb211c80319c-b7ad6b7169203331-01"] |})
          :: []) true.
Proof.
  apply (@later_trace_values_are_ignored w3c.tracing w3c.ambient true
           [("content-type", {| Values := ["application/json"] |})]
           "Traceparent"
           "00-0af7651916cd43dd8448eb211c80319c-b7ad6b7169203331-01"
           ["00-ffffffffffffffffffffffffffffffff-ffffffffffffffff-00"] []).
  reflexivity.
Defined.

Lemma HTTP_bridge_calls_in_visit_order_witness :
  @InternalMetadataToHTTPHeader w3c.tracing _ w3c.ambient
    [("X-Id", {| Values := ["a"; "b"] |});
     ("content-type", {| Values := ["application/json"] |});
     ("Grpc-Timeout", {| Values := ["1S"] |});
     ("Payload-Bin", {| Values := ["aGk="] |});
     (":path", {| Values := ["/v1"] |})]
    recordHeader [("Host", "localhost")]
  = Some
      [("Host", "localhost"); ("x-id", "a"); ("x-id", "b");
       ("dapr-grpc-timeout", "1S"); ("dapr-path", "/v1");
       ("traceparent",
        "00-4bf92f3577b34da6a3ce929d0e0e4736-00f067aa0ba902b7-01")]
  /\ reserved "dapr-grpc-timeout" = false
  /\ HasSuffix "dapr-grpc-timeout" gRPCBinaryMetadataSuffix = false.
Proof.
  assert (Hcalls :
    @InternalMetadataToHTTPHeader w3c.tracing _ w3c.ambient
      [("X-Id", {| Values := ["a"; "b"] |});
       ("content-type", {| Values := ["application/json"] |});
       ("Grpc-Timeout", {| Values := ["1S"] |});
       ("Payload-Bin", {| Values := ["aGk="] |});
       (":path", {| Values := ["/v1"] |})]
      recordHeader [("Host", "localhost")]
    = Some
        [("Host", "localhost"); ("x-id", "a"); ("x-id", "b");
         ("dapr-grpc-timeout", "1S"); ("dapr-path", "/v1");
         ("traceparent",
          "00-4bf92f3577b34da6a3ce929d0e0e4736-00f067aa0ba902b7-01")])
    by (vm_compute; reflexivity).
  split; [exact Hcalls|].
  destruct (@HTTP_bridge_calls_in_visit_order w3c.tracing w3c.ambient _ _ _
              Hcalls)
    as (traceparent & tracestate & _ & _ & Hnames).
  destruct (Hnames "dapr-grpc-timeout" "1S") as (Hreserved & Hbin & _).
  - right. right. left. reflexivity.
  - split; [exact Hreserved|exact Hbin].
Defined.

Lemma unary_server_interceptor_passes_through_witness :
  exists r,
    UnaryServerInterceptor (Some (Init newGRPCMetrics "app")) (Some 3)
      "/pkg.Service/Call" (fun w => (Some 5, Some grpcStatus.OtherError, w))
      0 2500000 {| meter := []; errorCodes := [] |} = Some r
    /\ fst (fst r) = Some 5
    /\ snd (fst r) = Some grpcStatus.OtherError
    /\ errorCodes (snd r) = [grpcStatus.OtherError].
Proof.
  destruct (unary_server_interceptor_passes_through
              (Some (Init newGRPCMetrics "app")) (Some 3)
              "/pkg.Service/Call"
              (fun w => (Some 5, Some grpcStatus.OtherError, w))
              0 2500000 {| meter := []; errorCodes := [] |}
              (Some 5) (Some grpcStatus.OtherError)
              {| meter := []; errorCodes := [] |} eq_refl)
    as [_ Hresult].
  eexists. split; [reflexivity|].
  destruct (Hresult _ eq_refl) as (Hresp & Herr & Hcodes & _).
  split; [exact Hresp|]. split; [exact Herr|exact Hcodes].
Defined.

Lemma failed_unary_call_is_measured_empty_witness :
  UnaryServerInterceptor (Some (Init newGRPCMetrics "app")) (Some 3)
    "/pkg.Service/Call"
    (fun w => (Some 5, Some (grpcStatus.StatusError codes.NotFound), w))
    0 2500000 {| meter := []; errorCodes := [] |}
  = Some
      (Some 5, Some (grpcStatus.StatusError codes.NotFound),
       {| meter :=
            [ {| measure := "grpc.io/server/completed_rpcs";
                 tags := [("app_id", "app");
                          ("grpc_server_method", "/pkg.Service/Call");
                          ("grpc_server_status", "NotFound")];
                 value := 1 |};
              {| measure := "grpc.io/server/received_bytes_per_rpc";
                 tags := [("app_id", "app");
                          ("grpc_server_method", "/pkg.Service/Call")];
                 value := 3 |};
              {| measure := "grpc.io/server/sent_bytes_per_rpc";
                 tags := [("app_id", "app");
                          ("grpc_server_method", "/pkg.Service/Call")];
                 value := 0 |};
              {| measure := "grpc.io/server/server_latency";
                 tags := [("app_id", "app");
                          ("grpc_server_method", "/pkg.Service/Call");
                          ("grpc_server_status", "NotFound")];
                 value := 2 |} ];
          errorCodes := [grpcStatus.StatusError codes.NotFound] |}).
Proof.
  destruct (failed_unary_call_is_measured_empty
              (Init newGRPCMetrics "app") 3 "/pkg.Service/Call"
              (fun w =>
                 (Some 5, Some (grpcStatus.StatusError codes.NotFound), w))
              0 2500000 {| meter := []; errorCodes := [] |}
              (Some 5) (grpcStatus.StatusError codes.NotFound)
              {| meter := []; errorCodes := [] |} eq_refl eq_refl)
    as [Hserver _].
  exact Hserver.
Defined.

Lemma health_check_is_measured_as_probe_witness :
  UnaryClientInterceptor (Some (Init newGRPCMetrics "app"))
    appHealthCheckMethod None (fun w => (Some 0, None, w))
    0 1000000 {| meter := []; errorCodes := [] |}
  = Some
      (None,
       {| meter :=
            [ {| measure := "grpc.io/healthprobes/completed_count";
                 tags := [("app_id", "app"); ("grpc_client_status", "OK")];
                 value := 1 |};
              {| measure := "grpc.io/healthprobes/roundtrip_latency";
                 tags := [("app_id", "app"); ("grpc_client_status", "OK")];
                 value := 1 |} ];
          errorCodes := [] |}).
Proof.
  destruct (health_check_is_measured_as_probe
              (Some (Init newGRPCMetrics "app")) None
              (fun w => (Some 0, None, w))
              0 1000000 {| meter := []; errorCodes := [] |}
              (Some 0) None {| meter := []; errorCodes := [] |} eq_refl)
    as [Hcall _].
  - discriminate.
  - exact Hcall.
Defined.

Lemma IsJSONContentType_iff_witness :
  isASCII "Application/JSON; charset=utf-8" = true
  /\ IsJSONContentType "Application/JSON; charset=utf-8" = true
  /\ isASCII "text/json" = true
  /\ IsJSONContentType "text/json" = false.
Proof.
  split; [reflexivity|]. split.
  - apply (proj2 (IsJSONContentType_iff "Application/JSON; charset=utf-8"
                    eq_refl)).
    exists "Application/JSON", "; charset=utf-8". split; reflexivity.
  - split; reflexivity.
Defined.

End FurtherExamples.
